(** * The WRI urban-inequality dashboards, as a shallow embedding

    [dashboard-filters.py] and [dashboard.py] are two Streamlit scripts:
    each loads a CSV table into a pandas frame, and the first one cleans
    the column names, derives sidebar filters from column-name heuristics,
    plots a scatter chart and an optional point map.

    The scripts are embedded as they are written: a script is a sequence
    of statements over mutable script variables ([df], [possible_income],
    ...), pandas frames live in a store so that in-place updates and
    rebinding of [df] are told apart, the Streamlit widgets are answered
    by the user, and an exception aborts the [try] body and is shown by
    the [except] handler. *)

From Stdlib Require Import String Ascii List ZArith QArith Bool Arith Lia.
Import ListNotations.
Close Scope Q_scope.

Set Implicit Arguments.

(* ================================================================== *)
(** * Python strings *)

Module PyStr.

(** [str.isspace] on one ASCII character. *)
Definition isspace (c : ascii) : bool :=
  let n := nat_of_ascii c in
  ((9 <=? n) && (n <=? 13)) || ((28 <=? n) && (n <=? 32)).

Fixpoint lstrip (s : string) : string :=
  match s with
  | EmptyString => EmptyString
  | String c s' => if isspace c then lstrip s' else s
  end.

Fixpoint rstrip (s : string) : string :=
  match s with
  | EmptyString => EmptyString
  | String c s' =>
      match rstrip s' with
      | EmptyString => if isspace c then EmptyString else String c EmptyString
      | r => String c r
      end
  end.

(** [s.strip()] *)
Definition strip (s : string) : string := rstrip (lstrip s).

Fixpoint smap (f : ascii -> ascii) (s : string) : string :=
  match s with
  | EmptyString => EmptyString
  | String c s' => String (f c) (smap f s')
  end.

(** [s.replace(old, new)] for one-character [old] and [new]. *)
Definition replace (old new : ascii) (s : string) : string :=
  smap (fun c => if Ascii.eqb c old then new else c) s.

Definition lower_char (c : ascii) : ascii :=
  let n := nat_of_ascii c in
  if (65 <=? n) && (n <=? 90) then ascii_of_nat (n + 32) else c.

(** [s.lower()] *)
Definition lower (s : string) : string := smap lower_char s.

(** [sub in s] *)
Fixpoint contains (sub s : string) : bool :=
  String.prefix sub s
  || match s with
     | EmptyString => false
     | String _ s' => contains sub s'
     end.

End PyStr.

(* ================================================================== *)
(** * Column roles *)

Inductive role := income | gender | region | time | latitude | longitude.

(** The trigger substrings of each role, as the specification tabulates
    them. *)
Definition triggers (r : role) : list string :=
  match r with
  | income => ["income"]
  | gender => ["gender"]
  | region => ["neigh"; "municipality"]
  | time => ["year"; "month"; "date"]
  | latitude => ["lat"]
  | longitude => ["lon"; "lng"]
  end%string.

Section Roles.

Import PyStr.

(** [df.columns.str.strip().str.replace(" ", "_").str.lower()], on one
    name. *)
Definition clean_name (col : string) : string :=
  lower (replace " " "_" (strip col)).

(** The list comprehensions over [df.columns] that collect the
    candidate columns of a role: [possible_income], [possible_gender],
    [possible_neigh], [possible_time], [lat_cols] and [lon_cols]. *)
Definition candidates (r : role) (columns : list string) : list string :=
  match r with
  | income => filter (fun col => contains "income" col) columns
  | gender => filter (fun col => contains "gender" col) columns
  | region =>
      filter (fun col => contains "neigh" col || contains "municipality" col)
             columns
  | time =>
      filter (fun col => contains "year" col || contains "month" col
                         || contains "date" col) columns
  | latitude => filter (fun col => contains "lat" (lower col)) columns
  | longitude =>
      filter (fun col => contains "lon" (lower col)
                         || contains "lng" (lower col)) columns
  end.

(** The column the script uses for a role: [possible_x[0]] under
    [if possible_x], no column otherwise. *)
Definition infer_roles (columns : list string) (r : role) : option string :=
  hd_error (candidates r columns).

End Roles.

(* ================================================================== *)
(** * Cells, series and frames *)

(** A cell of a frame.  [NA] is a missing cell (pandas' NaN, None and
    NaT); a finite float is the rational it denotes; a timestamp counts
    nanoseconds since the epoch. *)
Inductive value :=
| NA
| Str (s : string)
| Int (n : Z)
| Float (q : Q)
| Bool (b : bool)
| Timestamp (t : Z).

Inductive dtype := object | int64 | float64 | bool_ | datetime64.

Inductive exn :=
| NameError
| KeyError (key : string)
| AttributeError
| TypeError
| ValueError
| IOError
| StreamlitAPIException.

Inductive result (A : Type) :=
| Ok (a : A)
| Raise (e : exn).
Arguments Ok {A} a.
Arguments Raise {A} e.

Definition rbind {A B} (r : result A) (k : A -> result B) : result B :=
  match r with
  | Ok a => k a
  | Raise e => Raise e
  end.

Fixpoint mapM {A B} (f : A -> result B) (l : list A) : result (list B) :=
  match l with
  | [] => Ok []
  | x :: l' =>
      rbind (f x) (fun y => rbind (mapM f l') (fun ys => Ok (y :: ys)))
  end.

Definition dtype_eqb (a b : dtype) : bool :=
  match a, b with
  | object, object | int64, int64 | float64, float64
  | bool_, bool_ | datetime64, datetime64 => true
  | _, _ => false
  end.

Definition isna (v : value) : bool :=
  match v with NA => true | _ => false end.

Definition notna (v : value) : bool := negb (isna v).

(** The number a numeric cell stands for; Python's [True] and [False]
    are the integers 1 and 0. *)
Definition as_num (v : value) : option Q :=
  match v with
  | Int n => Some (inject_Z n)
  | Float q => Some q
  | Bool b => Some (if b then 1%Q else 0%Q)
  | _ => None
  end.

(** Equality as [isin] and [unique] see it: missing cells match each
    other, numbers compare by value. *)
Definition value_eqb (a b : value) : bool :=
  match a, b with
  | NA, NA => true
  | Str s, Str t => String.eqb s t
  | Timestamp s, Timestamp t => Z.eqb s t
  | _, _ =>
      match as_num a, as_num b with
      | Some p, Some q => Qeq_bool p q
      | _, _ => false
      end
  end.

(** [a <= b].  A comparison with a missing value is false; numbers,
    timestamps and strings compare among themselves; any other pair is
    a [TypeError]. *)
Definition value_le (a b : value) : result bool :=
  match a, b with
  | NA, _ | _, NA => Ok false
  | Str s, Str t => Ok (String.leb s t)
  | Timestamp s, Timestamp t => Ok (Z.leb s t)
  | _, _ =>
      match as_num a, as_num b with
      | Some p, Some q => Ok (Qle_bool p q)
      | _, _ => Raise TypeError
      end
  end.

Record Series := { dtype_of : dtype; tolist : list value }.

Record DataFrame := {
  columns : list string;
  dtypes : list dtype;
  rows : list (list value)
}.

Definition with_rows (d : DataFrame) (rs : list (list value)) : DataFrame :=
  {| columns := columns d; dtypes := dtypes d; rows := rs |}.

(** [df.columns = names] *)
Definition set_columns (d : DataFrame) (names : list string) : DataFrame :=
  {| columns := names; dtypes := dtypes d; rows := rows d |}.

(** The positions at which a label occurs among the column labels. *)
Fixpoint positions (col : string) (names : list string) (i : nat) : list nat :=
  match names with
  | [] => []
  | c :: names' =>
      if String.eqb c col then i :: positions col names' (S i)
      else positions col names' (S i)
  end.

Definition cell (i : nat) (row : list value) : value := nth i row NA.

(** [df[col]] read as a series.  A label that occurs twice selects a
    frame, on which the series attribute the script reads next
    ([unique], [dtype], [min]) does not exist. *)
Definition getitem (d : DataFrame) (col : string) : result Series :=
  match positions col (columns d) 0 with
  | [] => Raise (KeyError col)
  | [i] => Ok {| dtype_of := nth i (dtypes d) object;
                 tolist := map (cell i) (rows d) |}
  | _ => Raise AttributeError
  end.

(** [s.dropna()] and [s.unique()] (first occurrences, in order). *)
Definition dropna (s : Series) : Series :=
  {| dtype_of := dtype_of s; tolist := filter notna (tolist s) |}.

Fixpoint dedup (seen l : list value) : list value :=
  match l with
  | [] => []
  | v :: l' =>
      if existsb (value_eqb v) seen then dedup seen l'
      else v :: dedup (v :: seen) l'
  end.

Definition unique (s : Series) : Series :=
  {| dtype_of := dtype_of s; tolist := dedup [] (tolist s) |}.

(** [s.isin(values)], a boolean mask. *)
Definition isin (s : Series) (values : list value) : list bool :=
  map (fun v => existsb (value_eqb v) values) (tolist s).

(** [s >= v], [s <= v] and [m1 & m2]. *)
Definition series_ge (s : Series) (v : value) : result (list bool) :=
  mapM (fun x => value_le v x) (tolist s).

Definition series_le (s : Series) (v : value) : result (list bool) :=
  mapM (fun x => value_le x v) (tolist s).

Fixpoint mask_and (m1 m2 : list bool) : list bool :=
  match m1, m2 with
  | a :: m1', b :: m2' => (a && b) :: mask_and m1' m2'
  | _, _ => []
  end.

(** [s.min()] and [s.max()]: missing cells are skipped, an empty series
    has a missing minimum. *)
Fixpoint reduce (pick : value -> value -> result value) (acc : value)
         (l : list value) : result value :=
  match l with
  | [] => Ok acc
  | v :: l' => rbind (pick acc v) (fun a => reduce pick a l')
  end.

Definition pick_min (a v : value) : result value :=
  rbind (value_le v a) (fun b => Ok (if b then v else a)).

Definition pick_max (a v : value) : result value :=
  rbind (value_le a v) (fun b => Ok (if b then v else a)).

Definition list_min (l : list value) : result value :=
  match filter notna l with
  | [] => Ok NA
  | v :: l' => reduce pick_min v l'
  end.

Definition list_max (l : list value) : result value :=
  match filter notna l with
  | [] => Ok NA
  | v :: l' => reduce pick_max v l'
  end.

Definition series_min (s : Series) : result value := list_min (tolist s).

Definition series_max (s : Series) : result value := list_max (tolist s).

(** [df[mask]]: the rows at which the mask is true. *)
Fixpoint select {A} (l : list A) (mask : list bool) : list A :=
  match l, mask with
  | x :: l', b :: mask' => if b then x :: select l' mask' else select l' mask'
  | _, _ => []
  end.

Definition getitem_mask (d : DataFrame) (mask : list bool) : DataFrame :=
  with_rows d (select (rows d) mask).

(** [df.dropna(how="all")]: a row goes when all its cells are missing. *)
Definition dropna_all (d : DataFrame) : DataFrame :=
  with_rows d (filter (fun row => negb (forallb isna row)) (rows d)).

(** [df.dropna(subset=[col])] *)
Definition dropna_subset (d : DataFrame) (col : string) : result DataFrame :=
  match positions col (columns d) 0 with
  | [] => Raise (KeyError col)
  | ps => Ok (with_rows d
               (filter (fun row => forallb (fun i => notna (cell i row)) ps)
                       (rows d)))
  end.

Fixpoint set_nth {A} (i : nat) (x : A) (l : list A) : list A :=
  match l, i with
  | [] , _ => []
  | _ :: l', O => x :: l'
  | y :: l', S i' => y :: set_nth i' x l'
  end.

Fixpoint set_cells (i : nat) (rs : list (list value)) (vs : list value)
  : list (list value) :=
  match rs, vs with
  | row :: rs', v :: vs' => set_nth i v row :: set_cells i rs' vs'
  | _, _ => rs
  end.

(** [df[col] = s] for a series aligned with the frame: the column is
    replaced where the label exists and appended where it does not. *)
Definition setitem (d : DataFrame) (col : string) (s : Series) : DataFrame :=
  match positions col (columns d) 0 with
  | [] =>
      {| columns := columns d ++ [col];
         dtypes := dtypes d ++ [dtype_of s];
         rows := map (fun rv => fst rv ++ [snd rv]) (combine (rows d) (tolist s)) |}
  | i :: _ =>
      {| columns := columns d;
         dtypes := set_nth i (dtype_of s) (dtypes d);
         rows := set_cells i (rows d) (tolist s) |}
  end.

(** [df.select_dtypes(include=['float64', 'int64']).columns] *)
Fixpoint select_dtypes (names : list string) (ts : list dtype) : list string :=
  match names, ts with
  | c :: names', t :: ts' =>
      if dtype_eqb t float64 || dtype_eqb t int64
      then c :: select_dtypes names' ts'
      else select_dtypes names' ts'
  | _, _ => []
  end.

(** [df[[a, b]]]: every column carrying one of the labels, in the order
    of the labels. *)
Definition getitem_list (d : DataFrame) (labels : list string)
  : result DataFrame :=
  rbind (mapM (fun l => match positions l (columns d) 0 with
                        | [] => Raise (KeyError l)
                        | ps => Ok (map (fun i => (l, i)) ps)
                        end) labels)
        (fun picked =>
           let cols := List.concat picked in
           Ok {| columns := map fst cols;
                 dtypes := map (fun li => nth (snd li) (dtypes d) object) cols;
                 rows := map (fun row => map (fun li => cell (snd li) row) cols)
                             (rows d) |}).

(** [df.rename(columns={a: "lat", b: "lon"})]; in the dictionary literal
    a later entry for the same key replaces an earlier one. *)
Definition rename2 (d : DataFrame) (a a' b b' : string) : DataFrame :=
  set_columns d
    (map (fun c => if String.eqb c b then b'
                   else if String.eqb c a then a' else c) (columns d)).

(** [df.head(n)] *)
Definition head (n : nat) (d : DataFrame) : DataFrame :=
  with_rows d (firstn n (rows d)).

(* ================================================================== *)
(** * Charts, page elements and widgets *)

(** A call of [px.scatter]: the frame and the arguments a script hands
    to plotly.  What plotly draws from them (traces, markers, their
    order) is plotly's and is not modelled.  [Scatter] is the call of
    [dashboard-filters.py], with the colour given as a series and
    [hover_data]; [ScatterBy] is the call of [dashboard.py], with the
    colour given by name and used as [hover_name] too. *)
Inductive Figure :=
| Scatter (data : DataFrame) (x y : option string)
          (color : option (list value)) (hover_data : list string)
| ScatterBy (data : DataFrame) (x y color : option string).

(** The three select boxes of a script. *)
Inductive box := x_axis_box | y_axis_box | color_box.

Inductive element :=
| Title
| Markdown (text : string)
| Header (text : string)
| Subheader (text : string)
| Multiselect (r : role) (options default : list value)
| Slider (min_value max_value : value) (default : value * value)
| Selectbox (b : box) (options : list string) (index : nat)
| PlotlyChart (fig : Figure)
| MapChart (data : DataFrame)
| DataframeView (data : DataFrame)
| SuccessBox
| WarningBox
| ErrorBox (e : exn).

(** What Streamlit and plotly answer in one run of a script: the
    user's current choice in each widget, given what the widget offers,
    and whether [px.scatter] and [st.map] take what they are handed.
    Every call may raise. *)
Record Widgets := {
  multiselect : role -> list value -> result (list value);
  slider : value -> value -> result (value * value);
  selectbox : box -> list string -> nat -> result (option string);
  scatter : Figure -> result unit;
  map_chart : DataFrame -> result unit
}.

(** The bounds [st.slider] takes from this script: two integers or two
    floats, the least below the greatest.  A pandas [Timestamp], the
    missing bound of an emptied column and a text are refused, and so
    are equal bounds. *)
Definition slider_accepts (lo hi : value) : bool :=
  match lo, hi with
  | Int a, Int b => Z.ltb a b
  | Float a, Float b => negb (Qle_bool b a)
  | _, _ => false
  end.

(** An axis argument that is absent or names one column of the frame. *)
Definition names_column (d : DataFrame) (a : option string) : bool :=
  match a with
  | None => true
  | Some c => match positions c (columns d) 0 with
              | [_] => true
              | _ => false
              end
  end.

(** The calls [px.scatter] takes: the named columns exist, a colour
    series has one cell per row. *)
Definition scatter_accepts (fig : Figure) : bool :=
  match fig with
  | Scatter d x y color _ =>
      names_column d x && names_column d y
      && match color with
         | Some cells => Nat.eqb (length cells) (length (rows d))
         | None => true
         end
  | ScatterBy d x y color =>
      names_column d x && names_column d y && names_column d color
  end.

Definition is_number (v : value) : bool :=
  match v with
  | Int _ | Float _ => true
  | _ => false
  end.

(** The frames [st.map] takes: one column labelled "lat", one labelled
    "lon", and a number in every cell of both. *)
Definition map_accepts (data : DataFrame) : bool :=
  match positions "lat" (columns data) 0, positions "lon" (columns data) 0 with
  | [i], [j] =>
      forallb (fun row => is_number (cell i row) && is_number (cell j row))
              (rows data)
  | _, _ => false
  end.

(** A first run, before the user touches anything: every widget returns
    its default. *)
Definition untouched : Widgets :=
  {| multiselect := fun _ options => Ok options;
     slider := fun lo hi =>
                 if slider_accepts lo hi then Ok (lo, hi)
                 else Raise StreamlitAPIException;
     selectbox := fun _ options index =>
                    match options with
                    | [] => Ok None
                    | _ => match nth_error options index with
                           | Some c => Ok (Some c)
                           | None => Raise StreamlitAPIException
                           end
                    end;
     scatter := fun fig => if scatter_accepts fig then Ok tt
                           else Raise ValueError;
     map_chart := fun data => if map_accepts data then Ok tt
                              else Raise StreamlitAPIException |}.

(** The filter settings of a run: the accepted values of the three
    categorical roles and the bounds of the time range. *)
Record FilterSpec := {
  accepted : role -> list value;
  time_range : value * value
}.

(** [lo <= v <= hi], when both comparisons go through. *)
Definition between (lo hi v : value) : bool :=
  match value_le lo v, value_le v hi with
  | Ok a, Ok b => a && b
  | _, _ => false
  end.

(** The widgets of a run in which the user has set the sidebar to [F]:
    the multiselects return the accepted values, the slider returns the
    range when it takes its bounds and the range lies within them. *)
Definition holding (F : FilterSpec) : Widgets :=
  {| multiselect := fun r _ => Ok (accepted F r);
     slider := fun lo hi =>
                 if slider_accepts lo hi
                    && between lo hi (fst (time_range F))
                    && between (fst (time_range F)) hi (snd (time_range F))
                 then Ok (time_range F)
                 else Raise StreamlitAPIException;
     selectbox := selectbox untouched;
     scatter := scatter untouched;
     map_chart := map_chart untouched |}.

(* ================================================================== *)
(** * Script state *)

(** The frames allocated so far, the script variables and the page
    rendered so far.  [df] names a frame of the store: [df = df[mask]]
    binds it to a new frame, [df[col] = s] and [inplace=True] change the
    frame it is bound to. *)
Record state := {
  heap : list DataFrame;
  df : nat;
  possible_income : list string;
  possible_gender : list string;
  possible_neigh : list string;
  possible_time : list string;
  page : list element
}.

Definition M (A : Type) : Type := state -> result A * state.

Definition ret {A} (a : A) : M A := fun s => (Ok a, s).

Definition bind {A B} (m : M A) (k : A -> M B) : M B :=
  fun s => match m s with
           | (Ok a, s') => k a s'
           | (Raise e, s') => (Raise e, s')
           end.

Definition lift {A} (r : result A) : M A := fun s => (r, s).

Declare Scope script_scope.
Delimit Scope script_scope with script.
Notation "x <- m ;; k" := (bind m (fun x => k))
  (at level 100, m at next level, right associativity) : script_scope.
Notation "m ;; k" := (bind m (fun _ => k))
  (at level 100, right associativity) : script_scope.
Open Scope script_scope.

(** The frame [df] is bound to. *)
Definition frame (s : state) : option DataFrame := nth_error (heap s) (df s).

Definition get_df : M DataFrame :=
  fun s => match frame s with
           | Some d => (Ok d, s)
           | None => (Raise NameError, s)
           end.

(** In-place change of the frame [df] is bound to. *)
Definition put_df (d : DataFrame) : M unit :=
  fun s => (Ok tt,
            {| heap := set_nth (df s) d (heap s); df := df s;
               possible_income := possible_income s;
               possible_gender := possible_gender s;
               possible_neigh := possible_neigh s;
               possible_time := possible_time s;
               page := page s |}).

(** [df = <new frame>] *)
Definition assign_df (d : DataFrame) : M unit :=
  fun s => (Ok tt,
            {| heap := heap s ++ [d]; df := length (heap s);
               possible_income := possible_income s;
               possible_gender := possible_gender s;
               possible_neigh := possible_neigh s;
               possible_time := possible_time s;
               page := page s |}).

(** The script variable that holds the candidates of a filter role. *)
Definition possible_for (s : state) (r : role) : list string :=
  match r with
  | income => possible_income s
  | gender => possible_gender s
  | region => possible_neigh s
  | time => possible_time s
  | latitude | longitude => []
  end.

Definition get_possible (r : role) : M (list string) :=
  fun s => (Ok (possible_for s r), s).

Definition assign_possible (pi pg pn pt : list string) : M unit :=
  fun s => (Ok tt,
            {| heap := heap s; df := df s;
               possible_income := pi; possible_gender := pg;
               possible_neigh := pn; possible_time := pt;
               page := page s |}).

Definition emit (e : element) : M unit :=
  fun s => (Ok tt,
            {| heap := heap s; df := df s;
               possible_income := possible_income s;
               possible_gender := possible_gender s;
               possible_neigh := possible_neigh s;
               possible_time := possible_time s;
               page := page s ++ [e] |}).

Definition initial : state :=
  {| heap := []; df := 0;
     possible_income := []; possible_gender := [];
     possible_neigh := []; possible_time := [];
     page := [] |}.

(* ================================================================== *)
(** * dashboard-filters.py *)

Section Script.

(** [pd.to_datetime(..., errors="coerce")] on one cell that is not
    missing, in the one conversion a run of the script performs: the
    instant pandas reads in the cell, if it reads one.  pandas reads
    a column with the format it infers from the column, so the
    reading belongs to the column that is converted: two runs that
    convert different columns have each their own. *)
Variable parse_datetime : value -> option Z.

(** The answers of the widgets in this run. *)
Variable w : Widgets.

(** One cell under [errors="coerce"]: what cannot be read as an
    instant becomes a missing value. *)
Definition coerce (v : value) : value :=
  match v with
  | NA => NA
  | _ => match parse_datetime v with
         | Some t => Timestamp t
         | None => NA
         end
  end.

Definition to_datetime (s : Series) : Series :=
  {| dtype_of := datetime64; tolist := map coerce (tolist s) |}.

Definition st_multiselect (r : role) (options : list value)
  : M (list value) :=
  selected <- lift (multiselect w r options) ;;
  emit (Multiselect r options options) ;;
  ret selected.

Definition st_slider (min_value max_value : value) : M (value * value) :=
  selected <- lift (slider w min_value max_value) ;;
  emit (Slider min_value max_value (min_value, max_value)) ;;
  ret selected.

Definition st_selectbox (b : box) (options : list string) (index : nat)
  : M (option string) :=
  selected <- lift (selectbox w b options index) ;;
  emit (Selectbox b options index) ;;
  ret selected.

(** [df = pd.read_csv(csv_url)], given what the download yields. *)
Definition read_csv (csv : result DataFrame) : M unit :=
  d <- lift csv ;;
  assign_df d.

(** Step 3, basic cleaning: both statements change the loaded frame
    in place. *)
Definition clean : M unit :=
  d <- get_df ;;
  put_df (set_columns d (map clean_name (columns d))) ;;
  d <- get_df ;;
  put_df (dropna_all d).

(** One sidebar block of a categorical role:
    [if possible_x: x_col = possible_x[0]; x_options = ...;
     selected_x = st.sidebar.multiselect(...);
     df = df[df[x_col].isin(selected_x)]]. *)
Definition categorical_filter (r : role) : M unit :=
  possible <- get_possible r ;;
  match possible with
  | [] => ret tt
  | col :: _ =>
      d <- get_df ;;
      s <- lift (getitem d col) ;;
      let options := tolist (unique (dropna s)) in
      selected <- st_multiselect r options ;;
      d <- get_df ;;
      s <- lift (getitem d col) ;;
      assign_df (getitem_mask d (isin s selected))
  end.

(** The sidebar block of the time role. *)
Definition time_filter : M unit :=
  possible <- get_possible time ;;
  match possible with
  | [] => ret tt
  | time_col :: _ =>
      d <- get_df ;;
      s <- lift (getitem d time_col) ;;
      (if dtype_eqb (dtype_of s) object
       then put_df (setitem d time_col (to_datetime s))
       else ret tt) ;;
      d <- get_df ;;
      d' <- lift (dropna_subset d time_col) ;;
      assign_df d' ;;
      d <- get_df ;;
      s <- lift (getitem d time_col) ;;
      min_date <- lift (series_min s) ;;
      max_date <- lift (series_max s) ;;
      selected_range <- st_slider min_date max_date ;;
      d <- get_df ;;
      s <- lift (getitem d time_col) ;;
      m1 <- lift (series_ge s (fst selected_range)) ;;
      m2 <- lift (series_le s (snd selected_range)) ;;
      assign_df (getitem_mask d (mask_and m1 m2))
  end.

(** Lines 38 to 70: the candidate columns of the four filter roles,
    then the four sidebar blocks in the order of the script. *)
Definition apply_filters : M unit :=
  d <- get_df ;;
  assign_possible (candidates income (columns d))
                  (candidates gender (columns d))
                  (candidates region (columns d))
                  (candidates time (columns d)) ;;
  categorical_filter income ;;
  categorical_filter gender ;;
  categorical_filter region ;;
  time_filter.

(** [x_col if possible_x else "none"] *)
Definition col_or_none (possible : list string) : string :=
  match possible with
  | col :: _ => col
  | [] => "none"%string
  end.

(** The interactive scatter plot, lines 79 to 92. *)
Definition build_chart : M Figure :=
  emit (Subheader "Explore Inequality Metrics") ;;
  d <- get_df ;;
  x_axis <- st_selectbox x_axis_box
              (select_dtypes (columns d) (dtypes d)) 0 ;;
  y_axis <- st_selectbox y_axis_box
              (select_dtypes (columns d) (dtypes d)) 1 ;;
  pi <- get_possible income ;;
  pg <- get_possible gender ;;
  pn <- get_possible region ;;
  color_by <- st_selectbox color_box
                [col_or_none pi; col_or_none pg; col_or_none pn] 0 ;;
  color <- match color_by with
           | None => lift (Raise (KeyError "None"))
           | Some c =>
               if String.eqb c "none" then ret None
               else (s <- lift (getitem d c) ;; ret (Some (tolist s)))
           end ;;
  let fig := Scatter d x_axis y_axis color (columns d) in
  lift (scatter w fig) ;;
  emit (PlotlyChart fig) ;;
  ret fig.

(** The optional map, lines 95 to 99: the frame handed to [st.map],
    if the step runs at all. *)
Definition build_points : M (option DataFrame) :=
  d <- get_df ;;
  match candidates latitude (columns d),
        candidates longitude (columns d) with
  | lat :: _, lon :: _ =>
      emit (Subheader "Geographic Visualization") ;;
      sub <- lift (getitem_list d [lat; lon]) ;;
      let data := rename2 sub lat "lat" lon "lon" in
      lift (map_chart w data) ;;
      emit (MapChart data) ;;
      ret (Some data)
  | _, _ => ret None
  end.

(** The data preview, lines 102 and 103. *)
Definition preview : M unit :=
  emit (Subheader "Filtered Data") ;;
  d <- get_df ;;
  emit (DataframeView (head 20 d)).

(** The body of the [try] statement. *)
Definition process (csv : result DataFrame) : M unit :=
  read_csv csv ;;
  clean ;;
  apply_filters ;;
  emit (Markdown "equity principles") ;;
  build_chart ;;
  build_points ;;
  preview.

(** Lines 8 to 18 and the footer. *)
Definition page_setup : M unit :=
  emit Title ;;
  emit (Markdown "introduction") ;;
  emit (Header "Filter Data") ;;
  emit (Markdown "sidebar").

Definition footer : M unit :=
  emit (Markdown "---") ;;
  emit (Markdown "footer").

(** The whole script, from the page setup to the footer, given the
    CSV resource found in the catalogue (if any) and what loading it
    yields.  The state at the end of the run is returned. *)
Definition main (csv_url : option string) (csv : result DataFrame)
  : state :=
  let top := snd (page_setup initial) in
  let after :=
    match csv_url with
    | Some _ =>
        match process csv top with
        | (Ok _, s) => s
        | (Raise e, s) => snd (emit (ErrorBox e) s)
        end
    | None => snd (emit WarningBox top)
    end in
  snd (footer after).

End Script.

(* ================================================================== *)
(** * dashboard.py *)

Module Dashboard.

Section Script.

Variable w : Widgets.

(** The interactive plot, lines 35 to 49: every column is offered
    for every axis. *)
Definition build_chart : M Figure :=
  emit (Subheader "Interactive Plot") ;;
  d <- get_df ;;
  x_col <- st_selectbox w x_axis_box (columns d) 0 ;;
  y_col <- st_selectbox w y_axis_box (columns d) 1 ;;
  color_col <- st_selectbox w color_box (columns d) 2 ;;
  let fig := ScatterBy d x_col y_col color_col in
  lift (scatter w fig) ;;
  emit (PlotlyChart fig) ;;
  ret fig.

Definition process (csv : result DataFrame) : M unit :=
  read_csv csv ;;
  emit SuccessBox ;;
  emit (Subheader "Data Preview") ;;
  d <- get_df ;;
  emit (DataframeView (head 5 d)) ;;
  build_chart ;;
  ret tt.

Definition main (csv_url : option string) (csv : result DataFrame)
  : state :=
  let top := snd ((emit Title ;; emit (Markdown "introduction")) initial) in
  let after :=
    match csv_url with
    | Some _ =>
        match process csv top with
        | (Ok _, s) => s
        | (Raise e, s) => snd (emit (ErrorBox e) s)
        end
    | None => snd (emit WarningBox top)
    end in
  snd ((emit (Markdown "---") ;; emit (Markdown "footer")) after).

End Script.

End Dashboard.


(* ================================================================== *)
(** * The catalogue lookup and the scripts as a whole *)

(** The JSON values of a resource description; of an array or an
    object only the number of entries is kept. *)
Inductive json :=
| JNull
| JBool (b : bool)
| JNum (q : Q)
| JStr (s : string)
| JCollection (size : nat).

(** One resource of the package: a dict, whose keys are distinct. *)
Definition resource := list (string * json).

(** [r[key]] *)
Fixpoint dict_get (r : resource) (key : string) : result json :=
  match r with
  | [] => Raise (KeyError key)
  | (k, v) :: r' => if String.eqb k key then Ok v else dict_get r' key
  end.

(** [r["format"].lower() == "csv"]; only a string has [lower]. *)
Definition is_csv (r : resource) : result bool :=
  rbind (dict_get r "format") (fun f =>
    match f with
    | JStr s => Ok (String.eqb (PyStr.lower s) "csv")
    | _ => Raise AttributeError
    end).

(** [next((r["url"] for r in resources if r["format"].lower() == "csv"),
    None)]: the generator is run up to its first item. *)
Fixpoint csv_url (resources : list resource) : result (option json) :=
  match resources with
  | [] => Ok None
  | r :: rest =>
      rbind (is_csv r) (fun hit =>
        if hit then rbind (dict_get r "url") (fun u => Ok (Some u))
        else csv_url rest)
  end.

(** The truth value of an object under [if]. *)
Definition truthy (v : json) : bool :=
  match v with
  | JNull => false
  | JBool b => b
  | JNum q => negb (Qeq_bool q 0)
  | JStr s => negb (String.eqb s "")
  | JCollection size => negb (Nat.eqb size 0)
  end.

(** [try: <body> except Exception as e: st.error(...)] *)
Definition try_except (body : M unit) : M unit :=
  fun s => match body s with
           | (Ok _, s') => (Ok tt, s')
           | (Raise e, s') => emit (ErrorBox e) s'
           end.

Section Whole.

Variable parse_datetime : value -> option Z.
Variable w : Widgets.

(** What [requests.get(...)] followed by
    [response.json()["result"]["resources"]] yields, and what
    [pd.read_csv] yields for an address. *)
Variable response : result (list resource).
Variable load : json -> result DataFrame.

(** [dashboard-filters.py] from its first line to its last.  The
    lookup of the resources stands outside the [try] statement. *)
Definition dashboard_filters_py : M unit :=
  page_setup ;;
  resources <- lift response ;;
  found <- lift (csv_url resources) ;;
  match found with
  | Some u =>
      if truthy u
      then try_except (process parse_datetime w (load u))
      else emit WarningBox
  | None => emit WarningBox
  end ;;
  footer.

(** [dashboard.py] from its first line to its last. *)
Definition dashboard_py : M unit :=
  emit Title ;;
  emit (Markdown "introduction") ;;
  resources <- lift response ;;
  found <- lift (csv_url resources) ;;
  match found with
  | Some u =>
      if truthy u
      then try_except (Dashboard.process w (load u))
      else emit WarningBox
  | None => emit WarningBox
  end ;;
  emit (Markdown "---") ;;
  emit (Markdown "footer").

End Whole.


(* ================================================================== *)
(** * Specification-side vocabulary *)

(** A name carries a role's trigger when it contains one of the role's
    trigger substrings. *)
Definition triggered (r : role) (name : string) : bool :=
  existsb (fun t => PyStr.contains t name) (triggers r).

(** The outcome of a comparison that went through. *)
Definition truth (r : result bool) : bool :=
  match r with
  | Ok b => b
  | Raise _ => false
  end.

(** The sorts of cells that compare with each other. *)
Inductive kind := k_na | k_num | k_str | k_time.

Definition kind_of (v : value) : kind :=
  match v with
  | NA => k_na
  | Str _ => k_str
  | Timestamp _ => k_time
  | Int _ | Float _ | Bool _ => k_num
  end.

Definition of_kind (k : kind) (v : value) : Prop := kind_of v = k.

(** Every label of the frame names one column. *)
Definition distinct_labels (d : DataFrame) : bool :=
  forallb (fun c => length (positions c (columns d) 0) =? 1) (columns d).

(** The column mapped to a role, if any, is the only one with its
    label. *)
Definition mapped_once (d : DataFrame) (r : role) : Prop :=
  match infer_roles (columns d) r with
  | Some col => exists i, positions col (columns d) 0 = [i]
  | None => True
  end.

(** The position of the column mapped to a role. *)
Definition role_index (d : DataFrame) (r : role) : option nat :=
  match infer_roles (columns d) r with
  | Some col => hd_error (positions col (columns d) 0)
  | None => None
  end.

Definition is_text (d : DataFrame) (i : nat) : bool :=
  dtype_eqb (nth i (dtypes d) object) object.

(** [s] with the store, the binding of [df] and the page replaced. *)
Definition moved (s : state) (h : list DataFrame) (l : nat)
           (p : list element) : state :=
  {| heap := h; df := l;
     possible_income := possible_income s;
     possible_gender := possible_gender s;
     possible_neigh := possible_neigh s;
     possible_time := possible_time s;
     page := p |}.

Definition member (v : value) (values : list value) : bool :=
  existsb (value_eqb v) values.

(** The distinct values of a column that are not missing, in order of
    first appearance. *)
Definition distinct_nonnull (vs : list value) : list value :=
  dedup [] (filter notna vs).

(** [v] lies within the inclusive range. *)
Definition in_range (range : value * value) (v : value) : bool :=
  truth (value_le (fst range) v) && truth (value_le v (snd range)).

Section Views.

Variable parse_datetime : value -> option Z.

(** The value the time filter reads in a row: the parsed date of a
    text column, the cell itself in a column of another type. *)
Definition time_value (d : DataFrame) (i : nat) (row : list value) : value :=
  if is_text d i then coerce parse_datetime (cell i row) else cell i row.

(** The row as the time filter leaves it. *)
Definition convert_at (d : DataFrame) (i : nat) (row : list value)
  : list value :=
  if is_text d i then set_nth i (coerce parse_datetime (cell i row)) row
  else row.

Definition dtypes_at (d : DataFrame) (i : nat) : list dtype :=
  if is_text d i then set_nth i datetime64 (dtypes d) else dtypes d.

(** The frame after the time filter with the range [range], when the
    time column is at position [i]. *)
Definition time_view (range : value * value) (d : DataFrame) (i : nat)
  : DataFrame :=
  {| columns := columns d;
     dtypes := dtypes_at d i;
     rows := map (convert_at d i)
                 (filter (fun row => notna (time_value d i row)
                                     && in_range range (time_value d i row))
                         (rows d)) |}.

(** The frame after [dropna(subset=[time_col])]: the rows in which
    the time value is present. *)
Definition time_present (d : DataFrame) (i : nat) : DataFrame :=
  {| columns := columns d;
     dtypes := dtypes_at d i;
     rows := map (convert_at d i)
                 (filter (fun row => notna (time_value d i row)) (rows d)) |}.

(** The time column rewritten in place, all rows kept. *)
Definition converted (d : DataFrame) (i : nat) : DataFrame :=
  {| columns := columns d;
     dtypes := dtypes_at d i;
     rows := map (convert_at d i) (rows d) |}.

(** A row satisfies the filter of a categorical role: the role is
    unmapped, or the row's value is among the accepted ones. *)
Definition accepts_role (F : FilterSpec) (d : DataFrame) (r : role)
           (row : list value) : bool :=
  match role_index d r with
  | Some i => member (cell i row) (accepted F r)
  | None => true
  end.

(** A row satisfies the time filter: the role is unmapped, or the
    row's time value is present and within the range. *)
Definition accepts_time (F : FilterSpec) (d : DataFrame)
           (row : list value) : bool :=
  match role_index d time with
  | Some i => notna (time_value d i row)
              && in_range (time_range F) (time_value d i row)
  | None => true
  end.

(** The conjunction of the categorical filters. *)
Definition accepts_categories (F : FilterSpec) (d : DataFrame)
           (row : list value) : bool :=
  accepts_role F d income row && accepts_role F d gender row
  && accepts_role F d region row.

(** The conjunction of all active filters. *)
Definition accepts (F : FilterSpec) (d : DataFrame) (row : list value)
  : bool :=
  accepts_role F d income row && accepts_role F d gender row
  && accepts_role F d region row && accepts_time F d row.

Definition convert_row (d : DataFrame) (row : list value) : list value :=
  match role_index d time with
  | Some i => convert_at d i row
  | None => row
  end.

Definition filtered_dtypes (d : DataFrame) : list dtype :=
  match role_index d time with
  | Some i => dtypes_at d i
  | None => dtypes d
  end.

(** The FilteredTable: the rows that satisfy the conjunction of the
    active filters, the time column read as the time filter reads
    it. *)
Definition filtered_view (F : FilterSpec) (d : DataFrame) : DataFrame :=
  {| columns := columns d;
     dtypes := filtered_dtypes d;
     rows := map (convert_row d) (filter (accepts F d) (rows d)) |}.

End Views.

(** [df] is bound to a later frame than the one stored at [l0], which
    is [d]. *)
Definition rebound (l0 : nat) (d : DataFrame) (s : state) : Prop :=
  nth_error (heap s) l0 = Some d /\ l0 < df s.

(** A statement run after [df] was rebound leaves the frame at [l0] as
    it is, whatever its outcome; and when it goes through, [df] is
    still bound to a later frame. *)
Definition keeps (l0 : nat) (d : DataFrame) (m : M unit) : Prop :=
  forall s res s' dk,
    frame s = Some dk -> rebound l0 d s -> m s = (res, s') ->
    nth_error (heap s') l0 = Some d.

Definition passes (l0 : nat) (d : DataFrame) (m : M unit) : Prop :=
  forall s s' dk,
    frame s = Some dk -> rebound l0 d s -> m s = (Ok tt, s') ->
    rebound l0 d s' /\ exists dk', frame s' = Some dk'.

(** Two states with the same store, the same binding of [df] and the
    same candidates: the same FilteredTable and the same role map. *)
Definition same_tables (s s' : state) : Prop :=
  heap s' = heap s /\ df s' = df s /\
  forall r, possible_for s' r = possible_for s r.

(** A statement that touches neither the store nor the script variables
    and only adds to the page. *)
Definition silent {A} (m : M A) : Prop :=
  forall s res s',
    m s = (res, s') ->
    same_tables s s' /\ exists added, page s' = page s ++ added.

(** The statements of the [try] body that come before the chart. *)
Definition prepare (parse_datetime : value -> option Z) (w : Widgets)
           (csv : result DataFrame) : M unit :=
  read_csv csv ;;
  clean ;;
  apply_filters parse_datetime w ;;
  emit (Markdown "equity principles").

(** The mapped columns of the four filter roles have labels of their
    own. *)
Definition filters_mapped_once (d : DataFrame) : Prop :=
  mapped_once d income /\ mapped_once d gender /\
  mapped_once d region /\ mapped_once d time.

(** The rows left by the filter of a categorical role. *)
Definition narrowed (d : DataFrame) (r : role) (selected : list value)
           (rs : list (list value)) : list (list value) :=
  match role_index d r with
  | Some i => filter (fun row => member (cell i row) selected) rs
  | None => rs
  end.

(** The options a categorical role offers over the rows [rs]. *)
Definition offered (d : DataFrame) (r : role) (rs : list (list value))
  : option (list value) :=
  match role_index d r with
  | Some i => Some (distinct_nonnull (map (cell i) rs))
  | None => None
  end.

Definition multiselect_of (r : role) (o : option (list value))
  : list element :=
  match o with
  | Some options => [Multiselect r options options]
  | None => []
  end.

(** [F'] narrows [F]: it accepts no value that [F] refuses, and each
    bound of its time range is that of [F] or lies within the range of
    [F]. *)
Definition narrows (F' F : FilterSpec) : Prop :=
  (forall r v, member v (accepted F' r) = true ->
               member v (accepted F r) = true) /\
  (fst (time_range F') = fst (time_range F) \/
   value_le (fst (time_range F)) (fst (time_range F')) = Ok true) /\
  (snd (time_range F') = snd (time_range F) \/
   value_le (snd (time_range F')) (snd (time_range F)) = Ok true).

(** The widget of a mapped role returned [selected] for the options it
    offered. *)
Definition chose (w : Widgets) (r : role) (o : option (list value))
           (selected : list value) : Prop :=
  match o with
  | Some options => multiselect w r options = Ok selected
  | None => True
  end.

(** [st.slider] does not answer when it is offered a pandas
    [Timestamp] as a bound. *)
Definition dates_refused (w : Widgets) : Prop :=
  forall lo hi range,
    slider w lo hi = Ok range ->
    kind_of lo <> k_time /\ kind_of hi <> k_time.

(** In a run of the filters over [d] in which [parse_datetime] is the
    reading of the dates, each widget that is rendered returns what [F]
    holds for it: the multiselect of a mapped role, offered the values
    left by the earlier selections, returns the accepted values of the
    role; the slider, offered the least and the greatest time value
    left, returns the range. *)
Definition returns (parse_datetime : value -> option Z) (w : Widgets)
           (d : DataFrame) (F : FilterSpec) : Prop :=
  let rs1 := narrowed d income (accepted F income) (rows d) in
  let rs2 := narrowed d gender (accepted F gender) rs1 in
  let rs3 := narrowed d region (accepted F region) rs2 in
  chose w income (offered d income (rows d)) (accepted F income) /\
  chose w gender (offered d gender rs1) (accepted F gender) /\
  chose w region (offered d region rs2) (accepted F region) /\
  match role_index d time with
  | Some i =>
      exists lo hi,
        list_min (filter notna (map (time_value parse_datetime d i) rs3))
        = Ok lo /\
        list_max (filter notna (map (time_value parse_datetime d i) rs3))
        = Ok hi /\
        slider w lo hi = Ok (time_range F)
  | None => True
  end.

(** What the filters make of the frame they start from, where it
    stands: the time column is rewritten with the dates read in it when
    no categorical role is mapped, so that [df] is still bound to that
    frame, and the time role is mapped to a column that has a label of
    its own (the rewriting changes a text column only). *)
Definition left_in_place (parse_datetime : value -> option Z)
           (d : DataFrame) : DataFrame :=
  match infer_roles (columns d) income, infer_roles (columns d) gender,
        infer_roles (columns d) region, infer_roles (columns d) time with
  | None, None, None, Some col =>
      match positions col (columns d) 0 with
      | [i] => converted parse_datetime d i
      | _ => d
      end
  | _, _, _, _ => d
  end.

(** An upper-case letter of ASCII. *)
Definition is_upper (c : ascii) : bool :=
  let n := nat_of_ascii c in (65 <=? n) && (n <=? 90).

Fixpoint all_chars (p : ascii -> bool) (s : string) : bool :=
  match s with
  | EmptyString => true
  | String c s' => p c && all_chars p s'
  end.

(** The string neither starts nor ends with white space. *)
Definition starts_clean (t : string) : bool :=
  match t with
  | EmptyString => true
  | String c _ => negb (PyStr.isspace c)
  end.

Fixpoint ends_clean (t : string) : bool :=
  match t with
  | EmptyString => true
  | String c t' =>
      match t' with
      | EmptyString => negb (PyStr.isspace c)
      | _ => ends_clean t'
      end
  end.

(** The frame after the cleaning step: the names cleaned, the rows kept
    that hold at least one value. *)
Definition cleaned (d : DataFrame) : DataFrame :=
  {| columns := map clean_name (columns d);
     dtypes := dtypes d;
     rows := filter (existsb notna) (rows d) |}.

(** The column mapped to a role, if any, holds a value in the row. *)
Definition present_in (d : DataFrame) (r : role) (row : list value) : bool :=
  match role_index d r with
  | Some i => notna (cell i row)
  | None => true
  end.

(** The row holds a value in the column of every mapped filter role
    (for the time role, a value as the time filter reads it). *)
Definition complete (parse_datetime : value -> option Z) (d : DataFrame)
           (row : list value) : bool :=
  present_in d income row && present_in d gender row
  && present_in d region row
  && match role_index d time with
     | Some i => notna (time_value parse_datetime d i row)
     | None => true
     end.

(** A multiselect returns values among those it offers. *)
Definition selects_offered (w : Widgets) : Prop :=
  forall r options selected v,
    multiselect w r options = Ok selected ->
    member v selected = true -> member v options = true.

(** The boxes with which a script reports that it could not go on. *)
Definition is_notice (e : element) : bool :=
  match e with
  | WarningBox | ErrorBox _ => true
  | _ => false
  end.

(** No warning or error box among the elements. *)
Definition quiet (added : list element) : bool :=
  forallb (fun e => negb (is_notice e)) added.

(** A statement that only adds to the page, and adds no warning or
    error box. *)
Definition appends {A} (m : M A) : Prop :=
  forall s res s',
    m s = (res, s') ->
    exists added, page s' = page s ++ added /\ quiet added = true.

(** The outcome of the lines that come before the [try] statement: the
    address found in the catalogue, if any. *)
Definition lookup (response : result (list resource))
  : result (option json) :=
  rbind response csv_url.

(** The address the script goes on with: one that was found and that
    [if csv_url:] takes as true. *)
Definition usable (found : option json) : option json :=
  match found with
  | Some u => if truthy u then Some u else None
  | None => None
  end.

(* ================================================================== *)
(** * Sample data *)

Module Sample.

Open Scope string_scope.

(** A date reader that knows three days. *)
Definition read_date (v : value) : option Z :=
  match v with
  | Str "2020-01-01" => Some 1%Z
  | Str "2020-01-02" => Some 2%Z
  | Str "2020-01-03" => Some 3%Z
  | _ => None
  end.

(** A state in which [df] is bound to the only frame of the store. *)
Definition loaded (d : DataFrame) : state :=
  {| heap := [d]; df := 0;
     possible_income := []; possible_gender := [];
     possible_neigh := []; possible_time := [];
     page := [] |}.

(** The same, once the candidates of the filter roles are known. *)
Definition ready (d : DataFrame) : state :=
  {| heap := [d]; df := 0;
     possible_income := candidates income (columns d);
     possible_gender := candidates gender (columns d);
     possible_neigh := candidates region (columns d);
     possible_time := candidates time (columns d);
     page := [] |}.

(** A table whose time column holds years as integers. *)
Definition years : DataFrame :=
  {| columns := ["year"; "value"];
     dtypes := [int64; float64];
     rows := [[Int 2019; Float 0.5]; [Int 2020; Float 1.5]] |}.

(** A table with a text column of dates and no categorical role. *)
Definition dated : DataFrame :=
  {| columns := ["date"; "value"];
     dtypes := [object; int64];
     rows := [[Str "2020-01-01"; Int 1]; [Str "pending"; Int 2]] |}.

(** Coordinates: a pair within range and a pair out of range. *)
Definition places : DataFrame :=
  {| columns := ["lat"; "lon"; "value"];
     dtypes := [float64; float64; int64];
     rows := [[Float 19; Float (-99); Int 1];
              [Float 100; Float 200; Int 2]] |}.

(** A table whose coordinates share one column. *)
Definition merged : DataFrame :=
  {| columns := ["lat_long"; "value"];
     dtypes := [object; int64];
     rows := [[Str "19.4,-99.1"; Int 1]] |}.

(** A table whose first column is text. *)
Definition cities : DataFrame :=
  {| columns := ["city"; "value"; "group"];
     dtypes := [object; float64; object];
     rows := [[Str "Puebla"; Float 1.5; Str "a"];
              [Str "Toluca"; Float 2.5; Str "b"]] |}.

(** A survey whose time column holds years. *)
Definition census : DataFrame :=
  {| columns := ["income_group"; "gender"; "municipality"; "year";
                 "value_a"; "value_b"];
     dtypes := [object; object; object; int64; int64; float64];
     rows := [[Str "low"; Str "f"; Str "Centro"; Int 2019;
               Int 1; Float 0.5];
              [Str "high"; Str "m"; Str "Centro"; Int 2020;
               Int 2; Float 1.5];
              [Str "low"; Str "f"; Str "Norte"; Int 2020;
               Int 3; NA];
              [Str "high"; Str "f"; Str "Norte"; Int 2021;
               Int 4; Float 2.5]] |}.

(** A panel of two years. *)
Definition panel : DataFrame :=
  {| columns := ["gender"; "year"; "value"];
     dtypes := [object; int64; float64];
     rows := [[Str "f"; Int 2019; Float 1.5];
              [Str "f"; Int 2020; Float 2.5];
              [Str "m"; Int 2020; Float 3.5]] |}.

(** A survey whose time column holds dates as text. *)
Definition survey : DataFrame :=
  {| columns := ["income_group"; "gender"; "municipality"; "date";
                 "value_a"; "value_b"];
     dtypes := [object; object; object; object; int64; float64];
     rows := [[Str "low"; Str "f"; Str "Centro"; Str "2020-01-01";
               Int 1; Float 0.5];
              [Str "high"; Str "m"; Str "Centro"; Str "2020-01-02";
               Int 2; Float 1.5];
              [Str "low"; Str "f"; Str "Norte"; Str "unknown";
               Int 3; NA];
              [Str "high"; Str "f"; Str "Norte"; Str "2020-01-03";
               Int 4; Float 2.5]] |}.

(** Two labels of a file that the cleaning step makes equal. *)
Definition twins : DataFrame :=
  {| columns := ["Income"; "income "; "value"];
     dtypes := [object; object; int64];
     rows := [[Str "low"; Str "high"; Int 1]] |}.

(** A survey with gaps: a row without income group, a row without
    gender and a row without year. *)
Definition gaps : DataFrame :=
  {| columns := ["income_group"; "gender"; "year"; "value"];
     dtypes := [object; object; float64; int64];
     rows := [[Str "low"; Str "f"; Float 2019; Int 1];
              [NA; Str "m"; Float 2020; Int 2];
              [Str "high"; NA; Float 2021; Int 3];
              [Str "high"; Str "f"; NA; Int 4];
              [Str "low"; Str "f"; Float 2020; Int 5]] |}.

(** A user who keeps only the first option of every multiselect. *)
Definition first_only : Widgets :=
  {| multiselect := fun _ options => Ok (firstn 1 options);
     slider := slider untouched;
     selectbox := selectbox untouched;
     scatter := scatter untouched;
     map_chart := map_chart untouched |}.

(** A catalogue entry with three resources: a report, the table, and
    a resource without format. *)
Definition catalogue : list resource :=
  [[("format", JStr "PDF"); ("url", JStr "https://example.org/report.pdf")];
   [("format", JStr "CSV"); ("url", JStr "https://example.org/table.csv")];
   [("name", JStr "untitled")]].

(** A download that yields the survey for every address. *)
Definition download (u : json) : result DataFrame := Ok cities.

Definition accept_all : role -> list value :=
  fun r => match r with
           | income => [Str "low"; Str "high"]
           | gender => [Str "f"; Str "m"]
           | region => [Str "Centro"; Str "Norte"]
           | _ => []
           end.

(** Every value accepted, the years from 2019 to 2021. *)
Definition wide : FilterSpec :=
  {| accepted := accept_all; time_range := (Int 2019, Int 2021) |}.

(** The low income group only, the years 2019 and 2020. *)
Definition narrow : FilterSpec :=
  {| accepted := fun r => match r with
                          | income => [Str "low"]
                          | gender => [Str "f"]
                          | _ => accept_all r
                          end;
     time_range := (Int 2019, Int 2020) |}.

(** One gender, both handles of the slider on 2019. *)
Definition single : FilterSpec :=
  {| accepted := fun r => match r with
                          | gender => [Str "f"]
                          | _ => []
                          end;
     time_range := (Int 2019, Int 2019) |}.

(** The gender selection emptied: the region multiselect is then left
    without options. *)
Definition nobody : FilterSpec :=
  {| accepted := fun r => match r with
                          | income => [Str "low"; Str "high"]
                          | _ => []
                          end;
     time_range := (Int 2019, Int 2021) |}.

End Sample.

(* ================================================================== *)
(** * Facts about strings *)

Module PyStrFacts.

Import PyStr.

Lemma prefix_iff (p s : string) :
  String.prefix p s = true <-> exists rest, s = (p ++ rest)%string.
Proof.
  revert s; induction p as [|a p IH]; intros s.
  - split; [intros _; now exists s | now destruct s].
  - destruct s as [|b s]; simpl.
    + split; [discriminate | intros [rest H]; discriminate].
    + destruct (ascii_dec a b) as [->|Hab].
      * rewrite IH. split; intros [rest H]; exists rest.
        -- now rewrite H.
        -- now injection H.
      * split; [discriminate|].
        intros [rest H]. injection H as H1 H2. now elim Hab.
Qed.

(** [contains] is Python's substring test. *)
Lemma contains_iff (sub s : string) :
  contains sub s = true <->
  exists before after, s = (before ++ sub ++ after)%string.
Proof.
  induction s as [|c s IH]; cbn [contains].
  - rewrite orb_false_r, prefix_iff. split.
    + intros [rest H]. now exists EmptyString, rest.
    + intros [[|a before] [after H]]; simpl in H.
      * now exists after.
      * discriminate.
  - rewrite orb_true_iff, prefix_iff, IH. split.
    + intros [[rest H]|[before [after H]]].
      * now exists EmptyString, rest.
      * exists (String c before), after. simpl. now rewrite H.
    + intros [[|a before] [after H]]; simpl in H.
      * left. now exists after.
      * right. injection H as _ H. now exists before, after.
Qed.

Lemma lower_char_idem (c : ascii) : lower_char (lower_char c) = lower_char c.
Proof.
  destruct c as [[] [] [] [] [] [] [] []]; reflexivity.
Qed.

Lemma lower_idem (s : string) : lower (lower s) = lower s.
Proof.
  unfold lower. induction s as [|c s IH]; simpl.
  - reflexivity.
  - now rewrite lower_char_idem, IH.
Qed.

Lemma lower_clean_name (name : string) :
  lower (clean_name name) = clean_name name.
Proof. unfold clean_name. apply lower_idem. Qed.

End PyStrFacts.

(* ================================================================== *)
(** * Facts about lists *)

Lemma hd_filter_first {A} (p : A -> bool) (l : list A) :
  match hd_error (filter p l) with
  | Some x =>
      exists before after,
        l = before ++ x :: after /\ p x = true /\
        forall y, In y before -> p y = false
  | None => forall y, In y l -> p y = false
  end.
Proof.
  induction l as [|a l IH]; simpl.
  - intros y [].
  - destruct (p a) eqn:Hpa; simpl.
    + exists [], l. repeat split; auto. intros y [].
    + destruct (hd_error (filter p l)) as [x|].
      * destruct IH as (before & after & -> & Hx & Hb).
        exists (a :: before), after. repeat split; auto.
        intros y [<-|Hy]; auto.
      * intros y [<-|Hy]; auto.
Qed.

Lemma filter_ext_on {A} (p q : A -> bool) (l : list A) :
  (forall x, In x l -> p x = q x) -> filter p l = filter q l.
Proof.
  induction l as [|a l IH]; simpl; intros H.
  - reflexivity.
  - rewrite (H a) by now left. rewrite IH by (intros; apply H; now right).
    reflexivity.
Qed.

(* ================================================================== *)
(** * Column role inference *)

(** On cleaned names the comprehension of every role selects exactly
    the names that carry one of the role's triggers. *)
Lemma candidates_triggered (r : role) (names : list string) :
  candidates r (map clean_name names)
  = filter (triggered r) (map clean_name names).
Proof.
  destruct r; unfold candidates; apply filter_ext_on; intros c Hc;
    apply in_map_iff in Hc as (name & <- & _);
    unfold triggered, triggers; cbn [existsb];
    rewrite ?PyStrFacts.lower_clean_name, ?orb_false_r, ?orb_assoc;
    reflexivity.
Qed.

(** C1. For every table and every role, [infer_roles] over the cleaned
    column names yields either no column, and then no cleaned name
    contains a trigger substring of the role, or the first column, in
    the order of the table, whose cleaned name contains one. *)
Theorem infer_roles_first_triggered (names : list string) (r : role) :
  match infer_roles (map clean_name names) r with
  | Some c =>
      exists before after,
        map clean_name names = before ++ c :: after /\
        triggered r c = true /\
        forall c', In c' before -> triggered r c' = false
  | None =>
      forall c', In c' (map clean_name names) -> triggered r c' = false
  end.
Proof.
  unfold infer_roles. rewrite candidates_triggered.
  apply hd_filter_first.
Qed.

Example clean_name_sample :
  map clean_name ["  Income Group "; "GENDER"; "Municipality Name";
                  "Year"; "Latitude"; "LNG"; "value a"]%string
  = ["income_group"; "gender"; "municipality_name"; "year"; "latitude";
     "lng"; "value_a"]%string.
Proof. reflexivity. Qed.

Example infer_roles_sample :
  let names := map clean_name ["Relative Index"; "Latitude"; "Colony";
                               "Birth date"; "Year"]%string in
  map (infer_roles names) [income; gender; region; time; latitude; longitude]
  = [None; None; None; Some "birth_date"; Some "relative_index";
     Some "colony"]%string.
Proof. reflexivity. Qed.

(* ================================================================== *)
(** * Facts about masks, positions and cells *)

Lemma rbind_ok {A B} (r : result A) (k : A -> result B) (b : B) :
  rbind r k = Ok b -> exists a, r = Ok a /\ k a = Ok b.
Proof. destruct r as [a|e]; simpl; [eauto | discriminate]. Qed.

Lemma mapM_all_ok {A B} (f : A -> result B) (l : list A) :
  (forall x, In x l -> exists y, f x = Ok y) -> exists m, mapM f l = Ok m.
Proof.
  induction l as [|x l IH]; simpl; intros H.
  - eauto.
  - destruct (H x) as [y ->]; [now left|].
    destruct IH as [m ->]; [intros; apply H; now right|].
    simpl. eauto.
Qed.

Lemma select_map {A} (p : A -> bool) (l : list A) :
  select l (map p l) = filter p l.
Proof.
  induction l as [|x l IH]; simpl.
  - reflexivity.
  - destruct (p x); now rewrite IH.
Qed.

(** Two masks computed cell by cell select the rows on which both
    comparisons hold. *)
Lemma select_masks {A} (f g : A -> result bool) (l : list A)
      (m1 m2 : list bool) :
  mapM f l = Ok m1 -> mapM g l = Ok m2 ->
  mask_and m1 m2 = map (fun x => truth (f x) && truth (g x)) l.
Proof.
  revert m1 m2; induction l as [|x l IH]; simpl; intros m1 m2 H1 H2.
  - injection H1 as <-. reflexivity.
  - apply rbind_ok in H1 as (y1 & Hy1 & H1).
    apply rbind_ok in H1 as (ys1 & Hys1 & H1). injection H1 as <-.
    apply rbind_ok in H2 as (y2 & Hy2 & H2).
    apply rbind_ok in H2 as (ys2 & Hys2 & H2). injection H2 as <-.
    simpl. rewrite Hy1, Hy2. simpl. f_equal. now apply IH.
Qed.

Lemma filter_map_comm {A B} (p : B -> bool) (f : A -> B) (l : list A) :
  filter p (map f l) = map f (filter (fun x => p (f x)) l).
Proof.
  induction l as [|x l IH]; simpl; [reflexivity|].
  destruct (p (f x)); simpl; now rewrite IH.
Qed.

Lemma filter_filter {A} (p q : A -> bool) (l : list A) :
  filter p (filter q l) = filter (fun x => q x && p x) l.
Proof.
  induction l as [|x l IH]; simpl; [reflexivity|].
  destruct (q x); simpl; [destruct (p x)|]; now rewrite IH.
Qed.

Lemma filter_all {A} (p : A -> bool) (l : list A) :
  (forall x, In x l -> p x = true) -> filter p l = l.
Proof.
  induction l as [|x l IH]; simpl; intros H; [reflexivity|].
  rewrite (H x) by now left. f_equal. apply IH. intros; apply H; now right.
Qed.

Lemma filter_none {A} (p : A -> bool) (l : list A) :
  (forall x, In x l -> p x = false) -> filter p l = [].
Proof.
  induction l as [|x l IH]; simpl; intros H; [reflexivity|].
  rewrite (H x) by now left. apply IH. intros; apply H; now right.
Qed.

Lemma filter_length_mono {A} (p q : A -> bool) (l : list A) :
  (forall x, In x l -> p x = true -> q x = true) ->
  length (filter p l) <= length (filter q l).
Proof.
  induction l as [|x l IH]; simpl; intros H; [lia|].
  assert (IH' : length (filter p l) <= length (filter q l))
    by (apply IH; intros; apply H; auto).
  destruct (p x) eqn:Hp.
  - rewrite (H x) by auto. simpl. lia.
  - destruct (q x); simpl; lia.
Qed.

Lemma filter_split_length {A} (p : A -> bool) (l : list A) :
  length (filter p l) + length (filter (fun x => negb (p x)) l) = length l.
Proof.
  induction l as [|x l IH]; simpl; [reflexivity|].
  destruct (p x); simpl; lia.
Qed.

Lemma set_cells_map (i : nat) (f : list value -> value)
      (rs : list (list value)) :
  set_cells i rs (map f rs) = map (fun row => set_nth i (f row) row) rs.
Proof.
  induction rs as [|row rs IH]; simpl; [reflexivity|now rewrite IH].
Qed.

Lemma set_nth_length {A} (i : nat) (x : A) (l : list A) :
  length (set_nth i x l) = length l.
Proof.
  revert i; induction l as [|y l IH]; intros [|i]; simpl; auto.
Qed.

Lemma nth_set_nth {A} (i j : nat) (x dflt : A) (l : list A) :
  nth j (set_nth i x l) dflt
  = if (j =? i) && (i <? length l) then x else nth j l dflt.
Proof.
  revert i j; induction l as [|y l IH]; intros i j.
  - simpl. rewrite andb_false_r. now destruct i.
  - destruct i as [|i], j as [|j]; simpl; auto.
Qed.

Lemma nth_error_set_nth {A} (i j : nat) (x : A) (l : list A) :
  nth_error (set_nth i x l) j
  = if (j =? i) && (i <? length l) then Some x else nth_error l j.
Proof.
  revert i j; induction l as [|y l IH]; intros i j.
  - simpl. rewrite andb_false_r. now destruct i.
  - destruct i as [|i], j as [|j]; simpl; auto.
Qed.

Lemma positions_bound (col : string) (names : list string) (k i : nat) :
  In i (positions col names k) ->
  k <= i < k + length names /\ nth_error names (i - k) = Some col.
Proof.
  revert k; induction names as [|c names IH]; simpl; intros k H.
  - destruct H.
  - destruct (String.eqb_spec c col) as [->|Hc].
    + destruct H as [<-|H].
      * rewrite Nat.sub_diag. split; [lia|reflexivity].
      * apply IH in H as [H1 H2]. split; [lia|].
        replace (i - k) with (S (i - S k)) by lia. exact H2.
    + apply IH in H as [H1 H2]. split; [lia|].
      replace (i - k) with (S (i - S k)) by lia. exact H2.
Qed.

Lemma distinct_labels_position (d : DataFrame) (col : string) :
  distinct_labels d = true -> In col (columns d) ->
  exists i, positions col (columns d) 0 = [i].
Proof.
  unfold distinct_labels. rewrite forallb_forall. intros H Hin.
  specialize (H col Hin). apply Nat.eqb_eq in H.
  destruct (positions col (columns d) 0) as [|i [|j l]]; try discriminate.
  now exists i.
Qed.

Lemma candidates_in (r : role) (names : list string) (col : string) :
  In col (candidates r names) -> In col names.
Proof.
  destruct r; unfold candidates; intros H; apply filter_In in H; tauto.
Qed.

(** The cell of the converted column holds the time value. *)
Lemma cell_set_coerce (parse : value -> option Z) (i : nat)
      (row : list value) :
  cell i (set_nth i (coerce parse (cell i row)) row)
  = coerce parse (cell i row).
Proof.
  unfold cell. rewrite nth_set_nth, Nat.eqb_refl. simpl.
  destruct (i <? length row) eqn:Hi; [reflexivity|].
  apply Nat.ltb_ge in Hi. rewrite nth_overflow by exact Hi. reflexivity.
Qed.

Lemma set_nth_same {A} (i : nat) (x : A) (l : list A) :
  nth_error l i = Some x -> set_nth i x l = l.
Proof.
  revert i; induction l as [|y l IH]; intros [|i]; simpl; intros H;
    try discriminate.
  - now injection H as ->.
  - now rewrite IH.
Qed.

Lemma map_id_on {A} (f : A -> A) (l : list A) :
  (forall x, f x = x) -> map f l = l.
Proof.
  intros H. induction l as [|x l IH]; simpl; [reflexivity|].
  now rewrite H, IH.
Qed.

Section TimeColumn.

Variable parse : value -> option Z.

Lemma cell_convert_at (d : DataFrame) (i : nat) (row : list value) :
cell i (convert_at parse d i row) = time_value parse d i row.
Proof.
unfold convert_at, time_value. destruct (is_text d i); [|reflexivity].
apply cell_set_coerce.
Qed.

Lemma converted_not_text (d : DataFrame) (i : nat) :
is_text d i = false -> converted parse d i = d.
Proof.
intros H. unfold converted, dtypes_at, convert_at. rewrite H.
rewrite map_id_on by reflexivity. now destruct d.
Qed.

(** [df[col] = pd.to_datetime(df[col], errors="coerce")] *)
Lemma setitem_to_datetime (d : DataFrame) (col : string) (i : nat) :
positions col (columns d) 0 = [i] -> is_text d i = true ->
setitem d col
  (to_datetime parse {| dtype_of := nth i (dtypes d) object;
                        tolist := map (cell i) (rows d) |})
= converted parse d i.
Proof.
intros Hpos Ht. unfold setitem, converted, to_datetime, dtypes_at.
rewrite Hpos, Ht. cbn [tolist dtype_of]. f_equal.
rewrite map_map, set_cells_map. apply map_ext. intros row.
unfold convert_at. now rewrite Ht.
Qed.

(** [df.dropna(subset=[col])] after the conversion. *)
Lemma dropna_converted (d : DataFrame) (col : string) (i : nat) :
positions col (columns d) 0 = [i] ->
dropna_subset (converted parse d i) col = Ok (time_present parse d i).
Proof.
intros Hpos. unfold dropna_subset, converted, time_present, with_rows.
cbn [columns dtypes rows]. rewrite Hpos. do 2 f_equal.
rewrite filter_map_comm. f_equal. apply filter_ext. intros row.
cbn [forallb]. now rewrite cell_convert_at, andb_true_r.
Qed.

(** The time column of the frame after [dropna]. *)
Lemma time_present_column (d : DataFrame) (i : nat) :
map (cell i) (rows (time_present parse d i))
= filter notna (map (time_value parse d i) (rows d)).
Proof.
unfold time_present. cbn [rows]. rewrite map_map, filter_map_comm.
apply map_ext. intros row. apply cell_convert_at.
Qed.

(** [df[(df[col] >= lo) & (df[col] <= hi)]] after [dropna]. *)
Lemma range_mask_view (d : DataFrame) (i : nat) (range : value * value)
    (m1 m2 : list bool) :
let vals := filter notna (map (time_value parse d i) (rows d)) in
mapM (fun v => value_le (fst range) v) vals = Ok m1 ->
mapM (fun v => value_le v (snd range)) vals = Ok m2 ->
getitem_mask (time_present parse d i) (mask_and m1 m2)
= time_view parse range d i.
Proof.
intros vals H1 H2. rewrite (select_masks _ _ _ H1 H2).
unfold getitem_mask, with_rows, time_view.
cbn [columns dtypes]. f_equal.
subst vals. rewrite <- time_present_column, map_map, select_map.
unfold time_present. cbn [rows].
rewrite filter_map_comm, filter_filter. f_equal.
apply filter_ext. intros row. now rewrite cell_convert_at.
Qed.

End TimeColumn.

(* ================================================================== *)
(** * The sidebar blocks, statement by statement *)

Section Blocks.

Variable parse : value -> option Z.
Variable w : Widgets.

Lemma frame_moved (s : state) (h : list DataFrame) (l : nat)
      (p : list element) :
  frame (moved s h l p) = nth_error h l.
Proof. reflexivity. Qed.

Lemma nth_error_snoc {A} (h : list A) (x : A) :
  nth_error (h ++ [x]) (length h) = Some x.
Proof. rewrite nth_error_app2, Nat.sub_diag by lia. reflexivity. Qed.

Lemma getitem_unique (d : DataFrame) (col : string) (i : nat) :
  positions col (columns d) 0 = [i] ->
  getitem d col = Ok {| dtype_of := nth i (dtypes d) object;
                        tolist := map (cell i) (rows d) |}.
Proof. unfold getitem. now intros ->. Qed.

(** The categorical block of a role, run in a state whose [df] is
    bound to [d]. *)
Lemma categorical_filter_run (r : role) (s : state) (d : DataFrame) :
  frame s = Some d ->
  categorical_filter w r s =
  match possible_for s r with
  | [] => (Ok tt, s)
  | col :: _ =>
      match positions col (columns d) 0 with
      | [] => (Raise (KeyError col), s)
      | [i] =>
          let options := distinct_nonnull (map (cell i) (rows d)) in
          match multiselect w r options with
          | Ok selected =>
              (Ok tt,
               moved s
                 (heap s ++
                  [with_rows d (filter (fun row => member (cell i row) selected)
                                       (rows d))])
                 (length (heap s))
                 (page s ++ [Multiselect r options options]))
          | Raise e => (Raise e, s)
          end
      | _ => (Raise AttributeError, s)
      end
  end.
Proof.
  intros Hd. unfold categorical_filter, bind, get_possible.
  destruct (possible_for s r) as [|col rest]; [reflexivity|].
  unfold get_df at 1. rewrite Hd. unfold lift.
  destruct (positions col (columns d) 0) as [|i [|j l]] eqn:Hpos;
    try (unfold getitem; rewrite Hpos; reflexivity).
  erewrite getitem_unique by exact Hpos.
  unfold st_multiselect, bind, lift, dropna, unique. cbn [tolist dtype_of].
  fold (distinct_nonnull (map (cell i) (rows d))).
  destruct (multiselect w r _) as [selected|e]; [|reflexivity].
  cbn. unfold get_df, frame in *. cbn. rewrite Hd.
  erewrite getitem_unique by exact Hpos.
  unfold assign_df, moved, getitem_mask, isin. cbn.
  rewrite map_map, select_map. reflexivity.
Qed.

Lemma frame_bound (s : state) (d : DataFrame) :
  frame s = Some d -> df s < length (heap s).
Proof. intros H. apply nth_error_Some. unfold frame in H. congruence. Qed.

(** The time block, run in a state whose [df] is bound to [d]. *)
Lemma time_filter_run (s : state) (d : DataFrame) :
  frame s = Some d ->
  time_filter parse w s =
  match possible_for s time with
  | [] => (Ok tt, s)
  | col :: _ =>
      match positions col (columns d) 0 with
      | [] => (Raise (KeyError col), s)
      | [i] =>
          let h1 := set_nth (df s) (converted parse d i) (heap s) in
          let d2 := time_present parse d i in
          let vals := filter notna (map (time_value parse d i) (rows d)) in
          let s1 := moved s (h1 ++ [d2]) (length (heap s)) (page s) in
          match list_min vals with
          | Raise e => (Raise e, s1)
          | Ok lo =>
          match list_max vals with
          | Raise e => (Raise e, s1)
          | Ok hi =>
          match slider w lo hi with
          | Raise e => (Raise e, s1)
          | Ok range =>
          let p2 := page s ++ [Slider lo hi (lo, hi)] in
          let s2 := moved s (h1 ++ [d2]) (length (heap s)) p2 in
          match mapM (fun v => value_le (fst range) v) vals with
          | Raise e => (Raise e, s2)
          | Ok _ =>
          match mapM (fun v => value_le v (snd range)) vals with
          | Raise e => (Raise e, s2)
          | Ok _ =>
              (Ok tt,
               moved s (h1 ++ [d2; time_view parse range d i])
                     (S (length (heap s))) p2)
          end end end end end
      | _ => (Raise AttributeError, s)
      end
  end.
Proof.
  intros Hd. pose proof (frame_bound _ Hd) as Hlt.
  unfold time_filter, bind, get_possible.
  destruct (possible_for s time) as [|col rest]; [reflexivity|].
  unfold get_df at 1. rewrite Hd. unfold lift.
  destruct (positions col (columns d) 0) as [|i [|j l]] eqn:Hpos;
    try (unfold getitem; rewrite Hpos; reflexivity).
  erewrite getitem_unique by exact Hpos. cbn [dtype_of].
  fold (is_text d i).
  set (d1 := converted parse d i).
  assert (Hstep :
    (if is_text d i
     then put_df (setitem d col
            (to_datetime parse {| dtype_of := nth i (dtypes d) object;
                                  tolist := map (cell i) (rows d) |}))
     else ret tt) s
    = (Ok tt, moved s (set_nth (df s) d1 (heap s)) (df s) (page s))).
  { subst d1. destruct (is_text d i) eqn:Ht.
    - erewrite setitem_to_datetime by eassumption. reflexivity.
    - rewrite converted_not_text by exact Ht.
      rewrite set_nth_same by exact Hd. unfold ret, moved. now destruct s. }
  rewrite Hstep. clear Hstep.
  assert (Hd1 : frame (moved s (set_nth (df s) d1 (heap s)) (df s) (page s))
                = Some d1).
  { rewrite frame_moved, nth_error_set_nth, Nat.eqb_refl.
    apply Nat.ltb_lt in Hlt. now rewrite Hlt. }
  unfold get_df at 1. rewrite Hd1.
  assert (Hpos1 : positions col (columns d1) 0 = [i]) by exact Hpos.
  subst d1. erewrite dropna_converted by exact Hpos.
  cbn [assign_df moved heap df page possible_income possible_gender
       possible_neigh possible_time].
  unfold assign_df at 1. cbn [heap df page possible_income possible_gender
       possible_neigh possible_time].
  rewrite set_nth_length.
  unfold get_df at 1, frame. cbn [heap df].
  rewrite nth_error_app2 by (rewrite set_nth_length; lia).
  rewrite set_nth_length, Nat.sub_diag. cbn [nth_error].
  assert (Hpos2 : positions col (columns (time_present parse d i)) 0 = [i])
    by exact Hpos.
  erewrite getitem_unique by exact Hpos2.
  unfold series_min, series_max. cbn [tolist].
  rewrite time_present_column.
  destruct (list_min _) as [lo|e]; [|reflexivity].
  destruct (list_max _) as [hi|e]; [|reflexivity].
  unfold st_slider, bind, lift.
  destruct (slider w lo hi) as [range|e]; [|reflexivity].
  cbn [emit ret heap df page possible_income possible_gender
       possible_neigh possible_time fst snd].
  unfold get_df at 1, frame. cbn [heap df].
  rewrite nth_error_app2 by (rewrite set_nth_length; lia).
  rewrite set_nth_length, Nat.sub_diag. cbn [nth_error].
  erewrite getitem_unique by exact Hpos2.
  unfold series_ge, series_le. cbn [tolist].
  rewrite time_present_column.
  destruct (mapM (fun v => value_le (fst range) v) _) as [m1|e] eqn:H1;
    [|reflexivity].
  destruct (mapM (fun v => value_le v (snd range)) _) as [m2|e] eqn:H2;
    [|reflexivity].
  erewrite range_mask_view by eassumption.
  unfold assign_df, moved.
  cbn [heap df page possible_income possible_gender
       possible_neigh possible_time].
  rewrite length_app, set_nth_length, <- app_assoc. cbn [length app].
  rewrite Nat.add_1_r. reflexivity.
Qed.

Lemma role_index_first (d : DataFrame) (r : role) (col : string)
      (rest : list string) (i : nat) :
  candidates r (columns d) = col :: rest ->
  positions col (columns d) 0 = [i] ->
  role_index d r = Some i.
Proof.
  intros Hc Hp. unfold role_index, infer_roles. rewrite Hc. cbn [hd_error].
  now rewrite Hp.
Qed.

Lemma role_index_none (d : DataFrame) (r : role) :
  candidates r (columns d) = [] -> role_index d r = None.
Proof. intros Hc. unfold role_index, infer_roles. now rewrite Hc. Qed.

(** A categorical block that goes through narrows the rows by the
    selection made among the options offered over the current rows. *)
Lemma categorical_filter_ok (r : role) (s s' : state) (d : DataFrame)
      (rs : list (list value)) :
  frame s = Some (with_rows d rs) ->
  possible_for s r = candidates r (columns d) ->
  categorical_filter w r s = (Ok tt, s') ->
  mapped_once d r /\
  exists selected,
    chose w r (offered d r rs) selected /\
    frame s' = Some (with_rows d (narrowed d r selected rs)) /\
    page s' = page s ++ multiselect_of r (offered d r rs) /\
    (forall r', possible_for s' r' = possible_for s r').
Proof.
  intros Hd Hp Hrun. rewrite (categorical_filter_run r _ Hd), Hp in Hrun.
  cbn [columns with_rows rows] in Hrun.
  unfold mapped_once, infer_roles.
  destruct (candidates r (columns d)) as [|col rest] eqn:Hc.
  - injection Hrun as <-. split; [exact I|]. exists [].
    unfold offered, narrowed. rewrite (role_index_none _ _ Hc).
    cbn. rewrite app_nil_r. auto.
  - destruct (positions col (columns d) 0) as [|i [|j l]] eqn:Hpos;
      try discriminate.
    cbv zeta in Hrun.
    destruct (multiselect w r _) as [selected|e] eqn:Hsel; [|discriminate].
    injection Hrun as <-. split; [cbn; eauto|]. exists selected.
    unfold offered, narrowed, chose.
    rewrite (role_index_first _ _ Hc Hpos).
    split; [exact Hsel|]. split; [|split; [reflexivity|now intros []]].
    rewrite frame_moved. apply nth_error_snoc.
Qed.

Lemma with_rows_same (d : DataFrame) : with_rows d (rows d) = d.
Proof. now destruct d. Qed.

(** A time block that goes through keeps the rows whose time value is
    present and within the range returned by the slider, which was
    offered the least and the greatest time value present. *)
Lemma time_filter_ok (s s' : state) (d : DataFrame)
      (rs : list (list value)) :
  frame s = Some (with_rows d rs) ->
  possible_for s time = candidates time (columns d) ->
  time_filter parse w s = (Ok tt, s') ->
  mapped_once d time /\
  match role_index d time with
  | None => s' = s
  | Some i =>
      exists lo hi range,
        let vals := filter notna (map (time_value parse d i) rs) in
        list_min vals = Ok lo /\ list_max vals = Ok hi /\
        slider w lo hi = Ok range /\
        frame s' = Some (time_view parse range (with_rows d rs) i) /\
        page s' = page s ++ [Slider lo hi (lo, hi)]
  end.
Proof.
  intros Hd Hp Hrun. rewrite (time_filter_run _ Hd), Hp in Hrun.
  cbn [columns with_rows rows] in Hrun.
  unfold mapped_once, infer_roles.
  destruct (candidates time (columns d)) as [|col rest] eqn:Hc.
  - rewrite (role_index_none _ _ Hc). split; [exact I|]. now injection Hrun.
  - destruct (positions col (columns d) 0) as [|i [|j l]] eqn:Hpos;
      try discriminate.
    split; [cbn; eauto|].
    rewrite (role_index_first _ _ Hc Hpos).
    cbv zeta in Hrun.
    change (time_value parse (with_rows d rs) i)
      with (time_value parse d i) in Hrun.
    destruct (list_min _) as [lo|e] eqn:Hlo; [|discriminate].
    destruct (list_max _) as [hi|e] eqn:Hhi; [|discriminate].
    destruct (slider w lo hi) as [range|e] eqn:Hsl; [|discriminate].
    destruct (mapM (fun v => value_le (fst range) v) _) as [m1|e];
      [|discriminate].
    destruct (mapM (fun v => value_le v (snd range)) _) as [m2|e];
      [|discriminate].
    injection Hrun as <-. exists lo, hi, range.
    do 3 (split; [first [assumption | reflexivity]|]). split; [|reflexivity].
    rewrite frame_moved.
    change [time_present parse (with_rows d rs) i;
            time_view parse range (with_rows d rs) i]
      with ([time_present parse (with_rows d rs) i]
              ++ [time_view parse range (with_rows d rs) i]).
    rewrite app_assoc.
    replace (S (length (heap s)))
      with (length (set_nth (df s) (converted parse (with_rows d rs) i)
                            (heap s)
                    ++ [time_present parse (with_rows d rs) i])).
    + apply nth_error_snoc.
    + rewrite length_app, set_nth_length. cbn. lia.
Qed.

(** The four blocks in sequence. *)
Lemma apply_filters_ok (s s' : state) (d : DataFrame) :
  frame s = Some d ->
  apply_filters parse w s = (Ok tt, s') ->
  filters_mapped_once d /\
  exists sel_i sel_g sel_n,
    let rs1 := narrowed d income sel_i (rows d) in
    let rs2 := narrowed d gender sel_g rs1 in
    let rs3 := narrowed d region sel_n rs2 in
    let boxes := multiselect_of income (offered d income (rows d))
                 ++ multiselect_of gender (offered d gender rs1)
                 ++ multiselect_of region (offered d region rs2) in
    chose w income (offered d income (rows d)) sel_i /\
    chose w gender (offered d gender rs1) sel_g /\
    chose w region (offered d region rs2) sel_n /\
    match role_index d time with
    | None =>
        frame s' = Some (with_rows d rs3) /\ page s' = page s ++ boxes
    | Some i =>
        exists lo hi range,
          let vals := filter notna (map (time_value parse d i) rs3) in
          list_min vals = Ok lo /\ list_max vals = Ok hi /\
          slider w lo hi = Ok range /\
          frame s' = Some (time_view parse range (with_rows d rs3) i) /\
          page s' = page s ++ boxes ++ [Slider lo hi (lo, hi)]
    end.
Proof.
  intros Hd Hrun. unfold apply_filters in Hrun.
  unfold bind at 1 in Hrun. unfold get_df at 1 in Hrun. rewrite Hd in Hrun.
  unfold bind at 1 in Hrun. cbn [assign_possible] in Hrun.
  set (s0 := {| heap := heap s; df := df s;
                possible_income := candidates income (columns d);
                possible_gender := candidates gender (columns d);
                possible_neigh := candidates region (columns d);
                possible_time := candidates time (columns d);
                page := page s |}) in Hrun.
  assert (H0 : frame s0 = Some (with_rows d (rows d)))
    by (rewrite with_rows_same; exact Hd).
  unfold bind at 1 in Hrun.
  destruct (categorical_filter w income s0) as [[[]|e] s1] eqn:E1;
    [|discriminate].
  destruct (categorical_filter_ok income _ H0 eq_refl E1)
    as (Hm1 & sel_i & Hc1 & Hf1 & Hp1 & Hk1).
  unfold bind at 1 in Hrun.
  destruct (categorical_filter w gender s1) as [[[]|e] s2] eqn:E2;
    [|discriminate].
  destruct (categorical_filter_ok gender _ Hf1 (Hk1 gender) E2)
    as (Hm2 & sel_g & Hc2 & Hf2 & Hp2 & Hk2).
  unfold bind at 1 in Hrun.
  destruct (categorical_filter w region s2) as [[[]|e] s3] eqn:E3;
    [|discriminate].
  assert (Hk2' : possible_for s2 region = candidates region (columns d))
    by (rewrite Hk2; apply (Hk1 region)).
  destruct (categorical_filter_ok region _ Hf2 Hk2' E3)
    as (Hm3 & sel_n & Hc3 & Hf3 & Hp3 & Hk3).
  assert (Hk3' : possible_for s3 time = candidates time (columns d))
    by (rewrite Hk3, Hk2; apply (Hk1 time)).
  destruct (time_filter_ok _ Hf3 Hk3' Hrun) as [Hm4 Ht].
  split; [repeat split; assumption|].
  exists sel_i, sel_g, sel_n. cbv zeta.
  repeat (split; [assumption|]).
  assert (Hpage : page s3 = page s
            ++ multiselect_of income (offered d income (rows d))
            ++ multiselect_of gender
                 (offered d gender (narrowed d income sel_i (rows d)))
            ++ multiselect_of region
                 (offered d region
                    (narrowed d gender sel_g
                       (narrowed d income sel_i (rows d))))).
  { rewrite Hp3, Hp2, Hp1. cbn [page s0]. now rewrite <- !app_assoc. }
  destruct (role_index d time) as [i|].
  - destruct Ht as (lo & hi & range & Hlo & Hhi & Hsl & Hf & Hp).
    exists lo, hi, range. repeat (split; [assumption|]).
    rewrite Hp, Hpage. now rewrite <- !app_assoc.
  - subst s'. split; assumption.
Qed.

End Blocks.

(* ================================================================== *)
(** * Facts about comparisons *)

Lemma string_leb_trans (a b c : string) :
  String.leb a b = true -> String.leb b c = true -> String.leb a c = true.
Proof.
  unfold String.leb. revert b c.
  induction a as [|x a IH]; intros [|y b] [|z c]; simpl; try congruence.
  unfold Ascii.compare.
  destruct (N.compare_spec (N_of_ascii x) (N_of_ascii y)) as [Hxy|Hxy|Hxy];
    try congruence.
  - rewrite Hxy.
    destruct (N.compare_spec (N_of_ascii y) (N_of_ascii z)); try congruence.
    apply IH.
  - destruct (N.compare_spec (N_of_ascii y) (N_of_ascii z)) as [Hyz|Hyz|Hyz];
      try congruence; intros _ _.
    + rewrite <- Hyz. apply N.compare_lt_iff in Hxy. now rewrite Hxy.
    + assert (H : (N_of_ascii x < N_of_ascii z)%N) by lia.
      apply N.compare_lt_iff in H. now rewrite H.
Qed.

Lemma Qle_bool_trans (p q r : Q) :
  Qle_bool p q = true -> Qle_bool q r = true -> Qle_bool p r = true.
Proof. rewrite !Qle_bool_iff. apply Qle_trans. Qed.

Lemma Qle_bool_total (p q : Q) : Qle_bool p q = true \/ Qle_bool q p = true.
Proof.
  rewrite !Qle_bool_iff. destruct (Qlt_le_dec p q) as [H|H]; [left|right].
  - now apply Qlt_le_weak.
  - exact H.
Qed.

(** A comparison holds only between present values of one kind. *)
Lemma value_le_true_kind (a b : value) :
  value_le a b = Ok true -> kind_of a = kind_of b /\ kind_of a <> k_na.
Proof.
  destruct a, b; simpl; intros H; try discriminate; split;
    try reflexivity; discriminate.
Qed.

(** Values of one kind compare without error. *)
Lemma value_le_same_kind (a b : value) :
  kind_of a = kind_of b -> exists x, value_le a b = Ok x.
Proof. destruct a, b; simpl; intros H; try discriminate; eauto. Qed.

Lemma value_le_trans (a b c : value) :
  value_le a b = Ok true -> value_le b c = Ok true -> value_le a c = Ok true.
Proof.
  intros Hab Hbc.
  destruct (value_le_true_kind _ _ Hab) as [Kab _].
  destruct (value_le_true_kind _ _ Hbc) as [Kbc _].
  destruct a, b; try discriminate; destruct c; try discriminate;
    simpl in *; injection Hab as Hab; injection Hbc as Hbc; f_equal;
    try (eapply Qle_bool_trans; eassumption).
  - eapply string_leb_trans; eassumption.
  - apply Z.leb_le in Hab, Hbc. apply Z.leb_le. lia.
Qed.

Lemma value_le_total (a b : value) :
  kind_of a = kind_of b -> kind_of a <> k_na ->
  value_le a b = Ok true \/ value_le b a = Ok true.
Proof.
  destruct a, b; simpl; intros H Hn; try discriminate; try congruence;
    try match goal with
        | |- Ok (Qle_bool ?p ?q) = _ \/ _ =>
            destruct (Qle_bool_total p q) as [-> | ->]; auto
        end.
  - destruct (String.leb_total s s0) as [-> | ->]; auto.
  - destruct (Z.leb_spec t t0); [left|right]; f_equal.
    apply Z.leb_le. lia.
Qed.

(** * Facts about minimum and maximum *)

Section Extremes.

Variable k : kind.
Hypothesis k_present : k <> k_na.

Lemma reduce_min_spec (l : list value) (acc : value) :
  of_kind k acc -> Forall (of_kind k) l ->
  exists m, reduce pick_min acc l = Ok m /\ of_kind k m /\
            value_le m acc = Ok true /\
            Forall (fun v => value_le m v = Ok true) l.
Proof.
  revert acc; induction l as [|v l IH]; intros acc Hacc Hl.
  - exists acc. simpl. repeat split; auto.
    destruct (value_le_total acc acc) as [H|H]; auto; congruence.
  - inversion Hl as [|? ? Hv Hl']; subst. simpl. unfold pick_min at 1.
    destruct (value_le_total v acc) as [H|H]; try congruence.
    + rewrite H. simpl.
      destruct (IH v Hv Hl') as (m & Hm & Km & Hmv & Hall).
      exists m. repeat split; auto.
      eapply value_le_trans; eassumption.
    + destruct (value_le_same_kind v acc) as [[] Hx]; try congruence;
        rewrite Hx; simpl.
      * destruct (IH v Hv Hl') as (m & Hm & Km & Hmv & Hall).
        exists m. repeat split; auto.
        eapply value_le_trans; eassumption.
      * destruct (IH acc Hacc Hl') as (m & Hm & Km & Hma & Hall).
        exists m. repeat split; auto. constructor; auto.
        eapply value_le_trans; eassumption.
Qed.

Lemma reduce_max_spec (l : list value) (acc : value) :
  of_kind k acc -> Forall (of_kind k) l ->
  exists m, reduce pick_max acc l = Ok m /\ of_kind k m /\
            value_le acc m = Ok true /\
            Forall (fun v => value_le v m = Ok true) l.
Proof.
  revert acc; induction l as [|v l IH]; intros acc Hacc Hl.
  - exists acc. simpl. repeat split; auto.
    destruct (value_le_total acc acc) as [H|H]; auto; congruence.
  - inversion Hl as [|? ? Hv Hl']; subst. simpl. unfold pick_max at 1.
    destruct (value_le_total acc v) as [H|H]; try congruence.
    + rewrite H. simpl.
      destruct (IH v Hv Hl') as (m & Hm & Km & Hmv & Hall).
      exists m. repeat split; auto.
      eapply value_le_trans; eassumption.
    + destruct (value_le_same_kind acc v) as [[] Hx]; try congruence;
        rewrite Hx; simpl.
      * destruct (IH v Hv Hl') as (m & Hm & Km & Hmv & Hall).
        exists m. repeat split; auto.
        eapply value_le_trans; eassumption.
      * destruct (IH acc Hacc Hl') as (m & Hm & Km & Hma & Hall).
        exists m. repeat split; auto. constructor; auto.
        eapply value_le_trans; eassumption.
Qed.

Lemma of_kind_notna (v : value) : of_kind k v -> notna v = true.
Proof. unfold of_kind. destruct v; simpl; intros H; try reflexivity. congruence. Qed.

(** Over present values of one kind the minimum exists and bounds
    every value from below. *)
Lemma list_min_spec (l : list value) :
  Forall (of_kind k) l ->
  exists lo, list_min l = Ok lo /\
             Forall (fun v => value_le lo v = Ok true) l.
Proof.
  intros Hl. unfold list_min.
  rewrite filter_all
    by (intros v Hv; apply of_kind_notna;
        now apply (proj1 (Forall_forall _ _) Hl)).
  destruct l as [|v l]; [exists NA; auto|].
  inversion Hl as [|? ? Hv Hl']; subst.
  destruct (reduce_min_spec Hv Hl') as (m & Hm & _ & Hmv & Hall).
  exists m. auto.
Qed.

Lemma list_max_spec (l : list value) :
  Forall (of_kind k) l ->
  exists hi, list_max l = Ok hi /\
             Forall (fun v => value_le v hi = Ok true) l.
Proof.
  intros Hl. unfold list_max.
  rewrite filter_all
    by (intros v Hv; apply of_kind_notna;
        now apply (proj1 (Forall_forall _ _) Hl)).
  destruct l as [|v l]; [exists NA; auto|].
  inversion Hl as [|? ? Hv Hl']; subst.
  destruct (reduce_max_spec Hv Hl') as (m & Hm & _ & Hmv & Hall).
  exists m. auto.
Qed.

End Extremes.

(* ================================================================== *)
(** * Runs and the settings the widgets return *)

Section Returns.

Variable parse : value -> option Z.
Variable w : Widgets.

(** The rows a categorical block keeps depend on what its widget
    returned only. *)
Lemma narrowed_returned (d : DataFrame) (r : role) (F : FilterSpec)
      (rs : list (list value)) (selected : list value) :
  chose w r (offered d r rs) selected ->
  chose w r (offered d r rs) (accepted F r) ->
  narrowed d r selected rs = narrowed d r (accepted F r) rs.
Proof.
  unfold chose, offered, narrowed.
  destruct (role_index d r) as [i|]; [|reflexivity].
  intros H1 H2. rewrite H1 in H2. now injection H2 as ->.
Qed.

Lemma narrowed_accepts (d : DataFrame) (r : role) (F : FilterSpec)
      (rs : list (list value)) :
  narrowed d r (accepted F r) rs = filter (accepts_role F d r) rs.
Proof.
  unfold narrowed, accepts_role.
  destruct (role_index d r) as [i|]; [reflexivity|].
  symmetry. now apply filter_all.
Qed.

Lemma filter_accepts (F : FilterSpec) (d : DataFrame)
      (rs : list (list value)) :
  filter (accepts_time parse F d)
    (filter (accepts_role F d region)
       (filter (accepts_role F d gender)
          (filter (accepts_role F d income) rs)))
  = filter (accepts parse F d) rs.
Proof.
  rewrite !filter_filter. apply filter_ext. intros row.
  unfold accepts. now rewrite !andb_assoc.
Qed.

(** The frame of a run that goes through is the FilteredTable of the
    settings that the widgets returned. *)
Lemma returns_view (s s' : state) (d : DataFrame) (F : FilterSpec) :
  frame s = Some d ->
  apply_filters parse w s = (Ok tt, s') ->
  returns parse w d F ->
  frame s' = Some (filtered_view parse F d).
Proof.
  intros Hd Hrun (R1 & R2 & R3 & R4).
  destruct (apply_filters_ok _ _ _ Hd Hrun)
    as (_ & sel_i & sel_g & sel_n & Hc1 & Hc2 & Hc3 & Ht).
  cbv zeta in Hc2, Hc3, Ht.
  rewrite (@narrowed_returned d income F _ _ Hc1 R1) in Hc2, Hc3, Ht.
  rewrite (@narrowed_returned d gender F _ _ Hc2 R2) in Hc3, Ht.
  rewrite (@narrowed_returned d region F _ _ Hc3 R3) in Ht.
  rewrite !narrowed_accepts in Ht, R4.
  unfold filtered_view, filtered_dtypes, convert_row.
  rewrite <- filter_accepts. unfold accepts_time at 1.
  destruct (role_index d time) as [i|].
  - destruct Ht as (lo & hi & range & Hlo & Hhi & Hsl & Hf & _).
    destruct R4 as (lo' & hi' & Hlo' & Hhi' & Hsl').
    rewrite Hlo in Hlo'. injection Hlo' as <-.
    rewrite Hhi in Hhi'. injection Hhi' as <-.
    rewrite Hsl in Hsl'. injection Hsl' as ->. exact Hf.
  - destruct Ht as [Hf _]. rewrite Hf. unfold with_rows.
    rewrite map_id_on by reflexivity.
    rewrite (filter_all (fun _ => true)) by reflexivity. reflexivity.
Qed.

(** A run that goes through returned some settings. *)
Lemma apply_filters_returns (s s' : state) (d : DataFrame) :
  frame s = Some d ->
  apply_filters parse w s = (Ok tt, s') ->
  exists F, returns parse w d F /\
            frame s' = Some (filtered_view parse F d).
Proof.
  intros Hd Hrun.
  destruct (apply_filters_ok _ _ _ Hd Hrun)
    as (_ & sel_i & sel_g & sel_n & Hc1 & Hc2 & Hc3 & Ht).
  cbv zeta in Hc2, Hc3, Ht.
  set (pick := fun r => match r with
                        | income => sel_i
                        | gender => sel_g
                        | region => sel_n
                        | _ => []
                        end).
  assert (HF : exists F, returns parse w d F).
  { destruct (role_index d time) as [i|] eqn:Hi.
    - destruct Ht as (lo & hi & range & Hlo & Hhi & Hsl & _).
      exists {| accepted := pick; time_range := range |}.
      unfold returns. cbn [accepted time_range pick]. rewrite Hi.
      repeat (split; [assumption|]). exists lo, hi. auto.
    - exists {| accepted := pick; time_range := (NA, NA) |}.
      unfold returns. cbn [accepted time_range pick]. rewrite Hi.
      repeat (split; [assumption|]). exact I. }
  destruct HF as [F HF]. exists F. split; [exact HF|].
  eapply returns_view; eassumption.
Qed.

End Returns.

Lemma distinct_mapped_once (d : DataFrame) (r : role) :
  distinct_labels d = true -> mapped_once d r.
Proof.
  intros H. unfold mapped_once, infer_roles.
  destruct (candidates r (columns d)) as [|col rest] eqn:Hc; cbn; [trivial|].
  apply distinct_labels_position; [exact H|].
  apply (candidates_in r). rewrite Hc. now left.
Qed.

(* ================================================================== *)
(** * Filter application *)

Lemma truth_ok (r : result bool) : truth r = true -> r = Ok true.
Proof. destruct r as [[]|]; simpl; congruence. Qed.

Lemma in_range_bounds (range : value * value) (v : value) :
  in_range range v = true ->
  value_le (fst range) v = Ok true /\ value_le v (snd range) = Ok true.
Proof.
  unfold in_range. intros H. apply andb_true_iff in H as [H1 H2].
  split; now apply truth_ok.
Qed.

(** The slider of the samples answers for numbers only. *)
Lemma slider_accepts_numbers (lo hi : value) :
  slider_accepts lo hi = true -> kind_of lo = k_num /\ kind_of hi = k_num.
Proof. destruct lo, hi; simpl; intros H; try discriminate; auto. Qed.

Lemma untouched_refuses_dates : dates_refused untouched.
Proof.
  intros lo hi range H. cbn in H.
  destruct (slider_accepts lo hi) eqn:E; [|discriminate].
  destruct (slider_accepts_numbers _ _ E) as [-> ->]. split; discriminate.
Qed.

Lemma holding_refuses_dates (F : FilterSpec) : dates_refused (holding F).
Proof.
  intros lo hi range H. cbn in H.
  destruct (slider_accepts lo hi) eqn:E; [|discriminate].
  destruct (slider_accepts_numbers _ _ E) as [-> ->]. split; discriminate.
Qed.

(** The least value of a list is one of its values. *)
Lemma reduce_min_in (l : list value) (acc m : value) :
  reduce pick_min acc l = Ok m -> m = acc \/ In m l.
Proof.
  revert acc; induction l as [|v l IH]; intros acc; simpl.
  - intros H. injection H as <-. now left.
  - unfold pick_min at 1. destruct (value_le v acc) as [[|]|e]; simpl;
      try discriminate; intros H; destruct (IH _ H) as [->|Hin]; auto.
Qed.

Lemma list_min_in (l : list value) (lo : value) :
  list_min l = Ok lo -> (lo = NA /\ filter notna l = []) \/ In lo (filter notna l).
Proof.
  unfold list_min. destruct (filter notna l) as [|v l'].
  - intros H. injection H as <-. now left.
  - intros H. right. destruct (reduce_min_in _ _ H) as [->|Hin];
      [now left|now right].
Qed.

Lemma filter_twice {A} (p : A -> bool) (l : list A) :
  filter p (filter p l) = filter p l.
Proof.
  rewrite filter_filter. apply filter_ext. intros x. apply andb_diag.
Qed.

(** The time values the filter reads in a text column are dates. *)
Lemma text_time_values (parse : value -> option Z) (d : DataFrame) (i : nat)
      (rs : list (list value)) (v : value) :
  is_text d i = true ->
  In v (filter notna (map (time_value parse d i) rs)) ->
  kind_of v = k_time.
Proof.
  intros Ht Hv. apply filter_In in Hv as [Hv Hn].
  apply in_map_iff in Hv as (row & <- & _). unfold time_value in *.
  rewrite Ht in *. unfold coerce in *.
  destruct (cell i row); try discriminate; destruct (parse _);
    try discriminate; reflexivity.
Qed.

(** Where the slider refuses dates, filters that go through over a text
    time column had no date left to offer, and leave no row. *)
Lemma text_run_empty (parse : value -> option Z) (w : Widgets)
      (s s' : state) (d d' : DataFrame) (i : nat) :
  dates_refused w ->
  frame s = Some d ->
  role_index d time = Some i -> is_text d i = true ->
  apply_filters parse w s = (Ok tt, s') ->
  frame s' = Some d' ->
  rows d' = [].
Proof.
  intros Hw Hd Hi Htext Hrun Hd'.
  destruct (apply_filters_ok _ _ _ Hd Hrun)
    as (_ & sel_i & sel_g & sel_n & _ & _ & _ & Ht).
  cbv zeta in Ht. rewrite Hi in Ht.
  destruct Ht as (lo & hi & range & Hlo & _ & Hsl & Hf & _).
  destruct (Hw _ _ _ Hsl) as [Klo _].
  destruct (list_min_in _ Hlo) as [[_ Hnone]|Hin];
    rewrite filter_twice in *.
  - rewrite Hf in Hd'. injection Hd' as <-. unfold time_view.
    cbn [rows with_rows].
    rewrite filter_none; [reflexivity|]. intros row Hrow.
    change (time_value parse (with_rows d _) i row)
      with (time_value parse d i row).
    destruct (notna (time_value parse d i row)) eqn:Hn; [|reflexivity].
    exfalso.
    assert (Hv : In (time_value parse d i row)
                    (filter notna (map (time_value parse d i)
                       (narrowed d region sel_n
                          (narrowed d gender sel_g
                             (narrowed d income sel_i (rows d))))))).
    { apply filter_In. split; [now apply in_map|exact Hn]. }
    rewrite Hnone in Hv. exact Hv.
  - exfalso. apply Klo. eapply text_time_values; eassumption.
Qed.

(** C3, at a failing input.  On the sample survey, whose dates are
    text, with the gender selection emptied: the three multiselects are
    rendered, no row is left, the bounds of the date column are missing
    and the slider refuses them.  The filters raise, and the run of the
    script shows the error instead of an empty table. *)
Theorem empty_selection_ends_in_error :
  let w := holding Sample.nobody in
  let run := apply_filters Sample.read_date w (Sample.loaded Sample.survey) in
  let final := main Sample.read_date w (Some "csv"%string)
                    (Ok Sample.survey) in
  accepted Sample.nobody gender = [] /\
  role_index Sample.survey gender = Some 1 /\
  exists e,
    fst run = Raise e /\
    page (snd run)
    = [Multiselect income [Str "low"; Str "high"] [Str "low"; Str "high"];
       Multiselect gender [Str "f"; Str "m"] [Str "f"; Str "m"];
       Multiselect region [] []]%string /\
    In (ErrorBox e) (page final) /\
    forall data, ~ In (DataframeView data) (page final).
Proof.
  cbv zeta. split; [reflexivity|]. split; [reflexivity|].
  exists StreamlitAPIException.
  split; [vm_compute; reflexivity|]. split; [vm_compute; reflexivity|].
  split.
  - vm_compute. tauto.
  - intros data. vm_compute. intuition discriminate.
Qed.

(** C7. Narrowing the settings never adds rows.  Take two runs of the
    filters over one table, each with its own reading of the dates, in
    which the widgets return [F] and [F'], the slider of the second
    refusing dates as that of Streamlit does.  If [F'] accepts no value
    that [F] refuses and its range lies within that of [F], then
    whenever both runs yield a table, the table under [F'] has at most
    as many rows as the table under [F]. *)
Theorem narrowing_never_adds_rows (parse parse' : value -> option Z)
        (w w' : Widgets) (F F' : FilterSpec) (s t s1 t1 : state)
        (d d1 d1' : DataFrame) :
  frame s = Some d -> frame t = Some d ->
  dates_refused w' ->
  returns parse w d F -> returns parse' w' d F' ->
  narrows F' F ->
  apply_filters parse w s = (Ok tt, s1) ->
  apply_filters parse' w' t = (Ok tt, t1) ->
  frame s1 = Some d1 -> frame t1 = Some d1' ->
  length (rows d1') <= length (rows d1).
Proof.
  intros Hd Hd' Hw' HF HF' (Hacc & Hlo & Hhi) Hrun Hrun' H1 H1'.
  assert (Hcase : role_index d time = None \/
                  exists i, role_index d time = Some i)
    by (destruct (role_index d time); eauto).
  assert (Htext : (exists i, role_index d time = Some i /\
                             is_text d i = true) \/
                  (forall i, role_index d time = Some i ->
                             is_text d i = false)).
  { destruct Hcase as [Hn|[i Hi]].
    - right. intros i Hi. congruence.
    - destruct (is_text d i) eqn:E; [left; eauto|].
      right. intros j Hj. congruence. }
  destruct Htext as [(i & Hi & Ht)|Hplain].
  { rewrite (@text_run_empty parse' w' t t1 d d1' i Hw' Hd' Hi Ht Hrun' H1').
    cbn. lia. }
  rewrite (@returns_view parse w s s1 d F Hd Hrun HF) in H1.
  injection H1 as <-.
  rewrite (@returns_view parse' w' t t1 d F' Hd' Hrun' HF') in H1'.
  injection H1' as <-.
  unfold filtered_view. cbn [rows]. rewrite !length_map.
  apply filter_length_mono. intros row _. unfold accepts.
  rewrite !andb_true_iff. intros [[[Hi Hg] Hr] Ht].
  assert (Hrole : forall r, accepts_role F' d r row = true ->
                            accepts_role F d r row = true).
  { intros r. unfold accepts_role. destruct (role_index d r); auto. }
  repeat split; auto.
  revert Ht. unfold accepts_time.
  destruct (role_index d time) as [i|]; auto.
  unfold time_value. rewrite (Hplain i eq_refl).
  rewrite !andb_true_iff. intros [Hna Hin]. split; [exact Hna|].
  apply in_range_bounds in Hin as [Ha Hb]. unfold in_range.
  destruct Hlo as [<-|Hlo], Hhi as [<-|Hhi].
  - now rewrite Ha, Hb.
  - now rewrite Ha, (@value_le_trans _ _ _ Hb Hhi).
  - now rewrite (@value_le_trans _ _ _ Hlo Ha), Hb.
  - now rewrite (@value_le_trans _ _ _ Hlo Ha), (@value_le_trans _ _ _ Hb Hhi).
Qed.

Lemma narrowing_never_adds_rows_witness :
  exists d1 d1',
    frame (snd (apply_filters Sample.read_date (holding Sample.wide)
                              (Sample.loaded Sample.census))) = Some d1 /\
    frame (snd (apply_filters Sample.read_date (holding Sample.narrow)
                              (Sample.loaded Sample.census))) = Some d1' /\
    length (rows d1) = 4 /\ length (rows d1') = 2 /\
    length (rows d1') <= length (rows d1).
Proof.
  eexists. eexists. split; [vm_compute; reflexivity|].
  split; [vm_compute; reflexivity|]. split; [reflexivity|].
  split; [reflexivity|].
  apply (@narrowing_never_adds_rows Sample.read_date Sample.read_date
           (holding Sample.wide) (holding Sample.narrow)
           Sample.wide Sample.narrow
           (Sample.loaded Sample.census) (Sample.loaded Sample.census)
           (snd (apply_filters Sample.read_date (holding Sample.wide)
                               (Sample.loaded Sample.census)))
           (snd (apply_filters Sample.read_date (holding Sample.narrow)
                               (Sample.loaded Sample.census)))
           Sample.census).
  - reflexivity.
  - reflexivity.
  - apply holding_refuses_dates.
  - vm_compute. repeat split. exists (Int 2019), (Int 2021). repeat split.
  - vm_compute. repeat split. exists (Int 2019), (Int 2020). repeat split.
  - split; [|split].
    + intros r v. destruct r; cbn; intros H;
        repeat (apply orb_true_iff in H; destruct H as [H|H]);
        try discriminate; rewrite H; rewrite ?orb_true_r; reflexivity.
    + vm_compute. auto.
    + vm_compute. auto.
  - vm_compute. reflexivity.
  - vm_compute. reflexivity.
  - vm_compute. reflexivity.
  - vm_compute. reflexivity.
Defined.

(* ================================================================== *)
(** * Offered options *)

Lemma value_eqb_trans (a b c : value) :
  value_eqb a b = true -> value_eqb b c = true -> value_eqb a c = true.
Proof.
  destruct a, b; simpl; try discriminate; destruct c; simpl;
    try discriminate; try reflexivity;
    try (apply Qeq_bool_trans).
  - intros H1 H2. apply String.eqb_eq in H1, H2. apply String.eqb_eq.
    congruence.
  - intros H1 H2. apply Z.eqb_eq in H1, H2. apply Z.eqb_eq. congruence.
Qed.

Lemma member_compat (a b : value) (l : list value) :
  value_eqb a b = true -> member b l = true -> member a l = true.
Proof.
  intros Hab. unfold member. rewrite !existsb_exists.
  intros (x & Hx & Hbx). exists x. split; [exact Hx|].
  eapply value_eqb_trans; eassumption.
Qed.

Lemma member_in (v : value) (l : list value) :
  member v l = true <-> exists x, In x l /\ value_eqb v x = true.
Proof. apply existsb_exists. Qed.

Lemma dedup_sound (v : value) (l seen : list value) :
  member v (dedup seen l) = true -> member v l = true.
Proof.
  revert seen; induction l as [|x l IH]; intros seen; simpl; [auto|].
  destruct (existsb (value_eqb x) seen).
  - intros H. rewrite (IH _ H). apply orb_true_r.
  - simpl. destruct (value_eqb v x); [reflexivity|]. simpl. apply IH.
Qed.

Lemma dedup_complete (v : value) (l seen : list value) :
  member v l = true ->
  member v seen = true \/ member v (dedup seen l) = true.
Proof.
  revert seen; induction l as [|x l IH]; intros seen; simpl;
    [discriminate|].
  destruct (value_eqb v x) eqn:Hvx; simpl.
  - intros _. destruct (existsb (value_eqb x) seen) eqn:Hx.
    + left. eapply member_compat; eassumption.
    + right. simpl. now rewrite Hvx.
  - intros H. destruct (existsb (value_eqb x) seen) eqn:Hx.
    + now apply IH.
    + destruct (IH (x :: seen) H) as [H'|H'].
      * simpl in H'. rewrite Hvx in H'. now left.
      * right. simpl. now rewrite Hvx.
Qed.

(** Fewer rows offer fewer options. *)
Lemma options_shrink (j : nat) (rs' rs : list (list value)) (v : value) :
  incl rs' rs ->
  member v (distinct_nonnull (map (cell j) rs')) = true ->
  member v (distinct_nonnull (map (cell j) rs)) = true.
Proof.
  intros Hincl H. unfold distinct_nonnull in *.
  apply dedup_sound in H. apply member_in in H as (x & Hx & Hvx).
  apply filter_In in Hx as [Hx Hna]. apply in_map_iff in Hx as (row & <- & Hrow).
  destruct (@dedup_complete v (filter notna (map (cell j) rs)) []) as [H|H];
    [|discriminate H|exact H].
  apply member_in. exists (cell j row). split; [|exact Hvx].
  apply filter_In. split; [|exact Hna]. apply in_map. now apply Hincl.
Qed.

Lemma narrowed_incl (d : DataFrame) (r : role) (selected : list value)
      (rs : list (list value)) :
  incl (narrowed d r selected rs) rs.
Proof.
  unfold narrowed. destruct (role_index d r); [|apply incl_refl].
  intros row H. now apply filter_In in H.
Qed.

(** C10. The filters run in the order income, gender, region, time.
    The options offered for a role are the distinct present values of
    its column in the rows that the selections of the earlier roles
    have left, and the slider is offered the least and the greatest
    time value present in the rows left by the three categorical
    selections; every option offered over narrowed rows is a value of
    the same column of the table before any filter. *)
Theorem options_follow_earlier_filters (parse : value -> option Z)
        (w : Widgets) (s s' : state) (d : DataFrame) :
  frame s = Some d ->
  apply_filters parse w s = (Ok tt, s') ->
  exists sel_i sel_g sel_n,
    let rs1 := narrowed d income sel_i (rows d) in
    let rs2 := narrowed d gender sel_g rs1 in
    let rs3 := narrowed d region sel_n rs2 in
    chose w income (offered d income (rows d)) sel_i /\
    chose w gender (offered d gender rs1) sel_g /\
    chose w region (offered d region rs2) sel_n /\
    (exists range_slider,
       page s' = page s
                 ++ multiselect_of income (offered d income (rows d))
                 ++ multiselect_of gender (offered d gender rs1)
                 ++ multiselect_of region (offered d region rs2)
                 ++ range_slider /\
       match role_index d time with
       | None => range_slider = []
       | Some i =>
           exists lo hi,
             list_min (filter notna (map (time_value parse d i) rs3)) = Ok lo /\
             list_max (filter notna (map (time_value parse d i) rs3)) = Ok hi /\
             range_slider = [Slider lo hi (lo, hi)]
       end) /\
    (forall rs j v,
       In rs [rs1; rs2; rs3] ->
       member v (distinct_nonnull (map (cell j) rs)) = true ->
       member v (distinct_nonnull (map (cell j) (rows d))) = true).
Proof.
  intros Hd Hrun.
  destruct (@apply_filters_ok parse w s s' d Hd Hrun)
    as (_ & sel_i & sel_g & sel_n & Hc1 & Hc2 & Hc3 & Ht).
  exists sel_i, sel_g, sel_n. cbv zeta.
  split; [exact Hc1|]. split; [exact Hc2|]. split; [exact Hc3|]. split.
  - destruct (role_index d time) as [i|].
    + destruct Ht as (lo & hi & range & Hlo & Hhi & _ & _ & Hp).
      exists [Slider lo hi (lo, hi)]. split.
      * rewrite Hp. now rewrite <- !app_assoc.
      * exists lo, hi. auto.
    + destruct Ht as [_ Hp]. exists []. split; [|reflexivity].
      rewrite Hp. now rewrite app_nil_r.
  - intros rs j v Hrs. apply options_shrink.
    pose proof (narrowed_incl d income sel_i (rows d)) as I1.
    pose proof (narrowed_incl d gender sel_g
                  (narrowed d income sel_i (rows d))) as I2.
    pose proof (narrowed_incl d region sel_n
                  (narrowed d gender sel_g
                     (narrowed d income sel_i (rows d)))) as I3.
    destruct Hrs as [<-|[<-|[<-|[]]]].
    + exact I1.
    + eapply incl_tran; eassumption.
    + eapply incl_tran; [exact I3|]. eapply incl_tran; eassumption.
Qed.

Lemma options_follow_earlier_filters_witness :
  exists sel_i,
    chose (holding Sample.narrow) income
          (offered Sample.census income (rows Sample.census)) sel_i.
Proof.
  destruct (@options_follow_earlier_filters Sample.read_date
              (holding Sample.narrow) (Sample.loaded Sample.census)
              (snd (apply_filters Sample.read_date (holding Sample.narrow)
                                  (Sample.loaded Sample.census)))
              Sample.census)
    as (sel_i & _ & _ & H & _).
  - reflexivity.
  - vm_compute; reflexivity.
  - exists sel_i. exact H.
Defined.

(** On the sample survey, once the income filter keeps the low group
    only, the gender filter offers the one gender found in that group,
    not the two genders of the table. *)
Example income_narrows_gender_options :
  distinct_nonnull (map (cell 1) (rows Sample.census)) = [Str "f"; Str "m"] /\
  In (Multiselect gender [Str "f"] [Str "f"])
     (page (snd (apply_filters Sample.read_date (holding Sample.narrow)
                               (Sample.loaded Sample.census)))).
Proof.
  split; [reflexivity|]. vm_compute. auto.
Qed.

(* ================================================================== *)
(** * The time filter *)

(** Over a text column the full detected range keeps every row that
    holds a date. *)
Lemma full_range_view (parse : value -> option Z) (d : DataFrame) (i : nat)
      (lo hi : value) :
  let vals := filter notna (map (time_value parse d i) (rows d)) in
  Forall (fun v => value_le lo v = Ok true) vals ->
  Forall (fun v => value_le v hi = Ok true) vals ->
  time_view parse (lo, hi) d i = time_present parse d i.
Proof.
  intros vals Hlo Hhi. unfold time_view, time_present. f_equal. f_equal.
  apply filter_ext_on. intros row Hrow.
  destruct (notna (time_value parse d i row)) eqn:Hna; [|reflexivity].
  assert (Hin : In (time_value parse d i row) vals).
  { apply filter_In. split; [|exact Hna]. now apply in_map. }
  unfold in_range. cbn [fst snd].
  rewrite (proj1 (Forall_forall _ _) Hlo _ Hin).
  rewrite (proj1 (Forall_forall _ _) Hhi _ Hin). reflexivity.
Qed.

(** C2, as the script has it.  The time filter reads the time column
    as dates only when the column is text; a column of another type is
    filtered as it stands.  Whenever the filters yield a table, the
    slider returned a range and the table holds exactly the rows, among
    those left by the categorical selections, whose time value is
    present and lies within that range, bounds included; over a column
    that is not text these are the rows whose own cell is present and
    within the range, and the column types are unchanged. *)
Theorem time_filter_keeps_range (parse : value -> option Z) (w : Widgets)
        (s s' : state) (d : DataFrame) (i : nat) :
  frame s = Some d ->
  role_index d time = Some i ->
  apply_filters parse w s = (Ok tt, s') ->
  exists sel_i sel_g sel_n lo hi range d',
    let left := narrowed d region sel_n
                  (narrowed d gender sel_g
                     (narrowed d income sel_i (rows d))) in
    slider w lo hi = Ok range /\
    frame s' = Some d' /\
    d' = time_view parse range (with_rows d left) i /\
    rows d' = map (convert_at parse d i)
                  (filter (fun row =>
                             notna (time_value parse d i row)
                             && truth (value_le (fst range)
                                                (time_value parse d i row))
                             && truth (value_le (time_value parse d i row)
                                                (snd range)))
                          left) /\
    (is_text d i = false ->
     dtypes d' = dtypes d /\
     rows d' = filter (fun row =>
                         notna (cell i row)
                         && truth (value_le (fst range) (cell i row))
                         && truth (value_le (cell i row) (snd range)))
                      left).
Proof.
  intros Hd Hi Hrun.
  destruct (@apply_filters_ok parse w s s' d Hd Hrun)
    as (_ & sel_i & sel_g & sel_n & _ & _ & _ & Ht).
  rewrite Hi in Ht. destruct Ht as (lo & hi & range & _ & _ & Hsl & Hf & _).
  exists sel_i, sel_g, sel_n, lo, hi, range. eexists. cbv zeta.
  split; [exact Hsl|]. split; [exact Hf|]. split; [reflexivity|].
  unfold time_view. cbn [rows dtypes with_rows]. split.
  - f_equal. apply filter_ext. intros row. unfold in_range.
    now rewrite andb_assoc.
  - intros Htext. unfold dtypes_at, convert_at, time_value, is_text in *.
    cbn [dtypes with_rows]. rewrite Htext. split; [reflexivity|].
    rewrite map_id. apply filter_ext. intros row. unfold in_range.
    now rewrite andb_assoc.
Qed.

(** The years of the sample, filtered with the full range. *)
Lemma time_filter_keeps_range_witness :
  exists d',
    frame (snd (apply_filters Sample.read_date untouched
                              (Sample.loaded Sample.years))) = Some d' /\
    dtypes d' = dtypes Sample.years /\
    rows d' = rows Sample.years.
Proof.
  destruct (@time_filter_keeps_range Sample.read_date untouched
              (Sample.loaded Sample.years)
              (snd (apply_filters Sample.read_date untouched
                                  (Sample.loaded Sample.years)))
              Sample.years 0)
    as (sel_i & sel_g & sel_n & lo & hi & range & d' & _ & Hf & _ & _ & Hplain).
  - reflexivity.
  - reflexivity.
  - vm_compute. reflexivity.
  - exists d'. split; [exact Hf|].
    destruct (Hplain eq_refl) as [Hdt _]. split; [exact Hdt|].
    vm_compute in Hf. injection Hf as <-. reflexivity.
Defined.

(** A column of integer years is mapped to the time role and filtered
    as it stands: its type stays [int64] and its cells stay integers,
    whatever the date reader would make of them. *)
Lemma year_column_is_not_parsed :
  let run := apply_filters (fun _ => Some 0%Z) untouched
                           (Sample.loaded Sample.years) in
  infer_roles (columns Sample.years) time = Some "year"%string /\
  fst run = Ok tt /\
  frame (snd run) = Some Sample.years /\
  nth 0 (dtypes Sample.years) object <> datetime64 /\
  ~ (exists t, cell 0 (nth 0 (rows Sample.years) []) = Timestamp t).
Proof.
  cbv zeta. split; [reflexivity|]. split; [vm_compute; reflexivity|].
  split; [vm_compute; reflexivity|]. split; [discriminate|].
  intros [t H]. discriminate H.
Qed.

(* ================================================================== *)
(** * Filtering a filtered table *)

Lemma set_nth_twice {A} (i : nat) (x y : A) (l : list A) :
  set_nth i y (set_nth i x l) = set_nth i y l.
Proof.
  revert i; induction l as [|a l IH]; intros [|i]; simpl; try reflexivity.
  now rewrite IH.
Qed.

(** The roles depend on the labels only. *)
Lemma role_index_columns (d d' : DataFrame) (r : role) :
  columns d' = columns d -> role_index d' r = role_index d r.
Proof. intros H. unfold role_index. now rewrite H. Qed.

Section Refilter.

Variable parse parse2 : value -> option Z.
Variable F : FilterSpec.
Variable d : DataFrame.

(** Over a time column that is not text the filters leave the cells
    and the column types as they are. *)
Hypothesis plain :
  forall i, role_index d time = Some i -> is_text d i = false.

Lemma plain_view :
  filtered_view parse F d
  = with_rows d (filter (accepts parse F d) (rows d)).
Proof.
  unfold filtered_view, with_rows, filtered_dtypes, convert_row.
  destruct (role_index d time) as [i|] eqn:Hi in |- *.
  - unfold dtypes_at, convert_at. rewrite (plain Hi).
    now rewrite map_id.
  - now rewrite map_id.
Qed.

Lemma plain_accepts (rs : list (list value)) (row : list value) :
  accepts parse2 F (with_rows d rs) row = accepts parse F d row.
Proof.
  unfold accepts, accepts_role, accepts_time.
  rewrite !(@role_index_columns d (with_rows d rs)) by reflexivity.
  destruct (role_index d time) as [i|] eqn:Hi in |- *; [|reflexivity].
  unfold time_value.
  change (is_text (with_rows d rs) i) with (is_text d i).
  now rewrite (plain Hi).
Qed.

Lemma plain_view_twice :
  filtered_view parse2 F (filtered_view parse F d)
  = filtered_view parse F d.
Proof.
  rewrite plain_view.
  unfold filtered_view at 1. unfold with_rows at 1.
  cbn [columns dtypes rows with_rows].
  unfold filtered_dtypes, convert_row.
  rewrite !(@role_index_columns d (with_rows d _)) by reflexivity.
  assert (Hrows : filter (accepts parse2 F (with_rows d
                            (filter (accepts parse F d) (rows d))))
                         (filter (accepts parse F d) (rows d))
                  = filter (accepts parse F d) (rows d)).
  { rewrite (filter_ext _ (accepts parse F d))
      by (intros row; apply plain_accepts).
    rewrite filter_filter. apply filter_ext. intros row. apply andb_diag. }
  rewrite Hrows.
  destruct (role_index d time) as [i|] eqn:Hi in |- *.
  - unfold dtypes_at, convert_at.
    change (is_text (with_rows d _) i) with (is_text d i).
    rewrite (plain Hi). cbn [dtypes with_rows]. now rewrite map_id.
  - cbn [dtypes with_rows]. now rewrite map_id.
Qed.

End Refilter.

(** A filtered table without rows is left as it is. *)
Lemma empty_view_twice (parse parse2 : value -> option Z) (F : FilterSpec)
      (d : DataFrame) :
  rows (filtered_view parse F d) = [] ->
  filtered_view parse2 F (filtered_view parse F d) = filtered_view parse F d.
Proof.
  intros Hrows. unfold filtered_view at 1. rewrite Hrows.
  cbn [filter List.map].
  unfold filtered_view in *. cbn [columns dtypes rows] in *. rewrite Hrows.
  f_equal. unfold filtered_dtypes at 1.
  rewrite (@role_index_columns d _) by reflexivity.
  cbn [dtypes]. unfold filtered_dtypes.
  destruct (role_index d time) as [i|]; [|reflexivity].
  unfold dtypes_at at 1. cbn [dtypes]. unfold is_text at 1. cbn [dtypes].
  unfold dtypes_at. destruct (is_text d i) eqn:E.
  - destruct (dtype_eqb _ object); [apply set_nth_twice|reflexivity].
  - unfold is_text in E. now rewrite E.
Qed.

(** Filtering a filtered table with the same settings changes
    nothing, where it goes through.  Take a run of the filters over a table, in which the
    widgets return [F] and the slider refuses dates as that of Streamlit
    does, and a run over the table it yields, in which the widgets
    return [F] again; each run has its own reading of the dates.
    Whenever both runs yield a table, the second yields the table it
    started from. *)
Theorem refiltering_is_idempotent (parse parse2 : value -> option Z)
        (w w2 : Widgets) (F : FilterSpec) (s s1 t t2 : state)
        (d d1 : DataFrame) :
  frame s = Some d ->
  dates_refused w ->
  returns parse w d F ->
  apply_filters parse w s = (Ok tt, s1) ->
  frame s1 = Some d1 ->
  frame t = Some d1 ->
  returns parse2 w2 d1 F ->
  apply_filters parse2 w2 t = (Ok tt, t2) ->
  frame t2 = Some d1.
Proof.
  intros Hd Hw HF Hrun H1 Ht HF2 Hrun2.
  rewrite (@returns_view parse2 w2 t t2 d1 F Ht Hrun2 HF2). f_equal.
  pose proof H1 as H1'.
  rewrite (@returns_view parse w s s1 d F Hd Hrun HF) in H1'.
  injection H1' as <-.
  destruct (role_index d time) as [i|] eqn:Hi.
  - destruct (is_text d i) eqn:Htext.
    + apply empty_view_twice.
      exact (@text_run_empty parse w s s1 d _ i Hw Hd Hi Htext Hrun H1).
    + apply plain_view_twice. intros j Hj.
      rewrite Hi in Hj. now injection Hj as <-.
  - apply plain_view_twice. intros j Hj. congruence.
Qed.

Lemma refiltering_is_idempotent_witness :
  let once := apply_filters Sample.read_date (holding Sample.narrow)
                            (Sample.loaded Sample.census) in
  exists d1,
    frame (snd once) = Some d1 /\
    length (rows Sample.census) = 4 /\ length (rows d1) = 2 /\
    frame (snd (apply_filters Sample.read_date (holding Sample.narrow)
                              (Sample.loaded d1))) = Some d1.
Proof.
  cbv zeta. eexists. split; [vm_compute; reflexivity|].
  split; [reflexivity|]. split; [reflexivity|].
  match goal with
  | |- frame (snd (apply_filters _ _ ?t)) = Some ?d1 =>
      apply (@refiltering_is_idempotent Sample.read_date Sample.read_date
               (holding Sample.narrow) (holding Sample.narrow) Sample.narrow
               (Sample.loaded Sample.census)
               (snd (apply_filters Sample.read_date (holding Sample.narrow)
                                   (Sample.loaded Sample.census)))
               t
               (snd (apply_filters Sample.read_date (holding Sample.narrow)
                                   t))
               Sample.census d1)
  end.
  - reflexivity.
  - apply holding_refuses_dates.
  - vm_compute. repeat split. exists (Int 2019), (Int 2020). repeat split.
  - vm_compute. reflexivity.
  - vm_compute. reflexivity.
  - vm_compute. reflexivity.
  - vm_compute. repeat split. exists (Int 2019), (Int 2020). repeat split.
  - vm_compute. reflexivity.
Defined.

(** C6, at a failing input.  On the sample panel, with one gender
    selected and both handles of the slider on 2019, the filters leave
    the one row of that gender and year.  Filtering that table with the
    same settings does not yield it again: its years have one value,
    the slider is offered equal bounds and refuses them, so that the
    filters raise and a run of the script over that table shows the
    error and no table. *)
Theorem refiltering_single_year_ends_in_error :
  let w := holding Sample.single in
  let once := apply_filters Sample.read_date w
                            (Sample.loaded Sample.panel) in
  exists d1,
    returns Sample.read_date w Sample.panel Sample.single /\
    fst once = Ok tt /\
    frame (snd once) = Some d1 /\
    rows d1 = [[Str "f"; Int 2019; Float 1.5]]%string /\
    let again := apply_filters Sample.read_date w (Sample.loaded d1) in
    let final := main Sample.read_date w (Some "csv"%string) (Ok d1) in
    list_min (filter notna (map (cell 1) (rows d1))) = Ok (Int 2019) /\
    list_max (filter notna (map (cell 1) (rows d1))) = Ok (Int 2019) /\
    slider w (Int 2019) (Int 2019) = Raise StreamlitAPIException /\
    fst again = Raise StreamlitAPIException /\
    page (snd again) = [Multiselect gender [Str "f"] [Str "f"]]%string /\
    In (ErrorBox StreamlitAPIException) (page final) /\
    forall data, ~ In (DataframeView data) (page final).
Proof.
  cbv zeta. eexists.
  split; [vm_compute; repeat split;
          exists (Int 2019), (Int 2020); repeat split|].
  do 8 (split; [vm_compute; reflexivity|]).
  split.
  - vm_compute. tauto.
  - intros data. vm_compute. intuition discriminate.
Qed.

(* ================================================================== *)
(** * The store under the filters *)

Section Store.

Variable parse : value -> option Z.
Variable w : Widgets.

(** A categorical block leaves the state as it is, or binds [df] to
    a frame added to the store. *)
Lemma categorical_filter_store (r : role) (s s' : state) (dcur : DataFrame)
      (res : result unit) :
  frame s = Some dcur ->
  categorical_filter w r s = (res, s') ->
  (s' = s /\ (res = Ok tt -> possible_for s r = [])) \/
  (res = Ok tt /\
   exists x p, s' = moved s (heap s ++ [x]) (length (heap s)) p).
Proof.
  intros Hd Hrun. rewrite (@categorical_filter_run w r s dcur Hd) in Hrun.
  destruct (possible_for s r) as [|col rest].
  - injection Hrun as <- <-. left. auto.
  - destruct (positions col (columns dcur) 0) as [|i [|j l]].
    + injection Hrun as <- <-. left. split; [reflexivity|discriminate].
    + cbv zeta in Hrun. destruct (multiselect w r _) as [sel|e].
      * injection Hrun as <- <-. right. split; [reflexivity|]. eauto.
      * injection Hrun as <- <-. left. split; [reflexivity|discriminate].
    + injection Hrun as <- <-. left. split; [reflexivity|discriminate].
Qed.

(** The time block leaves the state as it is, or rewrites the frame
    [df] is bound to and goes on with frames added to the store. *)
Lemma time_filter_store (s s' : state) (dcur : DataFrame)
      (res : result unit) :
  frame s = Some dcur ->
  time_filter parse w s = (res, s') ->
  s' = s \/
  exists col rest i extra l p,
    possible_for s time = col :: rest /\
    positions col (columns dcur) 0 = [i] /\
    s' = moved s (set_nth (df s) (converted parse dcur i) (heap s) ++ extra)
               l p.
Proof.
  intros Hd Hrun. rewrite (@time_filter_run parse w s dcur Hd) in Hrun.
  destruct (possible_for s time) as [|col rest] eqn:Hp.
  - injection Hrun as <- <-. now left.
  - destruct (positions col (columns dcur) 0) as [|i [|j l]] eqn:Hpos;
      try (injection Hrun as <- <-; now left).
    right. exists col, rest, i. cbv zeta in Hrun.
    repeat match type of Hrun with
           | match ?x with Ok _ => _ | Raise _ => _ end = _ => destruct x
           end;
      injection Hrun as <- <-; eauto 10.
Qed.

(** Once [df] is bound to a later frame, a frame stored below it
    stays as it is. *)
Lemma categorical_filter_rebound (l0 : nat) (d : DataFrame) (r : role)
      (s s' : state) (dcur : DataFrame) (res : result unit) :
  frame s = Some dcur -> rebound l0 d s ->
  categorical_filter w r s = (res, s') ->
  rebound l0 d s' /\ (res = Ok tt -> exists dcur', frame s' = Some dcur').
Proof.
  intros Hd [Hl0 Hlt] Hrun. pose proof (frame_bound _ Hd) as Hb.
  destruct (@categorical_filter_store r s s' dcur res Hd Hrun)
    as [[-> _]|(_ & x & p & ->)].
  - split; [now split|eauto].
  - split; [split|].
    + cbn. rewrite nth_error_app1 by lia. exact Hl0.
    + cbn. lia.
    + intros _. exists x. rewrite frame_moved. apply nth_error_snoc.
Qed.

Lemma time_filter_rebound (l0 : nat) (d : DataFrame)
      (s s' : state) (dcur : DataFrame) (res : result unit) :
  frame s = Some dcur -> rebound l0 d s ->
  time_filter parse w s = (res, s') ->
  nth_error (heap s') l0 = Some d.
Proof.
  intros Hd [Hl0 Hlt] Hrun. pose proof (frame_bound _ Hd) as Hb.
  destruct (@time_filter_store s s' dcur res Hd Hrun)
    as [->|(col & rest & i & extra & l & p & _ & _ & ->)]; [exact Hl0|].
  cbn. rewrite nth_error_app1 by (rewrite set_nth_length; lia).
  rewrite nth_error_set_nth.
  destruct (Nat.eqb_spec l0 (df s)); [lia|exact Hl0].
Qed.

Lemma keeps_categorical (l0 : nat) (d : DataFrame) (r : role) :
  keeps l0 d (categorical_filter w r).
Proof.
  intros s res s' dk Hd Hr Hrun.
  now destruct (@categorical_filter_rebound l0 d r s s' dk res Hd Hr Hrun)
    as [[H _] _].
Qed.

Lemma passes_categorical (l0 : nat) (d : DataFrame) (r : role) :
  passes l0 d (categorical_filter w r).
Proof.
  intros s s' dk Hd Hr Hrun.
  destruct (@categorical_filter_rebound l0 d r s s' dk _ Hd Hr Hrun)
    as [H1 H2]. auto.
Qed.

Lemma keeps_time (l0 : nat) (d : DataFrame) :
  keeps l0 d (time_filter parse w).
Proof.
  intros s res s' dk Hd Hr Hrun.
  exact (@time_filter_rebound l0 d s s' dk res Hd Hr Hrun).
Qed.

Lemma keeps_bind (l0 : nat) (d : DataFrame) (m k : M unit) :
  keeps l0 d m -> passes l0 d m -> keeps l0 d k ->
  keeps l0 d (bind m (fun _ => k)).
Proof.
  intros Hm Hp Hk s res s' dk Hd Hr Hrun. unfold bind in Hrun.
  destruct (m s) as [[[]|e] s1] eqn:E.
  - destruct (Hp s s1 dk Hd Hr E) as [Hr1 [dk1 Hd1]].
    exact (Hk s1 res s' dk1 Hd1 Hr1 Hrun).
  - injection Hrun as <- <-. exact (Hm s (Raise e) s1 dk Hd Hr E).
Qed.

(** The time block, exactly: the frame [df] is bound to is rewritten
    when the time role is mapped to a column with a label of its own,
    whatever comes after; otherwise the state is left as it is. *)
Lemma time_filter_store_exact (s s' : state) (dcur : DataFrame)
      (res : result unit) :
  frame s = Some dcur ->
  time_filter parse w s = (res, s') ->
  match possible_for s time with
  | col :: _ =>
      match positions col (columns dcur) 0 with
      | [i] =>
          exists extra l p,
            s' = moved s (set_nth (df s) (converted parse dcur i) (heap s)
                          ++ extra) l p
      | _ => s' = s
      end
  | [] => s' = s
  end.
Proof.
  intros Hd Hrun. rewrite (@time_filter_run parse w s dcur Hd) in Hrun.
  destruct (possible_for s time) as [|col rest] eqn:Hp.
  - now injection Hrun as <- <-.
  - destruct (positions col (columns dcur) 0) as [|i [|j l]] eqn:Hpos;
      try (now injection Hrun as <- <-).
    cbv zeta in Hrun.
    repeat match type of Hrun with
           | match ?x with Ok _ => _ | Raise _ => _ end = _ => destruct x
           end;
      injection Hrun as <- <-; eauto.
Qed.

End Store.

(* ================================================================== *)
(** * The table the filters start from *)

Lemma left_in_place_shape (parse : value -> option Z) (d : DataFrame) :
  columns (left_in_place parse d) = columns d /\
  length (rows (left_in_place parse d)) = length (rows d).
Proof.
  unfold left_in_place.
  destruct (infer_roles (columns d) income), (infer_roles (columns d) gender),
    (infer_roles (columns d) region), (infer_roles (columns d) time);
    auto.
  destruct (positions _ (columns d) 0) as [|i [|j l]]; auto.
  unfold converted. cbn. split; [reflexivity|apply length_map].
Qed.

(** C9, as the script has it.  Whatever the outcome of the filters, the
    table they started from keeps its column labels and its number of
    rows, and it keeps its cells and column types too whenever a
    categorical role is mapped, the time role is unmapped, the label of
    the time column is not its own, or the time column is not text.
    When no categorical role is mapped and the time role is mapped to a
    text column with a label of its own, the time column of the table
    itself is overwritten, where it stands, with the dates read in it,
    whatever happens afterwards. *)
Theorem original_table_after_filters (parse : value -> option Z)
        (w : Widgets) (s s' : state) (res : result unit) (d : DataFrame) :
  frame s = Some d ->
  apply_filters parse w s = (res, s') ->
  nth_error (heap s') (df s) = Some (left_in_place parse d) /\
  columns (left_in_place parse d) = columns d /\
  length (rows (left_in_place parse d)) = length (rows d) /\
  ((infer_roles (columns d) income <> None \/
    infer_roles (columns d) gender <> None \/
    infer_roles (columns d) region <> None \/
    infer_roles (columns d) time = None \/
    (forall i, role_index d time = Some i -> is_text d i = false) ->
    left_in_place parse d = d) /\
   (forall col i,
      infer_roles (columns d) income = None ->
      infer_roles (columns d) gender = None ->
      infer_roles (columns d) region = None ->
      infer_roles (columns d) time = Some col ->
      positions col (columns d) 0 = [i] ->
      left_in_place parse d = converted parse d i)).
Proof.
  intros Hd Hrun. pose proof (frame_bound _ Hd) as Hb.
  destruct (left_in_place_shape parse d) as [Hcols Hlen].
  split; [|split; [exact Hcols|split; [exact Hlen|]]].
  2:{ split.
      - unfold left_in_place, role_index.
        destruct (infer_roles (columns d) income);
          [intros _; reflexivity|].
        destruct (infer_roles (columns d) gender);
          [intros _; reflexivity|].
        destruct (infer_roles (columns d) region);
          [intros _; reflexivity|].
        destruct (infer_roles (columns d) time) as [col|];
          [|intros _; reflexivity].
        intros [H|[H|[H|[H|H]]]]; try congruence.
        destruct (positions col (columns d) 0) as [|i [|j l]];
          try reflexivity.
        apply converted_not_text. apply H. reflexivity.
      - intros col i Hi Hg Hn Ht Hpos. unfold left_in_place.
        now rewrite Hi, Hg, Hn, Ht, Hpos. }
  unfold apply_filters in Hrun.
  unfold bind at 1 in Hrun. unfold get_df at 1 in Hrun. rewrite Hd in Hrun.
  unfold bind at 1 in Hrun. cbn [assign_possible] in Hrun.
  set (s0 := {| heap := heap s; df := df s;
                possible_income := candidates income (columns d);
                possible_gender := candidates gender (columns d);
                possible_neigh := candidates region (columns d);
                possible_time := candidates time (columns d);
                page := page s |}) in Hrun.
  assert (H0 : frame s0 = Some d) by exact Hd.
  assert (Hreb : forall x p,
            rebound (df s) d (moved s0 (heap s0 ++ [x]) (length (heap s0)) p)
            /\ frame (moved s0 (heap s0 ++ [x]) (length (heap s0)) p)
               = Some x).
  { intros x p. split; [split|].
    - cbn. rewrite nth_error_app1 by exact Hb. exact Hd.
    - cbn. exact Hb.
    - rewrite frame_moved. apply nth_error_snoc. }
  assert (Kc : forall r, keeps (df s) d (categorical_filter w r))
    by (intros r; apply keeps_categorical).
  assert (Pc : forall r, passes (df s) d (categorical_filter w r))
    by (intros r; apply passes_categorical).
  assert (Kt : keeps (df s) d (time_filter parse w)) by apply keeps_time.
  assert (K2 : keeps (df s) d
                 (categorical_filter w region ;; time_filter parse w))
    by (apply keeps_bind; auto).
  assert (K1 : keeps (df s) d
                 (categorical_filter w gender ;;
                  categorical_filter w region ;; time_filter parse w))
    by (apply keeps_bind; auto).
  unfold left_in_place, infer_roles.
  (* income *)
  unfold bind at 1 in Hrun.
  destruct (categorical_filter w income s0) as [res1 s1] eqn:E1.
  destruct (@categorical_filter_store w income s0 s1 d res1 H0 E1)
    as [[-> Hi]|(-> & x & p & ->)].
  2:{ destruct (Hreb x p) as [Hr Hf].
      rewrite (K1 _ res s' x Hf Hr Hrun).
      rewrite (categorical_filter_run w income _ H0) in E1.
      change (possible_for s0 income) with (candidates income (columns d))
        in E1.
      destruct (candidates income (columns d)); [|reflexivity].
      exfalso. injection E1. intros.
      match goal with
      | H : heap s = heap s ++ _ |- _ =>
          apply (f_equal (@length _)) in H; rewrite length_app in H;
          cbn in H; lia
      end. }
  change (possible_for s0 income) with (candidates income (columns d)) in Hi.
  destruct res1 as [[]|e].
  2:{ injection Hrun as <- <-. unfold s0 at 1. cbn [heap].
      fold (frame s). rewrite Hd.
      rewrite (categorical_filter_run w income _ H0) in E1.
      change (possible_for s0 income) with (candidates income (columns d))
        in E1.
      destruct (candidates income (columns d)); [discriminate|reflexivity]. }
  rewrite (Hi eq_refl). cbn [hd_error].
  (* gender *)
  unfold bind at 1 in Hrun.
  destruct (categorical_filter w gender s0) as [res2 s2] eqn:E2.
  destruct (@categorical_filter_store w gender s0 s2 d res2 H0 E2)
    as [[-> Hg]|(-> & x & p & ->)].
  2:{ destruct (Hreb x p) as [Hr Hf].
      rewrite (K2 _ res s' x Hf Hr Hrun).
      rewrite (categorical_filter_run w gender _ H0) in E2.
      change (possible_for s0 gender) with (candidates gender (columns d))
        in E2.
      destruct (candidates gender (columns d)); [|reflexivity].
      exfalso. injection E2. intros.
      match goal with
      | H : heap s = heap s ++ _ |- _ =>
          apply (f_equal (@length _)) in H; rewrite length_app in H;
          cbn in H; lia
      end. }
  change (possible_for s0 gender) with (candidates gender (columns d)) in Hg.
  destruct res2 as [[]|e].
  2:{ injection Hrun as <- <-. unfold s0 at 1. cbn [heap].
      fold (frame s). rewrite Hd.
      rewrite (categorical_filter_run w gender _ H0) in E2.
      change (possible_for s0 gender) with (candidates gender (columns d))
        in E2.
      destruct (candidates gender (columns d)); [discriminate|reflexivity]. }
  rewrite (Hg eq_refl). cbn [hd_error].
  (* region *)
  unfold bind at 1 in Hrun.
  destruct (categorical_filter w region s0) as [res3 s3] eqn:E3.
  destruct (@categorical_filter_store w region s0 s3 d res3 H0 E3)
    as [[-> Hn]|(-> & x & p & ->)].
  2:{ destruct (Hreb x p) as [Hr Hf].
      rewrite (Kt _ res s' x Hf Hr Hrun).
      rewrite (categorical_filter_run w region _ H0) in E3.
      change (possible_for s0 region) with (candidates region (columns d))
        in E3.
      destruct (candidates region (columns d)); [|reflexivity].
      exfalso. injection E3. intros.
      match goal with
      | H : heap s = heap s ++ _ |- _ =>
          apply (f_equal (@length _)) in H; rewrite length_app in H;
          cbn in H; lia
      end. }
  change (possible_for s0 region) with (candidates region (columns d)) in Hn.
  destruct res3 as [[]|e].
  2:{ injection Hrun as <- <-. unfold s0 at 1. cbn [heap].
      fold (frame s). rewrite Hd.
      rewrite (categorical_filter_run w region _ H0) in E3.
      change (possible_for s0 region) with (candidates region (columns d))
        in E3.
      destruct (candidates region (columns d)); [discriminate|reflexivity]. }
  rewrite (Hn eq_refl). cbn [hd_error].
  (* time *)
  pose proof (@time_filter_store_exact parse w s0 s' d res H0 Hrun) as Ht.
  change (possible_for s0 time) with (candidates time (columns d)) in Ht.
  destruct (candidates time (columns d)) as [|col rest]; cbn [hd_error].
  - subst s'. exact Hd.
  - destruct (positions col (columns d) 0) as [|i [|j l]];
      try (subst s'; exact Hd).
    destruct Ht as (extra & l & p & ->). cbn.
    rewrite nth_error_app1 by (rewrite set_nth_length; exact Hb).
    rewrite nth_error_set_nth, Nat.eqb_refl.
    apply Nat.ltb_lt in Hb. now rewrite Hb.
Qed.

Lemma original_table_after_filters_witness :
  nth_error (heap (snd (apply_filters Sample.read_date untouched
                                      (Sample.loaded Sample.census)))) 0
  = Some Sample.census /\
  nth_error (heap (snd (apply_filters Sample.read_date untouched
                                      (Sample.loaded Sample.years)))) 0
  = Some Sample.years.
Proof.
  split.
  - destruct (@original_table_after_filters Sample.read_date untouched
                (Sample.loaded Sample.census)
                (snd (apply_filters Sample.read_date untouched
                                    (Sample.loaded Sample.census)))
                (Ok tt) Sample.census)
      as (H1 & _).
    + reflexivity.
    + vm_compute; reflexivity.
    + exact H1.
  - destruct (@original_table_after_filters Sample.read_date untouched
                (Sample.loaded Sample.years)
                (snd (apply_filters Sample.read_date untouched
                                    (Sample.loaded Sample.years)))
                (Ok tt) Sample.years)
      as (H1 & _).
    + reflexivity.
    + vm_compute; reflexivity.
    + exact H1.
Defined.

(** With a text column of dates and no categorical role, the table the
    filters started from is not the table they leave in its place: its
    dates have been parsed where it stands. *)
Lemma time_filter_overwrites_loaded_table :
  let s' := snd (apply_filters Sample.read_date untouched
                               (Sample.loaded Sample.dated)) in
  frame (Sample.loaded Sample.dated) = Some Sample.dated /\
  nth_error (heap s') (df (Sample.loaded Sample.dated))
  = Some {| columns := ["date"; "value"]%string;
            dtypes := [datetime64; int64];
            rows := [[Timestamp 1; Int 1]; [NA; Int 2]] |} /\
  nth_error (heap s') (df (Sample.loaded Sample.dated)) <> Some Sample.dated.
Proof.
  cbv zeta. split; [reflexivity|]. split; [vm_compute; reflexivity|].
  vm_compute. discriminate.
Qed.

(* ================================================================== *)
(** * The map *)

Lemma infer_roles_candidates (names : list string) (r : role) (col : string) :
  infer_roles names r = Some col ->
  exists rest, candidates r names = col :: rest.
Proof.
  unfold infer_roles. destruct (candidates r names) as [|c rest];
    [discriminate|].
  cbn. intros H. injection H as ->. eauto.
Qed.

Lemma infer_roles_none (names : list string) (r : role) :
  infer_roles names r = None -> candidates r names = [].
Proof.
  unfold infer_roles. now destruct (candidates r names).
Qed.

(** C5, as the script has it.  The map step is skipped, and yields no
    points, when the latitude or the longitude role is unmapped.  When
    both are mapped it hands to [st.map] the latitude and longitude
    cells of every row of the filtered table, in order: the script drops
    no row, whatever its coordinates.  When [st.map] takes the frame it
    is rendered whole; when it refuses the frame the step raises. *)
Theorem build_points_projects_rows (w : Widgets) (s : state)
        (d : DataFrame) :
  frame s = Some d ->
  ((infer_roles (columns d) latitude = None \/
    infer_roles (columns d) longitude = None) ->
   build_points w s = (Ok None, s)) /\
  (forall lat lon i j,
     infer_roles (columns d) latitude = Some lat ->
     infer_roles (columns d) longitude = Some lon ->
     positions lat (columns d) 0 = [i] ->
     positions lon (columns d) 0 = [j] ->
     exists data,
       rows data = map (fun row => [cell i row; cell j row]) (rows d) /\
       length (rows data) = length (rows d) /\
       build_points w s
       = match map_chart w data with
         | Ok _ =>
             (Ok (Some data),
              moved s (heap s) (df s)
                    (page s ++ [Subheader "Geographic Visualization";
                                MapChart data]))
         | Raise e =>
             (Raise e,
              moved s (heap s) (df s)
                    (page s ++ [Subheader "Geographic Visualization"]))
         end).
Proof.
  intros Hd. split.
  - intros H. unfold build_points, bind. unfold get_df at 1. rewrite Hd.
    destruct H as [H|H]; apply infer_roles_none in H; rewrite H;
      [reflexivity|].
    now destruct (candidates latitude (columns d)).
  - intros lat lon i j Hlat Hlon Hi Hj.
    apply infer_roles_candidates in Hlat as [r1 Hlat].
    apply infer_roles_candidates in Hlon as [r2 Hlon].
    unfold build_points, bind. unfold get_df at 1. rewrite Hd, Hlat, Hlon.
    unfold getitem_list. cbn [mapM]. rewrite Hi, Hj. cbn.
    match goal with
    | |- context [map_chart w ?x] => exists x
    end.
    split; [reflexivity|]. split; [cbn; apply length_map|].
    destruct (map_chart w _) as [[]|e]; unfold ret, moved; cbn;
      rewrite <- ?app_assoc; reflexivity.
Qed.

Lemma build_points_projects_rows_witness :
  exists data s',
    build_points untouched (Sample.loaded Sample.places)
    = (Ok (Some data), s') /\
    length (rows data) = length (rows Sample.places).
Proof.
  destruct (@build_points_projects_rows untouched
              (Sample.loaded Sample.places) Sample.places eq_refl)
    as [_ H].
  destruct (H "lat"%string "lon"%string 0 1 eq_refl eq_refl eq_refl eq_refl)
    as (data & Hrows & Hlen & Hrun).
  destruct (map_chart untouched data) as [[]|e].
  - exists data. eexists. split; [exact Hrun|exact Hlen].
  - vm_compute in Hrun. discriminate Hrun.
Defined.

(** A latitude of 100 and a longitude of 200 reach the map like the
    coordinates within range, in the map step alone and in a whole run
    of the script on the sample. *)
Lemma build_points_keeps_every_row :
  let shown :=
    {| columns := ["lat"; "lon"]%string;
       dtypes := [float64; float64];
       rows := [[Float 19; Float (-99)]; [Float 100; Float 200]] |} in
  fst (build_points untouched (Sample.loaded Sample.places))
  = Ok (Some shown) /\
  In (MapChart shown)
     (page (main Sample.read_date untouched (Some "csv"%string)
                 (Ok Sample.places))).
Proof.
  cbv zeta. split; [vm_compute; reflexivity|]. vm_compute. tauto.
Qed.

(* ================================================================== *)
(** * The chart *)

Lemma select_dtypes_numeric (names : list string) (ts : list dtype)
      (c : string) :
  In c (select_dtypes names ts) ->
  exists k, nth_error names k = Some c /\
            (nth k ts object = float64 \/ nth k ts object = int64).
Proof.
  revert ts; induction names as [|n names IH]; intros [|t ts]; simpl;
    try contradiction.
  destruct (dtype_eqb t float64 || dtype_eqb t int64) eqn:Ht.
  - intros [<-|H].
    + exists 0. split; [reflexivity|]. destruct t; try discriminate; auto.
    + destruct (IH _ H) as (k & Hk & Hd). exists (S k). auto.
  - intros H. destruct (IH _ H) as (k & Hk & Hd). exists (S k). auto.
Qed.

(** C4, as the script has it.  The chart step checks nothing and
    knows no error of its own.  Whenever it builds the chart, the figure
    is drawn by [px.scatter] from the filtered table itself, handed
    over whole, with the x and y columns the select boxes returned and,
    for the colour, the cells of the chosen role column or nothing when
    "none" was chosen.  The columns the select boxes offer for x and y
    are columns of the table of type [float64] or [int64]. *)
Theorem build_chart_plots_filtered_table (w : Widgets) (s s' : state)
        (d : DataFrame) (fig : Figure) :
  frame s = Some d ->
  build_chart w s = (Ok fig, s') ->
  let numeric := select_dtypes (columns d) (dtypes d) in
  let roles := [col_or_none (possible_for s income);
                col_or_none (possible_for s gender);
                col_or_none (possible_for s region)] in
  exists x y c color,
    selectbox w x_axis_box numeric 0 = Ok x /\
    selectbox w y_axis_box numeric 1 = Ok y /\
    selectbox w color_box roles 0 = Ok (Some c) /\
    fig = Scatter d x y color (columns d) /\
    (if String.eqb c "none" then color = None
     else exists series, getitem d c = Ok series /\
                         color = Some (tolist series)) /\
    scatter w fig = Ok tt /\
    page s' = page s ++ [Subheader "Explore Inequality Metrics";
                         Selectbox x_axis_box numeric 0;
                         Selectbox y_axis_box numeric 1;
                         Selectbox color_box roles 0;
                         PlotlyChart fig] /\
    heap s' = heap s /\ df s' = df s /\
    (forall a, In a numeric ->
       exists k, nth_error (columns d) k = Some a /\
                 (nth k (dtypes d) object = float64 \/
                  nth k (dtypes d) object = int64)).
Proof.
  intros Hd H. cbv zeta. unfold build_chart in H.
  unfold bind at 1 in H. cbn [emit] in H.
  unfold bind at 1 in H. unfold get_df at 1, frame in H. cbn [heap df] in H.
  unfold frame in Hd. rewrite Hd in H.
  unfold st_selectbox, bind, lift, emit, ret, get_possible in H.
  cbn [heap df page possible_for possible_income possible_gender
       possible_neigh possible_time] in H.
  cbn [possible_for].
  destruct (selectbox w x_axis_box _ 0) as [x|e] eqn:Hx; [|discriminate].
  destruct (selectbox w y_axis_box _ 1) as [y|e] eqn:Hy; [|discriminate].
  destruct (selectbox w color_box _ 0) as [[c|]|e] eqn:Hc;
    try discriminate.
  assert (Hnum : forall a, In a (select_dtypes (columns d) (dtypes d)) ->
            exists k, nth_error (columns d) k = Some a /\
                      (nth k (dtypes d) object = float64 \/
                       nth k (dtypes d) object = int64))
    by (intros a; apply select_dtypes_numeric).
  destruct (String.eqb c "none") eqn:Hnone.
  - destruct (scatter w (Scatter d x y None (columns d))) as [[]|e] eqn:Hs;
      [|discriminate].
    injection H as <- <-. exists x, y, c, None. rewrite Hnone.
    cbn [page heap df]. rewrite <- !app_assoc.
    repeat (split; [first [reflexivity | assumption]|]). exact Hnum.
  - destruct (getitem d c) as [series|e] eqn:Hg; [|discriminate].
    destruct (scatter w (Scatter d x y (Some (tolist series)) (columns d)))
      as [[]|e] eqn:Hs; [|discriminate].
    injection H as <- <-. exists x, y, c, (Some (tolist series)).
    rewrite Hnone. cbn [page heap df]. rewrite <- !app_assoc.
    split; [reflexivity|]. split; [reflexivity|]. split; [reflexivity|].
    split; [reflexivity|]. split; [eauto|].
    repeat (split; [first [reflexivity | assumption]|]). exact Hnum.
Qed.

Lemma build_chart_plots_filtered_table_witness :
  exists s',
    build_chart untouched (Sample.ready Sample.census)
    = (Ok (Scatter Sample.census (Some "year"%string)
                   (Some "value_a"%string)
                   (Some [Str "low"; Str "high"; Str "low"; Str "high"]%string)
                   (columns Sample.census)), s').
Proof.
  destruct (@build_chart_plots_filtered_table untouched
              (Sample.ready Sample.census)
              (snd (build_chart untouched (Sample.ready Sample.census)))
              Sample.census
              (Scatter Sample.census (Some "year"%string)
                 (Some "value_a"%string)
                 (Some [Str "low"; Str "high"; Str "low"; Str "high"]%string)
                 (columns Sample.census)))
    as (x & y & c & color & _).
  - reflexivity.
  - vm_compute. reflexivity.
  - eexists. vm_compute. reflexivity.
Defined.

(** In [dashboard.py] every column is offered for the axes: the first
    column of the sample, which is text, is the default x axis, and the
    chart is built with it. *)
Lemma text_axis_is_plotted :
  selectbox untouched x_axis_box (columns Sample.cities) 0
  = Ok (Some "city"%string) /\
  nth 0 (dtypes Sample.cities) object = object /\
  fst (Dashboard.build_chart untouched (Sample.loaded Sample.cities))
  = Ok (ScatterBy Sample.cities (Some "city") (Some "value")
                  (Some "group"))%string.
Proof.
  repeat split; vm_compute; reflexivity.
Qed.

(* ================================================================== *)
(** * Failure of the chart *)

Lemma same_tables_refl (s : state) : same_tables s s.
Proof. repeat split. Qed.

Lemma same_tables_trans (s1 s2 s3 : state) :
  same_tables s1 s2 -> same_tables s2 s3 -> same_tables s1 s3.
Proof.
  intros (H1 & H2 & H3) (K1 & K2 & K3). split; [congruence|].
  split; [congruence|]. intros r. now rewrite K3.
Qed.

Lemma silent_ret {A} (a : A) : silent (ret a).
Proof.
  intros s res s' H. injection H as <- <-.
  split; [apply same_tables_refl|]. exists []. now rewrite app_nil_r.
Qed.

Lemma silent_lift {A} (r : result A) : silent (lift r).
Proof.
  intros s res s' H. injection H as <- <-.
  split; [apply same_tables_refl|]. exists []. now rewrite app_nil_r.
Qed.

Lemma silent_emit (e : element) : silent (emit e).
Proof.
  intros s res s' H. injection H as <- <-.
  split; [|now exists [e]]. split; [reflexivity|]. split; [reflexivity|].
  now intros [].
Qed.

Lemma silent_get_df : silent get_df.
Proof.
  intros s res s' H. unfold get_df in H.
  destruct (frame s); injection H as <- <-;
    (split; [apply same_tables_refl|]; exists []; now rewrite app_nil_r).
Qed.

Lemma silent_get_possible (r : role) : silent (get_possible r).
Proof.
  intros s res s' H. injection H as <- <-.
  split; [apply same_tables_refl|]. exists []. now rewrite app_nil_r.
Qed.

Lemma silent_bind {A B} (m : M A) (k : A -> M B) :
  silent m -> (forall a, silent (k a)) -> silent (bind m k).
Proof.
  intros Hm Hk s res s' H. unfold bind in H.
  destruct (m s) as [[a|e] s1] eqn:E.
  - destruct (Hm _ _ _ E) as [T1 [p1 P1]].
    destruct (Hk a _ _ _ H) as [T2 [p2 P2]].
    split; [eapply same_tables_trans; eassumption|].
    exists (p1 ++ p2). now rewrite P2, P1, app_assoc.
  - injection H as <- <-. exact (Hm _ _ _ E).
Qed.

Lemma silent_selectbox (w : Widgets) (b : box) (options : list string)
      (index : nat) :
  silent (st_selectbox w b options index).
Proof.
  unfold st_selectbox.
  repeat (apply silent_bind; [|intros]);
    auto using silent_lift, silent_emit, silent_ret.
Qed.

(** The chart step reads the filtered table and the role map and
    writes to the page only. *)
Lemma silent_build_chart (w : Widgets) : silent (build_chart w).
Proof.
  unfold build_chart.
  repeat (apply silent_bind; [|intros]);
    auto using silent_lift, silent_emit, silent_ret, silent_get_df,
               silent_get_possible, silent_selectbox.
  match goal with
  | |- silent (match ?o with Some _ => _ | None => _ end) =>
      destruct o as [c|]; [|apply silent_lift]
  end.
  destruct (String.eqb c "none"); [apply silent_ret|].
  apply silent_bind; [apply silent_lift|intros; apply silent_ret].
Qed.

(** What a chart step that raises has rendered: the subheader and the
    select boxes that came before the exception, and no chart. *)
Lemma build_chart_raise_page (w : Widgets) (s s' : state) (d : DataFrame)
      (e : exn) :
  frame s = Some d ->
  build_chart w s = (Raise e, s') ->
  exists n,
    page s' = page s
              ++ firstn n
                   [Subheader "Explore Inequality Metrics";
                    Selectbox x_axis_box
                              (select_dtypes (columns d) (dtypes d)) 0;
                    Selectbox y_axis_box
                              (select_dtypes (columns d) (dtypes d)) 1;
                    Selectbox color_box
                              [col_or_none (possible_for s income);
                               col_or_none (possible_for s gender);
                               col_or_none (possible_for s region)] 0].
Proof.
  intros Hd H. unfold build_chart in H.
  unfold bind at 1 in H. cbn [emit] in H.
  unfold bind at 1 in H. unfold get_df at 1, frame in H. cbn [heap df] in H.
  unfold frame in Hd. rewrite Hd in H.
  unfold st_selectbox, bind, lift, emit, ret, get_possible in H.
  cbn [heap df page possible_for possible_income possible_gender
       possible_neigh possible_time] in H.
  cbn [possible_for].
  destruct (selectbox w x_axis_box _ 0) as [x|ex];
    [|injection H as _ <-; exists 1; reflexivity].
  destruct (selectbox w y_axis_box _ 1) as [y|ey];
    [|injection H as _ <-; exists 2; cbn; now rewrite <- !app_assoc].
  destruct (selectbox w color_box _ 0) as [[c|]|ec];
    [|injection H as _ <-; exists 4; cbn; now rewrite <- !app_assoc
     |injection H as _ <-; exists 3; cbn; now rewrite <- !app_assoc].
  destruct (String.eqb c "none").
  - destruct (scatter w _) as [[]|es]; [discriminate|].
    injection H as _ <-. exists 4. cbn. now rewrite <- !app_assoc.
  - destruct (getitem d c) as [series|eg];
      [|injection H as _ <-; exists 4; cbn; now rewrite <- !app_assoc].
    destruct (scatter w _) as [[]|es]; [discriminate|].
    injection H as _ <-. exists 4. cbn. now rewrite <- !app_assoc.
Qed.

Lemma process_prepare (parse : value -> option Z) (w : Widgets)
      (csv : result DataFrame) (s : state) :
  process parse w csv s
  = bind (prepare parse w csv)
         (fun _ => bind (build_chart w)
                        (fun _ => bind (build_points w)
                                       (fun _ => preview))) s.
Proof.
  unfold process, prepare, bind.
  destruct (read_csv csv s) as [[a|e] s1]; [|reflexivity].
  destruct (clean s1) as [[b|e] s2]; [|reflexivity].
  destruct (apply_filters parse w s2) as [[c|e] s3]; reflexivity.
Qed.

(** C8, as the script has it.  When the chart step raises after the
    table has been loaded and filtered, the exception is caught where
    the [try] statement ends: the error is shown above the footer and
    the run goes on to its last line.  The store, the binding of [df]
    and the candidates of the roles are those the filters left.  The
    rest of the [try] body is skipped: after what the chart step had
    rendered, the page holds the error and the footer, and neither the
    map nor the preview of the data. *)
Theorem chart_failure_is_contained (parse : value -> option Z) (w : Widgets)
        (url : string) (csv : result DataFrame) (s s' : state) (e : exn)
        (d : DataFrame) :
  prepare parse w csv (snd (page_setup initial)) = (Ok tt, s) ->
  frame s = Some d ->
  build_chart w s = (Raise e, s') ->
  let final := main parse w (Some url) csv in
  same_tables s final /\
  frame final = Some d /\
  exists n,
    page final
    = page s
      ++ firstn n
           [Subheader "Explore Inequality Metrics";
            Selectbox x_axis_box (select_dtypes (columns d) (dtypes d)) 0;
            Selectbox y_axis_box (select_dtypes (columns d) (dtypes d)) 1;
            Selectbox color_box
                      [col_or_none (possible_for s income);
                       col_or_none (possible_for s gender);
                       col_or_none (possible_for s region)] 0]
      ++ [ErrorBox e; Markdown "---"; Markdown "footer"].
Proof.
  intros Hprep Hd Hchart final.
  assert (Hfinal : final = snd (footer (snd (emit (ErrorBox e) s')))).
  { unfold final, main. rewrite process_prepare.
    unfold bind at 1. rewrite Hprep. unfold bind at 1. rewrite Hchart.
    reflexivity. }
  destruct (@silent_build_chart w s (Raise e) s' Hchart)
    as [(H1 & H2 & H3) _].
  destruct (@build_chart_raise_page w s s' d e Hd Hchart) as [n Hn].
  rewrite Hfinal. cbn. split; [|split].
  - split; [cbn; auto|]. split; [cbn; auto|].
    intros r. rewrite <- H3. now destruct r.
  - unfold frame in *. cbn. now rewrite H1, H2.
  - exists n. rewrite Hn. now rewrite <- !app_assoc.
Qed.

Lemma chart_failure_is_contained_witness :
  let s := snd (prepare Sample.read_date untouched (Ok Sample.cities)
                        (snd (page_setup initial))) in
  let final := main Sample.read_date untouched (Some "csv"%string)
                    (Ok Sample.cities) in
  same_tables s final /\ frame final = Some Sample.cities.
Proof.
  cbv zeta.
  destruct (@chart_failure_is_contained Sample.read_date untouched
              "csv"%string (Ok Sample.cities)
              (snd (prepare Sample.read_date untouched (Ok Sample.cities)
                            (snd (page_setup initial))))
              (snd (build_chart untouched
                      (snd (prepare Sample.read_date untouched
                                    (Ok Sample.cities)
                                    (snd (page_setup initial))))))
              StreamlitAPIException Sample.cities) as (H1 & H2 & _).
  - vm_compute; reflexivity.
  - vm_compute; reflexivity.
  - vm_compute; reflexivity.
  - split; assumption.
Defined.

(** On a table with one numeric column the chart step raises at the
    select box of the y axis; the table is as the filters left it, but
    the preview that would show it is not rendered: the failure of the
    chart is not kept apart from the rest of the run. *)
Lemma chart_failure_skips_preview :
  let final := main Sample.read_date untouched (Some "csv"%string)
                    (Ok Sample.cities) in
  frame final = Some Sample.cities /\
  In (ErrorBox StreamlitAPIException) (page final) /\
  (forall data, ~ In (DataframeView data) (page final)) /\
  (forall fig, ~ In (PlotlyChart fig) (page final)).
Proof.
  cbv zeta. split; [vm_compute; reflexivity|]. split; [vm_compute; tauto|].
  split; intros x; vm_compute; intuition discriminate.
Qed.

(* ================================================================== *)
(** * Cleaned column names *)

Module CleanFacts.

Import PyStr.

Ltac by_cases c := destruct c as [[] [] [] [] [] [] [] []]; vm_compute; reflexivity.

Lemma smap_smap (f g : ascii -> ascii) (s : string) :
  smap f (smap g s) = smap (fun c => f (g c)) s.
Proof. induction s as [|c s IH]; simpl; [reflexivity|now rewrite IH]. Qed.

Lemma smap_ext (f g : ascii -> ascii) (s : string) :
  (forall c, f c = g c) -> smap f s = smap g s.
Proof.
  intros H. induction s as [|c s IH]; simpl; [reflexivity|].
  now rewrite H, IH.
Qed.

(** The character map of [replace(" ", "_")] followed by [lower]. *)
Lemma clean_chars (s : string) :
  lower (replace " " "_" s)
  = smap (fun c => lower_char (if Ascii.eqb c " "%char then "_"%char else c)) s.
Proof. unfold lower, replace. apply smap_smap. Qed.

Lemma clean_char_twice (c : ascii) :
  lower_char
    (if Ascii.eqb (lower_char (if Ascii.eqb c " "%char then "_"%char else c)) " "%char
     then "_"%char
     else lower_char (if Ascii.eqb c " "%char then "_"%char else c))
  = lower_char (if Ascii.eqb c " "%char then "_"%char else c).
Proof. by_cases c. Qed.

Lemma clean_char_lower (c : ascii) :
  lower_char (if Ascii.eqb (lower_char c) " "%char then "_"%char else lower_char c)
  = lower_char (if Ascii.eqb c " "%char then "_"%char else c).
Proof. by_cases c. Qed.

Lemma clean_char_shape (c : ascii) :
  let c' := lower_char (if Ascii.eqb c " "%char then "_"%char else c) in
  negb (Ascii.eqb c' " "%char) && negb (is_upper c') = true.
Proof. by_cases c. Qed.

Lemma clean_char_space (c : ascii) :
  negb (isspace c) = true ->
  negb (isspace (lower_char (if Ascii.eqb c " "%char then "_"%char else c)))
  = true.
Proof. destruct c as [[] [] [] [] [] [] [] []]; vm_compute; auto. Qed.

Lemma isspace_lower_char (c : ascii) : isspace (lower_char c) = isspace c.
Proof. by_cases c. Qed.

Lemma all_chars_smap (p : ascii -> bool) (f : ascii -> ascii) (s : string) :
  (forall c, p (f c) = true) -> all_chars p (smap f s) = true.
Proof.
  intros H. induction s as [|c s IH]; simpl; [reflexivity|].
  now rewrite H, IH.
Qed.

(** What [strip] returns starts and ends with a character that is not
    white space, and such a string is left as it is. *)
Lemma starts_clean_lstrip (s : string) : starts_clean (lstrip s) = true.
Proof.
  induction s as [|c s IH]; simpl; [reflexivity|].
  destruct (isspace c) eqn:E; [exact IH|]. simpl. now rewrite E.
Qed.

Lemma ends_clean_rstrip (s : string) : ends_clean (rstrip s) = true.
Proof.
  induction s as [|c s IH]; simpl; [reflexivity|].
  destruct (rstrip s) as [|c' r] eqn:E.
  - destruct (isspace c) eqn:Ec; simpl; [reflexivity|now rewrite Ec].
  - exact IH.
Qed.

Lemma starts_clean_rstrip (s : string) :
  starts_clean s = true -> starts_clean (rstrip s) = true.
Proof.
  destruct s as [|c s]; simpl; [auto|]. intros H.
  destruct (rstrip s); [|exact H].
  destruct (isspace c) eqn:E; [discriminate|]. simpl. now rewrite E.
Qed.

Lemma lstrip_clean (t : string) : starts_clean t = true -> lstrip t = t.
Proof.
  destruct t as [|c t]; simpl; [reflexivity|].
  now destruct (isspace c).
Qed.

Lemma rstrip_clean (t : string) : ends_clean t = true -> rstrip t = t.
Proof.
  induction t as [|c t IH]; [reflexivity|].
  cbn [ends_clean rstrip]. destruct t as [|c' t'].
  - simpl. now destruct (isspace c).
  - intros H. now rewrite (IH H).
Qed.

Lemma strip_clean (t : string) :
  starts_clean t = true -> ends_clean t = true -> strip t = t.
Proof.
  intros H1 H2. unfold strip. now rewrite (lstrip_clean _ H1), rstrip_clean.
Qed.

Lemma starts_clean_smap (f : ascii -> ascii) (t : string) :
  (forall c, negb (isspace c) = true -> negb (isspace (f c)) = true) ->
  starts_clean t = true -> starts_clean (smap f t) = true.
Proof. intros H. destruct t as [|c t]; simpl; auto. Qed.

Lemma ends_clean_smap (f : ascii -> ascii) (t : string) :
  (forall c, negb (isspace c) = true -> negb (isspace (f c)) = true) ->
  ends_clean t = true -> ends_clean (smap f t) = true.
Proof.
  intros H. induction t as [|c t IH]; [reflexivity|].
  cbn [ends_clean smap]. destruct t as [|c' t']; [apply H|exact IH].
Qed.

Lemma strip_clean_name (col : string) :
  strip (clean_name col) = clean_name col.
Proof.
  unfold clean_name. rewrite clean_chars.
  apply strip_clean.
  - apply starts_clean_smap; [exact clean_char_space|].
    unfold strip. apply starts_clean_rstrip, starts_clean_lstrip.
  - apply ends_clean_smap; [exact clean_char_space|].
    unfold strip. apply ends_clean_rstrip.
Qed.

(** Cleaning a cleaned name changes nothing. *)
Lemma clean_name_stable (col : string) :
  clean_name (clean_name col) = clean_name col.
Proof.
  unfold clean_name at 1. rewrite strip_clean_name.
  unfold clean_name. rewrite !clean_chars, smap_smap.
  apply smap_ext, clean_char_twice.
Qed.

(** [strip] commutes with a character map that keeps white space
    apart from the rest. *)
Lemma lstrip_smap (f : ascii -> ascii) (s : string) :
  (forall c, isspace (f c) = isspace c) ->
  lstrip (smap f s) = smap f (lstrip s).
Proof.
  intros H. induction s as [|c s IH]; simpl; [reflexivity|].
  rewrite H. now destruct (isspace c).
Qed.

Lemma rstrip_smap (f : ascii -> ascii) (s : string) :
  (forall c, isspace (f c) = isspace c) ->
  rstrip (smap f s) = smap f (rstrip s).
Proof.
  intros H. induction s as [|c s IH]; simpl; [reflexivity|].
  rewrite IH, H. destruct (rstrip s); simpl; [|reflexivity].
  now destruct (isspace c).
Qed.

Lemma clean_name_lower (col : string) :
  clean_name (lower col) = clean_name col.
Proof.
  unfold clean_name, strip, lower at 2.
  rewrite (lstrip_smap _ _ isspace_lower_char),
          (rstrip_smap _ _ isspace_lower_char).
  rewrite !clean_chars, smap_smap. apply smap_ext, clean_char_lower.
Qed.

(** White space around a name is stripped, whatever its length. *)
Lemma lstrip_space (p : string) : all_chars isspace p = true -> lstrip p = EmptyString.
Proof.
  induction p as [|c p IH]; simpl; [reflexivity|].
  intros H. apply andb_true_iff in H as [-> H]. auto.
Qed.

Lemma rstrip_space (p : string) : all_chars isspace p = true -> rstrip p = EmptyString.
Proof.
  induction p as [|c p IH]; simpl; [reflexivity|].
  intros H. apply andb_true_iff in H as [-> H]. now rewrite IH.
Qed.

Lemma lstrip_padded (p s : string) :
  all_chars isspace p = true -> lstrip (p ++ s)%string = lstrip s.
Proof.
  induction p as [|c p IH]; simpl; [reflexivity|].
  intros H. apply andb_true_iff in H as [-> H]. auto.
Qed.

Lemma rstrip_padded (s p : string) :
  all_chars isspace p = true -> rstrip (s ++ p)%string = rstrip s.
Proof.
  intros H. induction s as [|c s IH]; simpl.
  - now apply rstrip_space.
  - now rewrite IH.
Qed.

Lemma lstrip_app (s p : string) :
  lstrip (s ++ p)%string
  = match lstrip s with
    | EmptyString => lstrip p
    | _ => (lstrip s ++ p)%string
    end.
Proof.
  induction s as [|c s IH]; simpl; [reflexivity|].
  destruct (isspace c); [exact IH|reflexivity].
Qed.

Lemma strip_padded (before s after : string) :
  all_chars isspace before = true -> all_chars isspace after = true ->
  strip (before ++ s ++ after)%string = strip s.
Proof.
  intros Hb Ha. unfold strip. rewrite (lstrip_padded _ _ Hb), lstrip_app.
  destruct (lstrip s) as [|c r] eqn:E.
  - now rewrite (lstrip_space _ Ha).
  - now apply rstrip_padded.
Qed.

End CleanFacts.

(** X1.  The label the cleaning step gives a column holds no space and
    no upper-case letter, neither starts nor ends with white space, and
    is left as it is when it is cleaned again. *)
Theorem clean_name_normal_form (col : string) :
  all_chars (fun c => negb (Ascii.eqb c " "%char) && negb (is_upper c))
            (clean_name col) = true /\
  PyStr.strip (clean_name col) = clean_name col /\
  clean_name (clean_name col) = clean_name col.
Proof.
  split; [|split].
  - unfold clean_name. rewrite CleanFacts.clean_chars.
    apply CleanFacts.all_chars_smap. exact CleanFacts.clean_char_shape.
  - apply CleanFacts.strip_clean_name.
  - apply CleanFacts.clean_name_stable.
Qed.

(** X2.  Two names that differ only in the case of their letters and in
    the white space around them are given the same label by the
    cleaning step. *)
Theorem clean_name_ignores_case_and_padding (before a after b : string) :
  all_chars PyStr.isspace before = true ->
  all_chars PyStr.isspace after = true ->
  PyStr.lower a = PyStr.lower b ->
  clean_name (before ++ a ++ after)%string = clean_name b.
Proof.
  intros Hb Ha Hab.
  transitivity (clean_name a).
  - unfold clean_name. now rewrite (CleanFacts.strip_padded _ _ _ Hb Ha).
  - rewrite <- (CleanFacts.clean_name_lower a), Hab.
    apply CleanFacts.clean_name_lower.
Qed.

Lemma clean_name_ignores_case_and_padding_witness :
  (clean_name ("  " ++ "Household Income" ++ " ")
   = clean_name "HOUSEHOLD INCOME"
   /\ clean_name "HOUSEHOLD INCOME" = "household_income")%string.
Proof.
  split; [|reflexivity].
  apply (@clean_name_ignores_case_and_padding
           "  "%string "Household Income"%string " "%string
           "HOUSEHOLD INCOME"%string);
    reflexivity.
Defined.

(* ================================================================== *)
(** * The cleaning step *)

Lemma some_present (row : list value) :
  negb (forallb isna row) = existsb notna row.
Proof.
  induction row as [|v row IH]; [reflexivity|].
  simpl. rewrite <- IH. unfold notna. now destruct (isna v).
Qed.

Lemma nth_error_set_nth_same {A} (i : nat) (x a : A) (l : list A) :
  nth_error l i = Some a -> nth_error (set_nth i x l) i = Some x.
Proof.
  revert i; induction l as [|b l IH]; intros [|i]; simpl; try discriminate.
  - reflexivity.
  - apply IH.
Qed.

Lemma clean_run (s : state) (d : DataFrame) :
  frame s = Some d ->
  clean s = (Ok tt, moved s (set_nth (df s) (cleaned d) (heap s)) (df s)
                          (page s)).
Proof.
  intros Hd. unfold clean, bind. unfold get_df at 1. rewrite Hd.
  cbn [put_df]. unfold get_df, frame in *. cbn [heap df].
  erewrite nth_error_set_nth_same by exact Hd. cbn [put_df heap df].
  unfold put_df. cbn [heap df possible_income possible_gender possible_neigh
                      possible_time page].
  rewrite set_nth_twice. unfold moved, cleaned, dropna_all, with_rows.
  cbn [columns dtypes rows set_columns]. do 4 f_equal.
  apply filter_ext. intros row. apply some_present.
Qed.

Lemma cleaned_twice (d : DataFrame) : cleaned (cleaned d) = cleaned d.
Proof.
  unfold cleaned. cbn. f_equal.
  - rewrite map_map. apply map_ext. intros c.
    apply CleanFacts.clean_name_stable.
  - rewrite filter_filter. apply filter_ext. intros row.
    apply andb_diag.
Qed.

(** X4.  Running the cleaning step twice is the same as running it
    once, in every state: the second run finds nothing left to
    change. *)
Theorem clean_twice (s : state) :
  (clean ;; clean) s = clean s.
Proof.
  unfold bind at 1. destruct (frame s) as [d|] eqn:Hd.
  - rewrite (clean_run _ Hd).
    assert (H1 : frame (moved s (set_nth (df s) (cleaned d) (heap s)) (df s)
                              (page s)) = Some (cleaned d)).
    { rewrite frame_moved. eapply nth_error_set_nth_same; exact Hd. }
    rewrite (clean_run _ H1). cbn [moved heap df page].
    rewrite cleaned_twice, set_nth_twice. reflexivity.
  - assert (H : clean s = (Raise NameError, s))
      by (unfold clean, bind, get_df; now rewrite Hd).
    now rewrite H.
Qed.

(* ================================================================== *)
(** * What the filters keep *)

Lemma value_eqb_refl (v : value) : value_eqb v v = true.
Proof.
  destruct v; simpl; auto using String.eqb_refl, Z.eqb_refl.
  - apply Qeq_bool_iff. reflexivity.
  - apply Qeq_bool_iff. reflexivity.
  - apply Qeq_bool_iff. reflexivity.
Qed.

(** No option of a multiselect is a missing value. *)
Lemma options_present (v : value) (vs : list value) :
  member v (distinct_nonnull vs) = true -> notna v = true.
Proof.
  intros H. apply dedup_sound in H. apply member_in in H as (x & Hx & Hvx).
  apply filter_In in Hx as [_ Hx].
  destruct v; try reflexivity. destruct x; simpl in *; discriminate.
Qed.

(** Every value of the column that is not missing is an option. *)
Lemma options_member (v : value) (vs : list value) :
  In v vs -> member v (distinct_nonnull vs) = notna v.
Proof.
  intros Hin. destruct (notna v) eqn:Hv.
  - destruct (@dedup_complete v (filter notna vs) []) as [H|H];
      [|discriminate|exact H].
    apply member_in. exists v. split; [|apply value_eqb_refl].
    apply filter_In. now split.
  - destruct (member v (distinct_nonnull vs)) eqn:Hm; [|reflexivity].
    apply options_present in Hm. congruence.
Qed.

(** A categorical block keeps the rows that a test on the row picks. *)
Lemma narrowed_filter (d : DataFrame) (r : role) (selected : list value)
      (rs : list (list value)) :
  narrowed d r selected rs
  = filter (fun row => match role_index d r with
                       | Some i => member (cell i row) selected
                       | None => true
                       end) rs.
Proof.
  unfold narrowed. destruct (role_index d r); [reflexivity|].
  symmetry. now apply filter_all.
Qed.

(** With every option selected the block keeps the rows that hold a
    value in the column. *)
Lemma narrowed_untouched (d : DataFrame) (r : role) (selected : list value)
      (rs : list (list value)) :
  chose untouched r (offered d r rs) selected ->
  narrowed d r selected rs = filter (present_in d r) rs.
Proof.
  unfold chose, offered, narrowed, present_in.
  destruct (role_index d r) as [i|].
  - cbn. intros H. injection H as <-. apply filter_ext_on.
    intros row Hrow. apply options_member. now apply in_map.
  - intros _. symmetry. now apply filter_all.
Qed.

(** With a selection among the options the block keeps only rows that
    hold a value in the column. *)
Lemma narrowed_present (w : Widgets) (d : DataFrame) (r : role)
      (selected : list value) (rs : list (list value)) (row : list value) :
  selects_offered w ->
  chose w r (offered d r rs) selected ->
  In row (narrowed d r selected rs) ->
  In row rs /\ present_in d r row = true.
Proof.
  unfold chose, offered, narrowed, present_in. intros Hw.
  destruct (role_index d r) as [i|].
  - intros Hsel Hin. apply filter_In in Hin as [Hin Hm]. split; [exact Hin|].
    eapply options_present, Hw; eassumption.
  - auto.
Qed.

Lemma value_le_ok_kind (a b : value) (x : bool) :
  notna a = true -> notna b = true -> value_le a b = Ok x ->
  kind_of a = kind_of b.
Proof. destruct a, b; simpl; intros; try discriminate; reflexivity. Qed.

(** A least or greatest value exists only among values of one kind. *)
Lemma reduce_min_kinds (l : list value) (acc m : value) :
  notna acc = true -> Forall (fun v => notna v = true) l ->
  reduce pick_min acc l = Ok m -> Forall (of_kind (kind_of acc)) l.
Proof.
  revert acc; induction l as [|v l IH]; intros acc Hacc Hl Hm;
    [constructor|].
  inversion Hl as [|? ? Hv Hl']; subst. simpl in Hm. unfold pick_min in Hm.
  destruct (value_le v acc) as [x|e] eqn:Hx; [|discriminate].
  pose proof (value_le_ok_kind _ _ Hv Hacc Hx) as Hk.
  constructor; [exact Hk|]. simpl in Hm.
  destruct x; [rewrite <- Hk|]; eapply IH; eassumption.
Qed.

Lemma reduce_max_kinds (l : list value) (acc m : value) :
  notna acc = true -> Forall (fun v => notna v = true) l ->
  reduce pick_max acc l = Ok m -> Forall (of_kind (kind_of acc)) l.
Proof.
  revert acc; induction l as [|v l IH]; intros acc Hacc Hl Hm;
    [constructor|].
  inversion Hl as [|? ? Hv Hl']; subst. simpl in Hm. unfold pick_max in Hm.
  destruct (value_le acc v) as [x|e] eqn:Hx; [|discriminate].
  pose proof (value_le_ok_kind _ _ Hacc Hv Hx) as Hk.
  constructor; [now symmetry|]. simpl in Hm.
  destruct x; [rewrite Hk|]; eapply IH; eassumption.
Qed.

Lemma notna_kind (v : value) : notna v = true -> kind_of v <> k_na.
Proof. destruct v; simpl; intros; discriminate. Qed.

Lemma list_min_lower (l : list value) (lo : value) :
  Forall (fun v => notna v = true) l -> list_min l = Ok lo ->
  Forall (fun v => value_le lo v = Ok true) l.
Proof.
  intros Hl Hlo. destruct l as [|v l]; [constructor|].
  inversion Hl as [|? ? Hv Hl']; subst.
  assert (Hk : Forall (of_kind (kind_of v)) (v :: l)).
  { constructor; [reflexivity|].
    unfold list_min in Hlo. rewrite filter_all in Hlo
      by (intros x Hx; apply (proj1 (Forall_forall _ _) Hl _ Hx)).
    eapply reduce_min_kinds; eassumption. }
  destruct (@list_min_spec _ (notna_kind _ Hv) _ Hk) as (lo' & Hlo' & Hall).
  rewrite Hlo in Hlo'. injection Hlo' as <-. exact Hall.
Qed.

Lemma list_max_upper (l : list value) (hi : value) :
  Forall (fun v => notna v = true) l -> list_max l = Ok hi ->
  Forall (fun v => value_le v hi = Ok true) l.
Proof.
  intros Hl Hhi. destruct l as [|v l]; [constructor|].
  inversion Hl as [|? ? Hv Hl']; subst.
  assert (Hk : Forall (of_kind (kind_of v)) (v :: l)).
  { constructor; [reflexivity|].
    unfold list_max in Hhi. rewrite filter_all in Hhi
      by (intros x Hx; apply (proj1 (Forall_forall _ _) Hl _ Hx)).
    eapply reduce_max_kinds; eassumption. }
  destruct (@list_max_spec _ (notna_kind _ Hv) _ Hk) as (hi' & Hhi' & Hall).
  rewrite Hhi in Hhi'. injection Hhi' as <-. exact Hall.
Qed.

Lemma filter_notna_all (l : list value) :
  Forall (fun v => notna v = true) (filter notna l).
Proof. apply Forall_forall. intros v Hv. now apply filter_In in Hv. Qed.

(** X5.  Whatever the widgets return, filters that go through only drop
    rows: the filtered table has the labels of the table they started
    from and as many column types, its rows are rows of that table
    picked by a test on the row and kept in their order (with the time
    cell as the time filter reads it), and no row of it lacks a time
    value when the time role is mapped. *)
Theorem apply_filters_only_drops_rows (parse : value -> option Z)
        (w : Widgets) (s s' : state) (d : DataFrame) :
  frame s = Some d ->
  apply_filters parse w s = (Ok tt, s') ->
  exists d' keep,
    frame s' = Some d' /\
    columns d' = columns d /\
    length (dtypes d') = length (dtypes d) /\
    rows d' = map (convert_row parse d) (filter keep (rows d)) /\
    length (rows d') <= length (rows d) /\
    forall i row, role_index d time = Some i -> In row (rows d') ->
                  notna (cell i row) = true.
Proof.
  intros Hd Hrun.
  destruct (apply_filters_ok _ _ _ Hd Hrun)
    as (_ & sel_i & sel_g & sel_n & _ & _ & _ & Ht).
  cbv zeta in Ht. rewrite !narrowed_filter, !filter_filter in Ht.
  unfold convert_row.
  destruct (role_index d time) as [i|].
  - destruct Ht as (lo & hi & range & _ & _ & _ & Hf & _).
    eexists. eexists. split; [exact Hf|].
    unfold time_view. cbn [columns dtypes rows with_rows].
    rewrite filter_filter.
    split; [reflexivity|]. split.
    { unfold dtypes_at. destruct (is_text _ i); [|reflexivity].
      apply set_nth_length. }
    split; [reflexivity|]. split.
    { rewrite length_map. apply filter_length_le. }
    intros j row Hj Hrow. injection Hj as <-.
    apply in_map_iff in Hrow as (row0 & <- & Hrow0).
    apply filter_In in Hrow0 as [_ Hrow0].
    rewrite cell_convert_at.
    apply andb_true_iff in Hrow0 as [_ Hrow0].
    now apply andb_true_iff in Hrow0 as [Hrow0 _].
  - destruct Ht as [Hf _].
    eexists. eexists. split; [exact Hf|].
    cbn [columns dtypes rows with_rows].
    split; [reflexivity|]. split; [reflexivity|]. split.
    { now rewrite map_id. }
    split; [apply filter_length_le|]. discriminate.
Qed.

Lemma apply_filters_only_drops_rows_witness :
  exists d' keep,
    frame (snd (apply_filters Sample.read_date (holding Sample.narrow)
                              (Sample.loaded Sample.census))) = Some d' /\
    columns d' = columns Sample.census /\
    length (dtypes d') = length (dtypes Sample.census) /\
    rows d' = map (convert_row Sample.read_date Sample.census)
                  (filter keep (rows Sample.census)) /\
    length (rows d') <= length (rows Sample.census) /\
    forall i row, role_index Sample.census time = Some i -> In row (rows d') ->
                  notna (cell i row) = true.
Proof.
  apply (@apply_filters_only_drops_rows Sample.read_date
           (holding Sample.narrow) (Sample.loaded Sample.census)).
  - reflexivity.
  - vm_compute. reflexivity.
Defined.

(** X6.  On a first run, when every widget returns its default, filters
    that go through keep exactly the rows that hold a value in the
    column of every mapped filter role (a time value, for the time
    role): the default selection is not the whole table, rows with a
    missing value in a filtered column are dropped. *)
Theorem untouched_keeps_complete_rows (parse : value -> option Z)
        (s s' : state) (d : DataFrame) :
  frame s = Some d ->
  apply_filters parse untouched s = (Ok tt, s') ->
  frame s' = Some {| columns := columns d;
                     dtypes := filtered_dtypes d;
                     rows := map (convert_row parse d)
                                 (filter (complete parse d) (rows d)) |}.
Proof.
  intros Hd Hrun.
  destruct (apply_filters_ok _ _ _ Hd Hrun)
    as (_ & sel_i & sel_g & sel_n & Hi & Hg & Hn & Ht).
  cbv zeta in Ht, Hg, Hn.
  rewrite (narrowed_untouched _ _ _ _ Hi) in Hg, Hn, Ht.
  rewrite (narrowed_untouched _ _ _ _ Hg) in Hn, Ht.
  rewrite (narrowed_untouched _ _ _ _ Hn) in Ht.
  rewrite !filter_filter in Ht.
  unfold complete, convert_row, filtered_dtypes.
  destruct (role_index d time) as [i|].
  - destruct Ht as (lo & hi & range & Hlo & Hhi & Hsl & Hf & _).
    cbn [slider untouched] in Hsl.
    destruct (slider_accepts lo hi); [|discriminate].
    injection Hsl as <-. rewrite Hf. f_equal.
    rewrite (@full_range_view parse _ i lo hi).
    + unfold time_present. cbn [columns dtypes rows with_rows].
      rewrite filter_filter. do 2 f_equal. apply filter_ext. intros row.
      now rewrite !andb_assoc.
    + cbn [rows with_rows].
      apply list_min_lower; [apply filter_notna_all|exact Hlo].
    + cbn [rows with_rows].
      apply list_max_upper; [apply filter_notna_all|exact Hhi].
  - destruct Ht as [Hf _]. rewrite Hf. unfold with_rows. f_equal.
    rewrite map_id. f_equal. apply filter_ext. intros row.
    now rewrite andb_true_r, !andb_assoc.
Qed.

Lemma untouched_keeps_complete_rows_witness :
  frame (snd (apply_filters Sample.read_date untouched
                            (Sample.loaded Sample.gaps)))
  = Some {| columns := columns Sample.gaps;
            dtypes := filtered_dtypes Sample.gaps;
            rows := map (convert_row Sample.read_date Sample.gaps)
                        (filter (complete Sample.read_date Sample.gaps)
                                (rows Sample.gaps)) |}
  /\ length (rows Sample.gaps) = 5
  /\ length (filter (complete Sample.read_date Sample.gaps)
                    (rows Sample.gaps)) = 2.
Proof.
  split; [|split; reflexivity].
  apply (@untouched_keeps_complete_rows Sample.read_date
           (Sample.loaded Sample.gaps)).
  - reflexivity.
  - vm_compute. reflexivity.
Defined.

(** X7.  Whenever the multiselects return values among those they
    offer, every row that filters which go through keep holds a value
    in the column of every mapped filter role: a row with a missing
    value in a filtered column cannot be selected back. *)
Theorem filtered_rows_are_complete (parse : value -> option Z) (w : Widgets)
        (s s' : state) (d : DataFrame) :
  selects_offered w ->
  frame s = Some d ->
  apply_filters parse w s = (Ok tt, s') ->
  exists d' kept,
    frame s' = Some d' /\
    rows d' = map (convert_row parse d) kept /\
    forall row, In row kept ->
                In row (rows d) /\ complete parse d row = true.
Proof.
  intros Hw Hd Hrun.
  destruct (apply_filters_ok _ _ _ Hd Hrun)
    as (_ & sel_i & sel_g & sel_n & Hi & Hg & Hn & Ht).
  cbv zeta in Ht, Hg, Hn.
  set (rs1 := narrowed d income sel_i (rows d)) in *.
  set (rs2 := narrowed d gender sel_g rs1) in *.
  set (rs3 := narrowed d region sel_n rs2) in *.
  assert (H3 : forall row, In row rs3 ->
                 In row (rows d) /\
                 present_in d income row && present_in d gender row
                 && present_in d region row = true).
  { intros row Hrow.
    destruct (@narrowed_present w d region sel_n rs2 row Hw Hn Hrow)
      as [Hrow2 P3].
    destruct (@narrowed_present w d gender sel_g rs1 row Hw Hg Hrow2)
      as [Hrow1 P2].
    destruct (@narrowed_present w d income sel_i (rows d) row Hw Hi Hrow1)
      as [Hrow0 P1].
    split; [exact Hrow0|]. now rewrite P1, P2, P3. }
  unfold complete, convert_row.
  destruct (role_index d time) as [i|].
  - destruct Ht as (lo & hi & range & _ & _ & _ & Hf & _).
    eexists. eexists. split; [exact Hf|]. split; [reflexivity|].
    cbn [rows with_rows]. intros row Hrow.
    apply filter_In in Hrow as [Hrow Hv].
    destruct (H3 _ Hrow) as [Hrow0 Hp]. split; [exact Hrow0|].
    rewrite Hp. cbn [andb].
    now apply andb_true_iff in Hv as [Hv _].
  - destruct Ht as [Hf _].
    exists (with_rows d rs3), rs3. split; [exact Hf|].
    split; [cbn; now rewrite map_id|].
    intros row Hrow. destruct (H3 _ Hrow) as [Hrow0 Hp].
    split; [exact Hrow0|]. now rewrite Hp.
Qed.

Lemma filtered_rows_are_complete_witness :
  exists d' kept,
    frame (snd (apply_filters Sample.read_date Sample.first_only
                              (Sample.loaded Sample.gaps))) = Some d' /\
    rows d' = map (convert_row Sample.read_date Sample.gaps) kept /\
    forall row, In row kept ->
                In row (rows Sample.gaps) /\
                complete Sample.read_date Sample.gaps row = true.
Proof.
  apply (@filtered_rows_are_complete Sample.read_date Sample.first_only
           (Sample.loaded Sample.gaps)).
  - intros r options selected v H. injection H as <-.
    destruct options as [|o options]; simpl; [discriminate|].
    intros Hv. apply orb_true_iff in Hv as [Hv|Hv]; [|discriminate].
    now rewrite Hv.
  - reflexivity.
  - vm_compute. reflexivity.
Defined.

(** X8.  When the column mapped to a filter role has a label that
    another column of the table also has, the filters raise: [df[col]]
    is then a frame, not a series.  The cleaning step produces such
    tables from labels that differ in case or in white space only. *)
Theorem duplicate_role_label_fails (parse : value -> option Z) (w : Widgets)
        (s : state) (d : DataFrame) (r : role) (col : string) :
  frame s = Some d ->
  r = income \/ r = gender \/ r = region \/ r = time ->
  infer_roles (columns d) r = Some col ->
  1 < length (positions col (columns d) 0) ->
  exists e s', apply_filters parse w s = (Raise e, s').
Proof.
  intros Hd Hr Hcol Hdup.
  destruct (apply_filters parse w s) as [[[]|e] s'] eqn:Hrun; [|eauto].
  exfalso.
  destruct (apply_filters_ok _ _ _ Hd Hrun) as ((M1 & M2 & M3 & M4) & _).
  assert (Hm : mapped_once d r)
    by (destruct Hr as [->|[->|[->| ->]]]; assumption).
  unfold mapped_once in Hm. rewrite Hcol in Hm. destruct Hm as [i Hi].
  rewrite Hi in Hdup. cbn in Hdup. lia.
Qed.

Lemma duplicate_role_label_fails_witness :
  columns (cleaned Sample.twins) = ["income"; "income"; "value"]%string /\
  exists e s',
    apply_filters Sample.read_date untouched
                  (Sample.loaded (cleaned Sample.twins)) = (Raise e, s').
Proof.
  split; [reflexivity|].
  apply (@duplicate_role_label_fails Sample.read_date untouched
           (Sample.loaded (cleaned Sample.twins)) (cleaned Sample.twins)
           income "income"%string).
  - reflexivity.
  - now left.
  - reflexivity.
  - vm_compute. lia.
Defined.

(** X9.  A table in which no column carries the trigger of a filter
    role goes through the filters as it is, whatever the widgets would
    answer: no widget is rendered, no frame is added to the store, and
    the step cannot fail. *)
Theorem no_roles_no_filtering (parse : value -> option Z) (w : Widgets)
        (s : state) (d : DataFrame) :
  frame s = Some d ->
  (forall r, r = income \/ r = gender \/ r = region \/ r = time ->
             infer_roles (columns d) r = None) ->
  exists s',
    apply_filters parse w s = (Ok tt, s') /\
    frame s' = Some d /\ heap s' = heap s /\ page s' = page s.
Proof.
  intros Hd Hr. unfold apply_filters. unfold bind at 1.
  unfold get_df at 1. rewrite Hd.
  rewrite (infer_roles_none _ _ (Hr income (or_introl eq_refl))).
  rewrite (infer_roles_none _ _ (Hr gender (or_intror (or_introl eq_refl)))).
  rewrite (infer_roles_none _ _
             (Hr region (or_intror (or_intror (or_introl eq_refl))))).
  rewrite (infer_roles_none _ _
             (Hr time (or_intror (or_intror (or_intror eq_refl))))).
  eexists. split; [reflexivity|]. cbn. auto.
Qed.

Lemma no_roles_no_filtering_witness :
  exists s',
    apply_filters Sample.read_date (holding Sample.nobody)
                  (Sample.loaded Sample.cities) = (Ok tt, s') /\
    frame s' = Some Sample.cities /\
    heap s' = heap (Sample.loaded Sample.cities) /\
    page s' = page (Sample.loaded Sample.cities).
Proof.
  apply (@no_roles_no_filtering Sample.read_date (holding Sample.nobody)
           (Sample.loaded Sample.cities) Sample.cities).
  - reflexivity.
  - intros r [->|[->|[->| ->]]]; reflexivity.
Defined.

(* ================================================================== *)
(** * What is rendered after the filters *)

(** X11.  The colour option of a role is the word "none" exactly when
    the role is unmapped: no column that a role can be mapped to is
    called "none", so choosing a mapped role never turns the colouring
    off. *)
Theorem colour_none_iff_unmapped (r : role) (names : list string) :
  col_or_none (candidates r names) = "none"%string
  <-> infer_roles names r = None.
Proof.
  unfold infer_roles.
  destruct (candidates r names) as [|c rest] eqn:Hc; cbn; [tauto|].
  split; [|discriminate]. intros ->. exfalso.
  assert (Hin : In "none"%string (candidates r names))
    by (rewrite Hc; now left).
  destruct r; unfold candidates in Hin; apply filter_In in Hin as [_ Hin];
    vm_compute in Hin; discriminate.
Qed.

Lemma silent_build_points (w : Widgets) : silent (build_points w).
Proof.
  unfold build_points. apply silent_bind; [apply silent_get_df|]. intros d.
  destruct (candidates latitude (columns d)); [apply silent_ret|].
  destruct (candidates longitude (columns d)); [apply silent_ret|].
  repeat (apply silent_bind; [|intros]);
    auto using silent_lift, silent_emit, silent_ret.
Qed.

Lemma same_tables_frame (s s' : state) :
  same_tables s s' -> frame s' = frame s.
Proof. intros (H1 & H2 & _). unfold frame. now rewrite H1, H2. Qed.

(** X12.  When the chart and the map have been rendered, the preview
    shows the first twenty rows of the very table the filters left:
    neither the chart nor the map changes a table or a role variable,
    and the preview is the last thing the [try] body adds to the
    page. *)
Theorem preview_shows_filtered_table (w : Widgets) (s s' : state)
        (d : DataFrame) :
  frame s = Some d ->
  (build_chart w ;; build_points w ;; preview) s = (Ok tt, s') ->
  same_tables s s' /\
  exists shown,
    page s' = page s ++ shown
              ++ [Subheader "Filtered Data";
                  DataframeView (with_rows d (firstn 20 (rows d)))] /\
    length (firstn 20 (rows d)) = Nat.min 20 (length (rows d)).
Proof.
  intros Hd H. unfold bind at 1 in H.
  destruct (build_chart w s) as [[fig|e] s1] eqn:E1; [|discriminate].
  destruct (silent_build_chart _ _ E1) as [T1 [p1 P1]].
  unfold bind at 1 in H.
  destruct (build_points w s1) as [[o|e] s2] eqn:E2; [|discriminate].
  destruct (@silent_build_points w s1 (Ok o) s2 E2) as [T2 [p2 P2]].
  pose proof (same_tables_trans T1 T2) as T.
  assert (Hd2 : frame s2 = Some d) by (now rewrite (same_tables_frame T)).
  unfold preview, bind, emit in H. unfold get_df, frame in H.
  cbn [heap df] in H. unfold frame in Hd2. rewrite Hd2 in H.
  injection H as <-. cbn [page heap df].
  split.
  - destruct T as (H1 & H2 & H3). split; [exact H1|]. split; [exact H2|].
    intros r. rewrite <- (H3 r). now destruct r.
  - exists (p1 ++ p2). split; [|apply length_firstn].
    rewrite P2, P1. unfold head. now rewrite <- !app_assoc.
Qed.

Lemma preview_shows_filtered_table_witness :
  same_tables (Sample.ready Sample.places)
    (snd ((build_chart untouched ;; build_points untouched ;; preview)
            (Sample.ready Sample.places))) /\
  exists shown,
    page (snd ((build_chart untouched ;; build_points untouched ;; preview)
                 (Sample.ready Sample.places)))
    = page (Sample.ready Sample.places) ++ shown
      ++ [Subheader "Filtered Data";
          DataframeView (with_rows Sample.places
                                   (firstn 20 (rows Sample.places)))] /\
    length (firstn 20 (rows Sample.places))
    = Nat.min 20 (length (rows Sample.places)).
Proof.
  apply (@preview_shows_filtered_table untouched
           (Sample.ready Sample.places)).
  - reflexivity.
  - vm_compute. reflexivity.
Defined.

(** X13.  The frame handed to [st.map] has two columns, labelled "lat"
    and "lon" when the latitude and the longitude role are mapped to
    two columns.  When one column carries both roles, both columns of
    that frame are copies of it and both are labelled "lon": in the
    renaming dictionary the second entry for the key replaces the
    first, and the frame has no column "lat".  The step returns that
    frame when [st.map] takes it, and raises what [st.map] raises. *)
Theorem build_points_labels (w : Widgets) (s : state) (d : DataFrame)
        (lat lon : string) (i j : nat) :
  frame s = Some d ->
  infer_roles (columns d) latitude = Some lat ->
  infer_roles (columns d) longitude = Some lon ->
  positions lat (columns d) 0 = [i] ->
  positions lon (columns d) 0 = [j] ->
  exists data,
    columns data = (if String.eqb lat lon then ["lon"; "lon"]
                    else ["lat"; "lon"])%string /\
    length (dtypes data) = 2 /\
    (lat = lon -> map_accepts data = false) /\
    fst (build_points w s) = match map_chart w data with
                             | Ok _ => Ok (Some data)
                             | Raise e => Raise e
                             end.
Proof.
  intros Hd Hlat Hlon Hi Hj.
  apply infer_roles_candidates in Hlat as [r1 Hlat].
  apply infer_roles_candidates in Hlon as [r2 Hlon].
  unfold build_points, bind. unfold get_df at 1. rewrite Hd, Hlat, Hlon.
  unfold getitem_list. cbn [mapM]. rewrite Hi, Hj.
  cbn [emit lift rbind fst snd].
  match goal with |- context [map_chart w ?x] => exists x end.
  cbn [columns dtypes rename2 set_columns map concat app fst snd length].
  rewrite !String.eqb_refl.
  split; [now destruct (String.eqb lat lon)|]. split; [reflexivity|].
  split.
  - intros ->. unfold map_accepts, rename2.
    cbn [columns set_columns map concat app fst snd].
    rewrite !String.eqb_refl. reflexivity.
  - now destruct (map_chart w _) as [[]|e].
Qed.

Lemma build_points_labels_witness :
  (exists data,
     columns data = ["lon"; "lon"]%string /\
     map_accepts data = false /\
     fst (build_points untouched (Sample.loaded Sample.merged))
     = Raise StreamlitAPIException) /\
  (exists data,
     columns data = ["lat"; "lon"]%string /\
     fst (build_points untouched (Sample.loaded Sample.places))
     = Ok (Some data)).
Proof.
  split.
  - destruct (@build_points_labels untouched (Sample.loaded Sample.merged)
                Sample.merged "lat_long"%string "lat_long"%string 0 0)
      as (data & Hc & _ & Hm & _); try reflexivity.
    exists data. split; [exact Hc|]. split; [now apply Hm|].
    vm_compute. reflexivity.
  - destruct (@build_points_labels untouched (Sample.loaded Sample.places)
                Sample.places "lat"%string "lon"%string 0 1)
      as (data & Hc & _ & _ & Hrun); try reflexivity.
    exists data. split; [exact Hc|]. rewrite Hrun.
    destruct (map_chart untouched data) as [[]|e] eqn:Hmap; [reflexivity|].
    exfalso. vm_compute in Hrun. discriminate.
Defined.

(* ================================================================== *)
(** * The catalogue lookup *)

(** X14.  The address the scripts load is the ["url"] entry of the first
    resource, in the order of the catalogue, whose format reads "csv"
    in lower case; no address is found exactly when every resource has
    another format.  The resources that come after the first CSV one
    are not looked at. *)
Theorem csv_url_first_match (resources : list resource)
        (found : option json) :
  csv_url resources = Ok found <->
  match found with
  | Some u =>
      exists before r after,
        resources = before ++ r :: after /\
        Forall (fun r' => is_csv r' = Ok false) before /\
        is_csv r = Ok true /\
        dict_get r "url" = Ok u
  | None => Forall (fun r => is_csv r = Ok false) resources
  end.
Proof.
  split.
  - revert found. induction resources as [|r rest IH]; intros found H.
    + injection H as <-. constructor.
    + cbn [csv_url] in H. destruct (is_csv r) as [[|]|e] eqn:Hr;
        cbn [rbind] in H; [| |discriminate].
      * destruct (dict_get r "url") as [u|e] eqn:Hu; [|discriminate].
        injection H as <-. exists [], r, rest. auto.
      * specialize (IH _ H). destruct found as [u|].
        -- destruct IH as (before & r0 & after & -> & Hb & Hr0 & Hu).
           exists (r :: before), r0, after. auto.
        -- now constructor.
  - destruct found as [u|].
    + intros (before & r & after & -> & Hb & Hr & Hu).
      induction Hb as [|r' before Hr' _ IH]; cbn [app csv_url].
      * now rewrite Hr, Hu.
      * now rewrite Hr'.
    + induction 1 as [|r rest Hr _ IH]; cbn [csv_url]; [reflexivity|].
      now rewrite Hr.
Qed.

(** X15.  The lookup raises exactly when, before any CSV resource, a
    resource has no ["format"] entry or one that is not a string, or
    when the first CSV resource has no ["url"] entry; the exception is
    then the one of that resource. *)
Theorem csv_url_raises (resources : list resource) (e : exn) :
  csv_url resources = Raise e <->
  exists before r after,
    resources = before ++ r :: after /\
    Forall (fun r' => is_csv r' = Ok false) before /\
    ((dict_get r "format" = Raise (KeyError "format") /\
      e = KeyError "format") \/
     (exists v, dict_get r "format" = Ok v /\
                (forall t, v <> JStr t) /\ e = AttributeError) \/
     (is_csv r = Ok true /\ dict_get r "url" = Raise (KeyError "url") /\
      e = KeyError "url")).
Proof.
  assert (Hget : forall (r : resource) key x,
             dict_get r key = Raise x -> x = KeyError key).
  { intros r key x. induction r as [|[k v] r IH]; cbn.
    - intros H. now injection H as <-.
    - destruct (String.eqb k key); [discriminate|exact IH]. }
  split.
  - induction resources as [|r rest IH]; intros H; [discriminate|].
    cbn [csv_url] in H. destruct (is_csv r) as [[|]|x] eqn:Hr;
      cbn [rbind] in H.
    + destruct (dict_get r "url") as [u|x] eqn:Hu; [discriminate|].
      injection H as <-. exists [], r, rest. split; [reflexivity|].
      split; [constructor|]. right. right.
      pose proof (Hget _ _ _ Hu) as ->. auto.
    + destruct (IH H) as (before & r0 & after & -> & Hb & Hcase).
      exists (r :: before), r0, after. auto.
    + injection H as <-. exists [], r, rest. split; [reflexivity|].
      split; [constructor|]. unfold is_csv in Hr.
      destruct (dict_get r "format") as [v|x'] eqn:Hf; cbn [rbind] in Hr.
      * right. left. exists v. split; [reflexivity|].
        destruct v; try discriminate; injection Hr as <-;
          (split; [intros t; discriminate|reflexivity]).
      * injection Hr as <-. left. pose proof (Hget _ _ _ Hf) as ->. auto.
  - intros (before & r & after & -> & Hb & Hcase).
    induction Hb as [|r' before Hr' _ IH]; cbn [app csv_url].
    + destruct Hcase as [[Hf ->]|[(v & Hf & Hv & ->)|(Hr & Hu & ->)]].
      * unfold is_csv. now rewrite Hf.
      * unfold is_csv. rewrite Hf. cbn [rbind].
        destruct v; try reflexivity. now destruct (Hv s).
      * now rewrite Hr, Hu.
    + now rewrite Hr'.
Qed.

(* ================================================================== *)
(** * The scripts from the first line to the last *)

Lemma quiet_app (a b : list element) :
  quiet a = true -> quiet b = true -> quiet (a ++ b) = true.
Proof. unfold quiet. intros Ha Hb. now rewrite forallb_app, Ha, Hb. Qed.

Lemma appends_same {A} (m : M A) :
  (forall s res s', m s = (res, s') -> page s' = page s) -> appends m.
Proof.
  intros H s res s' Hm. exists []. rewrite app_nil_r.
  split; [eapply H; eassumption|reflexivity].
Qed.

Lemma appends_ret {A} (a : A) : appends (ret a).
Proof. apply appends_same. intros s res s' H. now injection H as <- <-. Qed.

Lemma appends_lift {A} (r : result A) : appends (lift r).
Proof. apply appends_same. intros s res s' H. now injection H as <- <-. Qed.

Lemma appends_get_df : appends get_df.
Proof.
  apply appends_same. intros s res s' H. unfold get_df in H.
  destruct (frame s); now injection H as <- <-.
Qed.

Lemma appends_put_df (d : DataFrame) : appends (put_df d).
Proof. apply appends_same. intros s res s' H. now injection H as <- <-. Qed.

Lemma appends_assign_df (d : DataFrame) : appends (assign_df d).
Proof. apply appends_same. intros s res s' H. now injection H as <- <-. Qed.

Lemma appends_get_possible (r : role) : appends (get_possible r).
Proof. apply appends_same. intros s res s' H. now injection H as <- <-. Qed.

Lemma appends_assign_possible (a b c d : list string) :
  appends (assign_possible a b c d).
Proof. apply appends_same. intros s res s' H. now injection H as <- <-. Qed.

Lemma appends_emit (e : element) : is_notice e = false -> appends (emit e).
Proof.
  intros He s res s' H. injection H as <- <-. exists [e].
  split; [reflexivity|]. unfold quiet. cbn. now rewrite He.
Qed.

Lemma appends_bind {A B} (m : M A) (k : A -> M B) :
  appends m -> (forall a, appends (k a)) -> appends (bind m k).
Proof.
  intros Hm Hk s res s' H. unfold bind in H.
  destruct (m s) as [[a|e] s1] eqn:E.
  - destruct (Hm _ _ _ E) as (p1 & P1 & Q1).
    destruct (Hk a _ _ _ H) as (p2 & P2 & Q2).
    exists (p1 ++ p2). split; [now rewrite P2, P1, app_assoc|].
    now apply quiet_app.
  - injection H as <- <-. exact (Hm _ _ _ E).
Qed.

Ltac appends_steps :=
  repeat first
    [ apply appends_bind; [|intros]
    | apply appends_ret | apply appends_lift | apply appends_get_df
    | apply appends_put_df | apply appends_assign_df
    | apply appends_get_possible | apply appends_assign_possible
    | apply appends_emit; reflexivity ].

Lemma appends_categorical_filter (w : Widgets) (r : role) :
  appends (categorical_filter w r).
Proof.
  unfold categorical_filter. apply appends_bind; [appends_steps|].
  intros [|col rest]; unfold st_multiselect; appends_steps.
Qed.

Lemma appends_time_filter (parse : value -> option Z) (w : Widgets) :
  appends (time_filter parse w).
Proof.
  unfold time_filter. apply appends_bind; [appends_steps|].
  intros [|col rest]; [appends_steps|].
  apply appends_bind; [appends_steps|]. intros d.
  apply appends_bind; [appends_steps|]. intros c.
  apply appends_bind;
    [destruct (dtype_eqb (dtype_of c) object); appends_steps|].
  intros _. unfold st_slider. appends_steps.
Qed.

Lemma appends_selectbox (w : Widgets) (b : box) (options : list string)
      (index : nat) :
  appends (st_selectbox w b options index).
Proof. unfold st_selectbox. appends_steps. Qed.

Lemma appends_build_chart (w : Widgets) : appends (build_chart w).
Proof.
  unfold build_chart.
  repeat first [apply appends_selectbox | apply appends_bind; [|intros]
               | apply appends_ret | apply appends_lift | apply appends_get_df
               | apply appends_get_possible | apply appends_emit; reflexivity].
  match goal with
  | |- appends (match ?o with Some _ => _ | None => _ end) =>
      destruct o as [c|]; [|apply appends_lift]
  end.
  destruct (String.eqb c "none"); appends_steps.
Qed.

Lemma appends_build_points (w : Widgets) : appends (build_points w).
Proof.
  unfold build_points. apply appends_bind; [appends_steps|]. intros d.
  destruct (candidates latitude (columns d)); [appends_steps|].
  destruct (candidates longitude (columns d)); appends_steps.
Qed.

Lemma appends_process (parse : value -> option Z) (w : Widgets)
      (csv : result DataFrame) :
  appends (process parse w csv).
Proof.
  unfold process, read_csv, clean, apply_filters, preview.
  repeat first
    [ apply appends_categorical_filter | apply appends_time_filter
    | apply appends_build_chart | apply appends_build_points
    | apply appends_bind; [|intros]
    | apply appends_ret | apply appends_lift | apply appends_get_df
    | apply appends_put_df | apply appends_assign_df
    | apply appends_assign_possible
    | apply appends_emit; reflexivity ].
Qed.

Lemma appends_dashboard_chart (w : Widgets) :
  appends (Dashboard.build_chart w).
Proof.
  unfold Dashboard.build_chart.
  repeat first
    [ apply appends_selectbox | apply appends_bind; [|intros]
    | apply appends_ret | apply appends_lift | apply appends_get_df
    | apply appends_emit; reflexivity ].
Qed.

Lemma appends_dashboard_process (w : Widgets) (csv : result DataFrame) :
  appends (Dashboard.process w csv).
Proof.
  unfold Dashboard.process, Dashboard.build_chart, read_csv.
  repeat first
    [ apply appends_selectbox | apply appends_bind; [|intros]
    | apply appends_ret | apply appends_lift | apply appends_get_df
    | apply appends_assign_df
    | apply appends_emit; reflexivity ].
Qed.

(** X16.  An exception of the catalogue lookup is not handled by either
    script: the run ends with it, the page keeps what was shown before
    the lookup and gets neither an error box nor the footer.  When the
    lookup goes through, both scripts run to their last line. *)
Theorem lookup_failure_escapes (parse : value -> option Z) (w : Widgets)
        (response : result (list resource))
        (load : json -> result DataFrame) :
  match lookup response with
  | Raise e =>
      dashboard_filters_py parse w response load initial
      = (Raise e, snd (page_setup initial)) /\
      page (snd (page_setup initial))
      = [Title; Markdown "introduction"; Header "Filter Data";
         Markdown "sidebar"] /\
      exists s0,
        dashboard_py w response load initial = (Raise e, s0) /\
        page s0 = [Title; Markdown "introduction"]
  | Ok _ =>
      (exists s', dashboard_filters_py parse w response load initial
                  = (Ok tt, s')) /\
      (exists s', dashboard_py w response load initial = (Ok tt, s'))
  end.
Proof.
  unfold lookup, dashboard_filters_py, dashboard_py.
  destruct response as [resources|e]; cbn [rbind].
  - destruct (csv_url resources) as [found|e] eqn:Hf.
    + unfold bind at 1 2 3. cbn [page_setup lift]. unfold bind at 4 5 6 7.
      cbn [emit lift]. rewrite Hf.
      split.
      * unfold bind, footer, try_except, emit.
        destruct found as [u|]; [destruct (truthy u)|]; cbn;
          try (eexists; reflexivity).
        destruct (process parse w (load u) _) as [[[]|x] s1];
          eexists; reflexivity.
      * unfold bind, try_except, emit.
        destruct found as [u|]; [destruct (truthy u)|]; cbn;
          try (eexists; reflexivity).
        destruct (Dashboard.process w (load u) _) as [[[]|x] s1];
          eexists; reflexivity.
    + split; [|split; [reflexivity|]].
      * unfold bind, lift. cbn. now rewrite Hf.
      * eexists.
        split; [unfold bind, lift; cbn; rewrite Hf; reflexivity|reflexivity].
  - split; [reflexivity|]. split; [reflexivity|].
    eexists. split; reflexivity.
Qed.

Lemma dashboard_filters_py_run (parse : value -> option Z) (w : Widgets)
      (response : result (list resource)) (load : json -> result DataFrame)
      (found : option json) :
  lookup response = Ok found ->
  dashboard_filters_py parse w response load initial
  = (match usable found with
     | Some u => try_except (process parse w (load u))
     | None => emit WarningBox
     end ;; footer) (snd (page_setup initial)).
Proof.
  unfold lookup, dashboard_filters_py. destruct response as [rs|e];
    [|discriminate].
  cbn [rbind]. intros Hf. unfold bind at 1. cbn [page_setup].
  unfold bind at 1. cbn [lift]. unfold bind at 1. cbn [lift]. rewrite Hf.
  unfold usable. destruct found as [u|]; [|reflexivity].
  now destruct (truthy u).
Qed.

Lemma dashboard_py_run (w : Widgets)
      (response : result (list resource)) (load : json -> result DataFrame)
      (found : option json) :
  lookup response = Ok found ->
  dashboard_py w response load initial
  = (match usable found with
     | Some u => try_except (Dashboard.process w (load u))
     | None => emit WarningBox
     end ;; emit (Markdown "---") ;; emit (Markdown "footer"))
      (snd ((emit Title ;; emit (Markdown "introduction")) initial)).
Proof.
  unfold lookup, dashboard_py. destruct response as [rs|e];
    [|discriminate].
  cbn [rbind]. intros Hf. unfold bind at 1. cbn [emit].
  unfold bind at 1. cbn [emit].
  unfold bind at 1. cbn [lift]. unfold bind at 1. cbn [lift]. rewrite Hf.
  unfold usable. destruct found as [u|]; [|reflexivity].
  now destruct (truthy u).
Qed.

(** X17.  When the catalogue lookup goes through, [dashboard-filters.py]
    runs to its last line and the page is the page setup, then what the
    [try] body rendered, then at most one box, then the footer.  The
    body renders no warning and no error box; the box is the warning
    when no usable address was found, the error of the exception when
    the body raised one, and is absent otherwise.  A failed download
    leaves nothing between the page setup and the error box. *)
Theorem dashboard_filters_page (parse : value -> option Z) (w : Widgets)
        (response : result (list resource))
        (load : json -> result DataFrame) (found : option json) :
  lookup response = Ok found ->
  exists s' body notices,
    dashboard_filters_py parse w response load initial = (Ok tt, s') /\
    page s' = [Title; Markdown "introduction"; Header "Filter Data";
               Markdown "sidebar"]
              ++ body ++ notices ++ [Markdown "---"; Markdown "footer"] /\
    quiet body = true /\
    match usable found with
    | None => body = [] /\ notices = [WarningBox] /\ heap s' = []
    | Some u =>
        match load u with
        | Raise e => body = [] /\ notices = [ErrorBox e] /\ heap s' = []
        | Ok _ =>
            match fst (process parse w (load u) (snd (page_setup initial)))
            with
            | Ok _ => notices = []
            | Raise e => notices = [ErrorBox e]
            end
        end
    end.
Proof.
  intros Hl. rewrite (dashboard_filters_py_run parse w _ load Hl).
  destruct (usable found) as [u|].
  - unfold bind at 1. unfold try_except.
    destruct (process parse w (load u) (snd (page_setup initial)))
      as [[[]|e] s1] eqn:E.
    + destruct (@appends_process parse w (load u) _ _ _ E) as (body & P & Q).
      eexists. exists body, []. split; [reflexivity|].
      split; [cbn; rewrite P; cbn; now rewrite <- !app_assoc|].
      split; [exact Q|].
      destruct (load u) as [d|e] eqn:El; [reflexivity|].
      unfold process, bind, read_csv, lift in E. discriminate.
    + destruct (@appends_process parse w (load u) _ _ _ E) as (body & P & Q).
      destruct (load u) as [d|e'] eqn:El.
      * eexists. exists body, [ErrorBox e]. split; [reflexivity|].
        split; [cbn; rewrite P; cbn; now rewrite <- !app_assoc|].
        split; [exact Q|reflexivity].
      * unfold process, bind, read_csv, lift in E.
        injection E as <- <-.
        eexists. exists [], [ErrorBox e']. split; [reflexivity|].
        repeat split.
  - eexists. exists [], [WarningBox]. split; [reflexivity|]. repeat split.
Qed.

Lemma dashboard_filters_page_witness :
  exists s' body notices,
    dashboard_filters_py Sample.read_date untouched (Ok Sample.catalogue)
                         (fun _ => Ok Sample.census) initial = (Ok tt, s') /\
    page s' = [Title; Markdown "introduction"; Header "Filter Data";
               Markdown "sidebar"]
              ++ body ++ notices ++ [Markdown "---"; Markdown "footer"] /\
    quiet body = true /\
    notices = [].
Proof.
  destruct (@dashboard_filters_page Sample.read_date untouched
              (Ok Sample.catalogue) (fun _ => Ok Sample.census)
              (Some (JStr "https://example.org/table.csv")))
    as (s' & body & notices & Hrun & Hpage & Hq & Hn).
  - reflexivity.
  - exists s', body, notices. repeat (split; [assumption|]).
    vm_compute in Hn. exact Hn.
Defined.

Lemma silent_dashboard_chart (w : Widgets) : silent (Dashboard.build_chart w).
Proof.
  unfold Dashboard.build_chart.
  repeat first
    [ apply silent_selectbox | apply silent_bind; [|intros]
    | apply silent_lift | apply silent_emit | apply silent_ret
    | apply silent_get_df ].
Qed.

(** What the [try] body of [dashboard.py] does with a table that was
    loaded. *)
Lemma dashboard_process_loaded (w : Widgets) (d : DataFrame)
      (s s' : state) (res : result unit) :
  Dashboard.process w (Ok d) s = (res, s') ->
  heap s' = heap s ++ [d] /\
  exists rest,
    page s' = page s
              ++ [SuccessBox; Subheader "Data Preview";
                  DataframeView (with_rows d (firstn 5 (rows d)))] ++ rest /\
    quiet rest = true.
Proof.
  intros H. unfold Dashboard.process, read_csv in H.
  unfold bind at 1 2 in H. cbn [lift assign_df] in H.
  unfold bind at 1 in H. cbn [emit heap df page possible_income
    possible_gender possible_neigh possible_time] in H.
  unfold bind at 1 in H. cbn [emit heap df page possible_income
    possible_gender possible_neigh possible_time] in H.
  unfold bind at 1 in H. unfold get_df at 1, frame in H.
  cbn [heap df] in H. rewrite nth_error_snoc in H.
  unfold bind at 1 in H. cbn [emit heap df page possible_income
    possible_gender possible_neigh possible_time] in H.
  unfold bind at 1 in H.
  match type of H with
  | context [Dashboard.build_chart w ?st] => set (s3 := st) in H
  end.
  destruct (Dashboard.build_chart w s3) as [[fig|e] s4] eqn:E.
  - destruct (@silent_dashboard_chart w _ _ _ E) as [(H1 & _) [p P]].
    destruct (@appends_dashboard_chart w _ _ _ E) as (p' & P' & Q').
    rewrite P in P'. apply app_inv_head in P'. subst p'.
    injection H as <- <-. rewrite H1, P. cbn [heap page s3].
    split; [reflexivity|]. exists p. split; [|exact Q'].
    unfold head. now rewrite <- !app_assoc.
  - destruct (@silent_dashboard_chart w _ _ _ E) as [(H1 & _) [p P]].
    destruct (@appends_dashboard_chart w _ _ _ E) as (p' & P' & Q').
    rewrite P in P'. apply app_inv_head in P'. subst p'.
    injection H as <- <-. rewrite H1, P. cbn [heap page s3].
    split; [reflexivity|]. exists p. split; [|exact Q'].
    unfold head. now rewrite <- !app_assoc.
Qed.

(** X18.  When the catalogue lookup goes through, [dashboard.py] runs to
    its last line.  Its page is the title and the introduction, then
    what the [try] body rendered, then at most one box, then the
    footer.  After a download that went through, the body starts with
    the success box and the first five rows of the table as it was
    loaded, and that table is the only one in the store at the end,
    whether or not the chart could be built: the script neither cleans
    nor filters it. *)
Theorem dashboard_py_page (w : Widgets) (response : result (list resource))
        (load : json -> result DataFrame) (found : option json) :
  lookup response = Ok found ->
  exists s' body notices,
    dashboard_py w response load initial = (Ok tt, s') /\
    page s' = [Title; Markdown "introduction"]
              ++ body ++ notices ++ [Markdown "---"; Markdown "footer"] /\
    quiet body = true /\
    match usable found with
    | None => body = [] /\ notices = [WarningBox] /\ heap s' = []
    | Some u =>
        match load u with
        | Raise e => body = [] /\ notices = [ErrorBox e] /\ heap s' = []
        | Ok d =>
            heap s' = [d] /\
            (notices = [] \/ exists e, notices = [ErrorBox e]) /\
            exists rest,
              body = [SuccessBox; Subheader "Data Preview";
                      DataframeView (with_rows d (firstn 5 (rows d)))]
                     ++ rest
        end
    end.
Proof.
  intros Hl. rewrite (dashboard_py_run w _ load Hl).
  destruct (usable found) as [u|].
  - unfold bind at 1. unfold try_except.
    destruct (load u) as [d|e] eqn:El.
    + match goal with
      | |- context [Dashboard.process w (Ok d) ?st] => set (top := st)
      end.
      destruct (Dashboard.process w (Ok d) top) as [[[]|e] s1] eqn:E;
        destruct (@dashboard_process_loaded w d top s1 _ E)
          as (Hh & rest & Hp & Hq).
      * eexists.
        exists ([SuccessBox; Subheader "Data Preview";
                 DataframeView (with_rows d (firstn 5 (rows d)))] ++ rest), [].
        split; [reflexivity|].
        cbn [bind emit page heap snd]. rewrite Hp, Hh.
        split; [cbn; rewrite <- !app_assoc; reflexivity|].
        split; [exact Hq|].
        split; [reflexivity|split; [now left|eexists; reflexivity]].
      * eexists.
        exists ([SuccessBox; Subheader "Data Preview";
                 DataframeView (with_rows d (firstn 5 (rows d)))] ++ rest),
               [ErrorBox e].
        split; [reflexivity|].
        cbn [bind emit page heap snd]. rewrite Hp, Hh.
        split; [cbn; rewrite <- !app_assoc; reflexivity|].
        split; [exact Hq|].
        split; [reflexivity|split; [right; eauto|eexists; reflexivity]].
    + eexists. exists [], [ErrorBox e]. split; [reflexivity|]. repeat split.
  - eexists. exists [], [WarningBox]. split; [reflexivity|]. repeat split.
Qed.

Lemma dashboard_py_page_witness :
  exists s' body notices,
    dashboard_py untouched (Ok Sample.catalogue) Sample.download initial
    = (Ok tt, s') /\
    page s' = [Title; Markdown "introduction"]
              ++ body ++ notices ++ [Markdown "---"; Markdown "footer"] /\
    quiet body = true /\
    heap s' = [Sample.cities] /\
    exists rest,
      body = [SuccessBox; Subheader "Data Preview";
              DataframeView (with_rows Sample.cities
                                       (firstn 5 (rows Sample.cities)))]
             ++ rest.
Proof.
  destruct (@dashboard_py_page untouched (Ok Sample.catalogue)
              Sample.download (Some (JStr "https://example.org/table.csv")))
    as (s' & body & notices & Hrun & Hpage & Hq & Hh & _ & Hb).
  - reflexivity.
  - exists s', body, notices. repeat (split; [assumption|]). exact Hb.
Defined.

(** The lookup stops at the first CSV resource: the resource without
    format that follows it in the sample catalogue is not read. *)
Example csv_url_catalogue :
  csv_url Sample.catalogue = Ok (Some (JStr "https://example.org/table.csv"))
  /\ csv_url (rev Sample.catalogue) = Raise (KeyError "format").
Proof. split; reflexivity. Qed.

(* ================================================================== *)
(** * The default choices of the select boxes *)

(** X19.  The y axis of [dashboard-filters.py] defaults to the second
    numeric column ([index=1]).  On a first run over a filtered table
    with exactly one column of type [float64] or [int64], the select box
    of the y axis is refused, the chart step raises after the subheader
    and the x select box were rendered, and no table is changed. *)
Theorem first_run_chart_needs_two_numeric_columns (s : state) (d : DataFrame)
        (c : string) :
  frame s = Some d ->
  select_dtypes (columns d) (dtypes d) = [c] ->
  exists s',
    build_chart untouched s = (Raise StreamlitAPIException, s') /\
    page s' = page s ++ [Subheader "Explore Inequality Metrics";
                         Selectbox x_axis_box [c] 0] /\
    heap s' = heap s /\ df s' = df s.
Proof.
  intros Hd Hsel. unfold build_chart. unfold bind at 1. cbn [emit].
  unfold bind at 1. unfold get_df at 1, frame. cbn [heap df].
  fold (frame s). rewrite Hd, Hsel.
  unfold bind, st_selectbox, lift, emit, ret. cbn.
  eexists. split; [reflexivity|]. cbn. rewrite <- app_assoc. auto.
Qed.

Lemma first_run_chart_needs_two_numeric_columns_witness :
  exists s',
    build_chart untouched (Sample.ready Sample.cities)
    = (Raise StreamlitAPIException, s') /\
    page s' = page (Sample.ready Sample.cities)
              ++ [Subheader "Explore Inequality Metrics";
                  Selectbox x_axis_box ["value"%string] 0] /\
    heap s' = heap (Sample.ready Sample.cities) /\
    df s' = df (Sample.ready Sample.cities).
Proof.
  apply (@first_run_chart_needs_two_numeric_columns
           (Sample.ready Sample.cities) Sample.cities "value"%string);
    reflexivity.
Defined.

(** X20.  The colour of [dashboard.py] defaults to the third column
    ([index=2]) and its y axis to the second.  On a first run over a
    table with one or two columns a select box is refused and the chart
    step raises before any chart is rendered. *)
Theorem dashboard_first_run_needs_three_columns (s : state) (d : DataFrame) :
  frame s = Some d ->
  0 < length (columns d) < 3 ->
  exists s',
    Dashboard.build_chart untouched s = (Raise StreamlitAPIException, s') /\
    heap s' = heap s /\ df s' = df s /\
    forall fig, ~ In (PlotlyChart fig) (skipn (length (page s)) (page s')).
Proof.
  intros Hd Hn. unfold Dashboard.build_chart. unfold bind at 1. cbn [emit].
  unfold bind at 1. unfold get_df at 1, frame. cbn [heap df].
  fold (frame s). rewrite Hd.
  destruct (columns d) as [|a [|b [|c rest]]]; cbn in Hn; try lia;
    unfold bind, st_selectbox, lift, emit, ret; cbn;
    (eexists; split; [reflexivity|]; cbn; split; [reflexivity|];
     split; [reflexivity|]; intros fig;
     rewrite <- ?app_assoc, skipn_app, Nat.sub_diag, skipn_all; cbn;
     intuition discriminate).
Qed.

Lemma dashboard_first_run_needs_three_columns_witness :
  exists s',
    Dashboard.build_chart untouched (Sample.loaded Sample.dated)
    = (Raise StreamlitAPIException, s') /\
    heap s' = heap (Sample.loaded Sample.dated) /\
    df s' = df (Sample.loaded Sample.dated) /\
    forall fig,
      ~ In (PlotlyChart fig)
           (skipn (length (page (Sample.loaded Sample.dated))) (page s')).
Proof.
  apply (@dashboard_first_run_needs_three_columns
           (Sample.loaded Sample.dated) Sample.dated).
  - reflexivity.
  - vm_compute. lia.
Defined.
